(** * RouteDash: order lifecycle and restaurant analytics

    A shallow embedding of the server's order service and analytics service
    ([services/orderService.ts], [services/analyticsService.ts]) together
    with the properties of their specification.

    Conventions of the embedding:
    - JavaScript integers (cents, quantities, counts, epoch milliseconds) are
      [Z]; sums and products of integers are exact, which is what the IEEE
      binary64 arithmetic of the runtime yields while the values stay within
      [+-2^53];
    - the two places where the code leaves the integers,
      [Math.round(subtotalCents * TAX_RATE)] and [Math.round(a / b)], go
      through an explicit model of binary64 rounding (Section JS numbers);
    - the Prisma store is a record of tables (lists of rows, in the order the
      store returns them); an order row carries its items, as the queries of
      the services always [include] them;
    - a service function is a state-passing function on the store that
      returns either a value or the error it throws. *)

From Stdlib Require Import ZArith List String Ascii Bool Lia Permutation Sorted.
Import ListNotations.

Local Open Scope Z_scope.

Abbreviation length := Datatypes.length (only parsing).

(** * JS numbers: the part of binary64 arithmetic the services use *)

Module JSNumber.

(** A finite binary64 value [mant * 2^expo]. *)
Record double : Type := mkDouble { mant : Z; expo : Z }.

(** Numerator and denominator of [a / b] scaled by [2^k]. *)
Definition scaled_num (a k : Z) : Z := a * 2 ^ Z.max k 0.
Definition scaled_den (b k : Z) : Z := b * 2 ^ Z.max (- k) 0.

(** The scaling [k] that brings the quotient [a / b] into the 53-bit
    significand range: [2^52 <= a * 2^k / b < 2^53]. *)
Definition scale_exp (a b : Z) : Z :=
  let k0 := 52 - Z.log2 a + Z.log2 b in
  if scaled_num a k0 / scaled_den b k0 <? 2 ^ 52 then k0 + 1 else k0.

(** Round-to-nearest, ties-to-even, of the positive rational [a / b]
    (exponent range not modelled: no overflow, no subnormals). *)
Definition round_ne_pos (a b : Z) : double :=
  let k := scale_exp a b in
  let num := scaled_num a k in
  let den := scaled_den b k in
  let q := num / den in
  let r := num mod den in
  let m := if 2 * r <? den then q
           else if den <? 2 * r then q + 1
           else if Z.even q then q else q + 1 in
  mkDouble m (- k).

(** The binary64 value nearest to the rational [a / b], for [b > 0]. *)
Definition round_ne (a b : Z) : double :=
  if a =? 0 then mkDouble 0 0
  else let d := round_ne_pos (Z.abs a) b in
       mkDouble (Z.sgn a * mant d) (expo d).

(** [a / b] on two integer-valued numbers, [b > 0]. *)
Definition div (a b : Z) : double := round_ne a b.

(** [n * d] for an integer-valued number [n] and a binary64 value [d]. *)
Definition mul (n : Z) (d : double) : double :=
  round_ne (scaled_num (n * mant d) (expo d)) (scaled_den 1 (expo d)).

(** The number literal of decimal value [num / den], as the parser reads
    it: the nearest binary64 value. *)
Definition literal (num den : Z) : double := round_ne num den.

(** [Math.round]: the nearest integer, ties towards +infinity, that is
    [floor (x + 1/2)]. *)
Definition Math_round (x : double) : Z :=
  if 0 <=? expo x then mant x * 2 ^ expo x
  else (2 * mant x + 2 ^ (- expo x)) / 2 ^ (1 - expo x).

(** The integer nearest to the exact rational [a / b], ties upwards. *)
Definition round_half_up (a b : Z) : Z := (2 * a + b) / (2 * b).

End JSNumber.

(** * JS dates: epoch milliseconds, local time at a fixed offset *)

Module JSDate.

Definition msPerDay : Z := 86400000.
Definition msPerHour : Z := 3600000.

(** [Day(t)] and [TimeWithinDay(t)] of ECMA-262. *)
Definition Day (t : Z) : Z := t / msPerDay.
Definition TimeWithinDay (t : Z) : Z := t mod msPerDay.

(** Year, month (1-12) and day of the month (1-31) of a day number counted
    from 1970-01-01, in the proleptic Gregorian calendar. *)
Definition civil_from_days (z0 : Z) : Z * Z * Z :=
  let z := z0 + 719468 in
  let era := z / 146097 in
  let doe := z - era * 146097 in
  let yoe := (doe - doe / 1460 + doe / 36524 - doe / 146096) / 365 in
  let doy := doe - (365 * yoe + yoe / 4 - yoe / 100) in
  let mp := (5 * doy + 2) / 153 in
  let d := doy - (153 * mp + 2) / 5 + 1 in
  let m := if mp <? 10 then mp + 3 else mp - 9 in
  let y := yoe + era * 400 + (if m <=? 2 then 1 else 0) in
  (y, m, d).

Definition DateFromTime (t : Z) : Z := snd (civil_from_days (Day t)).

Definition digit (n : Z) : ascii := ascii_of_nat (48 + Z.to_nat (n mod 10)).

(** [n] in decimal on [width] digits, zero padded. *)
Fixpoint pad (width : nat) (n : Z) (acc : string) : string :=
  match width with
  | O => acc
  | S w => pad w (n / 10) (String (digit n) acc)
  end.

(** The date part of the ISO 8601 format: [YYYY-MM-DD], and the expanded
    year [+YYYYYY] or [-YYYYYY] outside the years 0 to 9999. *)
Definition isoDateOfDay (day : Z) : string :=
  (* year, hyphen, month, hyphen, day *)
  let '(y, m, d) := civil_from_days day in
  let year := if (0 <=? y) && (y <=? 9999) then pad 4 y EmptyString
              else if y <? 0 then String "-" (pad 6 (- y) EmptyString)
              else String "+" (pad 6 y EmptyString) in
  (year ++ "-" ++ pad 2 m "" ++ "-" ++ pad 2 d "")%string.

(** [date.toISOString().split("T")[0]]: the UTC calendar day of [t]. *)
Definition toISODate (t : Z) : string := isoDateOfDay (Day t).

Section LocalTime.

(** Offset of local time from UTC, in milliseconds (a fixed offset: daylight
    saving changes are not modelled). *)
Variable LocalTZA : Z.

Definition LocalTime (t : Z) : Z := t + LocalTZA.
Definition UTC (t : Z) : Z := t - LocalTZA.

(** [date.getHours()], [date.getDay()] (0 is Sunday), [date.getDate()]. *)
Definition getHours (t : Z) : Z := (LocalTime t / msPerHour) mod 24.
Definition getDay (t : Z) : Z := (Day (LocalTime t) + 4) mod 7.
Definition getDate (t : Z) : Z := DateFromTime (LocalTime t).

(** [date.setDate(dt)]: the local day becomes day [dt] of the current local
    month (days before 1 or past the end of the month carry over), the
    local time of day is kept. *)
Definition setDate (t dt : Z) : Z :=
  let lt := LocalTime t in
  let firstOfMonth := Day lt - (DateFromTime lt - 1) in
  UTC ((firstOfMonth + dt - 1) * msPerDay + TimeWithinDay lt).

End LocalTime.

End JSDate.

(** * JS arrays and maps *)

Module JSArray.

Section Sort.

Context {A : Type}.

(** [compareFn] returns a number: positive when its first argument must come
    after the second. *)
Variable compareFn : A -> A -> Z.

Fixpoint insert (x : A) (l : list A) : list A :=
  match l with
  | [] => [x]
  | y :: l' => if 0 <? compareFn x y then y :: insert x l' else x :: l
  end.

(** [Array.prototype.sort(compareFn)], a stable sort: an element stays
    before the later elements it compares equal to. *)
Definition sort (l : list A) : list A := fold_right insert [] l.

End Sort.

(** Index arithmetic of [Array.prototype.slice]. *)
Definition relativeIndex (len i : Z) : Z :=
  if i <? 0 then Z.max (len + i) 0 else Z.min i len.

(** [arr.slice(start, end)] *)
Definition slice {A : Type} (start stop : Z) (l : list A) : list A :=
  let len := Z.of_nat (length l) in
  let k := relativeIndex len start in
  let final := relativeIndex len stop in
  firstn (Z.to_nat (final - k)) (skipn (Z.to_nat k) l).

(** [arr.slice(start)] *)
Definition sliceFrom {A : Type} (start : Z) (l : list A) : list A :=
  skipn (Z.to_nat (relativeIndex (Z.of_nat (length l)) start)) l.

(** [a.localeCompare(b)] on the keys the analytics compares (digits and
    hyphens), where it is the code-unit order. *)
Definition localeCompare (a b : string) : Z :=
  match String.compare a b with
  | Lt => -1
  | Eq => 0
  | Gt => 1
  end.

End JSArray.

(** [Map]: entries in insertion order; [set] on a present key keeps the
    entry's position. A value fetched with [get] and mutated in place is
    written back with [set] on the same key. *)
Module JSMap.

Section Map.

Context {K V : Type}.
Variable eqb : K -> K -> bool.

Definition t : Type := list (K * V).

Fixpoint get (k : K) (m : t) : option V :=
  match m with
  | [] => None
  | (k', v) :: m' => if eqb k k' then Some v else get k m'
  end.

Fixpoint set (k : K) (v : V) (m : t) : t :=
  match m with
  | [] => [(k, v)]
  | (k', v') :: m' => if eqb k k' then (k', v) :: m' else (k', v') :: set k v m'
  end.

(** [Array.from(map.entries())] *)
Definition entries (m : t) : list (K * V) := m.

End Map.

End JSMap.

(** [Set] of strings: members in insertion order. *)
Module JSSet.

Definition t : Type := list string.

Definition has (x : string) (s : t) : bool := existsb (String.eqb x) s.
Definition add (x : string) (s : t) : t := if has x s then s else s ++ [x].
Definition size (s : t) : Z := Z.of_nat (length s).

End JSSet.

(** * The store (Prisma schema as the services see it) *)

Inductive OrderStatus : Type :=
  | PENDING | PREPARING | READY | COMPLETED | CANCELED.

Definition OrderStatus_eqb (a b : OrderStatus) : bool :=
  match a, b with
  | PENDING, PENDING | PREPARING, PREPARING | READY, READY
  | COMPLETED, COMPLETED | CANCELED, CANCELED => true
  | _, _ => false
  end.

(** The enum value as it prints in a template string. *)
Definition OrderStatus_name (s : OrderStatus) : string :=
  match s with
  | PENDING => "PENDING"
  | PREPARING => "PREPARING"
  | READY => "READY"
  | COMPLETED => "COMPLETED"
  | CANCELED => "CANCELED"
  end.

Record Restaurant : Type := mkRestaurant {
  restaurant_id : string;
  isActive : bool
}.

Record MenuItem : Type := mkMenuItem {
  menuItem_id : string;
  menuItem_restaurantId : string;
  menuItem_name : string;
  menuItem_priceCents : Z;
  isAvailable : bool
}.

(** An order item with its included [menuItem.name] (a required relation). *)
Record OrderItem : Type := mkOrderItem {
  menuItemId : string;
  menuItemName : string;
  quantity : Z;
  priceCents : Z
}.

(** An order with its included items. [createdAt] is in epoch milliseconds.
    The included restaurant and customer summaries are left out. *)
Record Order : Type := mkOrder {
  order_id : string;
  customerId : string;
  restaurantId : string;
  status : OrderStatus;
  pickupEtaMin : Z;
  routeOrigin : string;
  routeDestination : string;
  totalCents : Z;
  createdAt : Z;
  items : list OrderItem
}.

Record Db : Type := mkDb {
  restaurants : list Restaurant;
  menuItems : list MenuItem;
  orders : list Order
}.

(** What the store fills in on [create]: the generated id, [now()] and the
    default of the status column. *)
Record RowDefaults : Type := mkRowDefaults {
  default_id : string;
  default_createdAt : Z;
  default_status : OrderStatus
}.

Inductive Error : Type :=
  | HttpError (statusCode : Z) (message : string)
  | TypeError                 (* a property read on [undefined] *)
  | RecordNotFound.           (* [update] on a row that does not exist *)

Inductive Result (A : Type) : Type :=
  | Ok (a : A)
  | Err (e : Error).

Arguments Ok {A} a.
Arguments Err {A} e.

(** A service call: reads and writes the store, returns or throws. *)
Definition Service (A : Type) : Type := Db -> Result A * Db.

Definition ret {A : Type} (a : A) : Service A := fun db => (Ok a, db).
Definition throw {A : Type} (e : Error) : Service A := fun db => (Err e, db).

Definition bind {A B : Type} (c : Service A) (k : A -> Service B) : Service B :=
  fun db =>
    match c db with
    | (Ok a, db') => k a db'
    | (Err e, db') => (Err e, db')
    end.

Definition query {A : Type} (f : Db -> A) : Service A := fun db => (Ok (f db), db).

Declare Scope service_scope.
Delimit Scope service_scope with service.
Notation "x <- c ;; k" := (bind c (fun x => k))
  (at level 61, c at next level, right associativity) : service_scope.

Module Prisma.

(** [prisma.restaurant.findUnique({ where: { id, isActive: true } })] *)
Definition restaurant_findUnique_active (id : string) : Service (option Restaurant) :=
  query (fun db =>
    find (fun r => String.eqb (restaurant_id r) id && Bool.eqb (isActive r) true)
         (restaurants db)).

(** [prisma.menuItem.findMany({ where: { id: { in: ids }, restaurantId,
    isAvailable: true } })] *)
Definition menuItem_findMany (ids : list string) (rid : string) : Service (list MenuItem) :=
  query (fun db =>
    filter (fun m => existsb (String.eqb (menuItem_id m)) ids
                     && String.eqb (menuItem_restaurantId m) rid
                     && Bool.eqb (isAvailable m) true)
           (menuItems db)).

(** [prisma.order.findUnique({ where: { id } })] *)
Definition order_findUnique (id : string) : Service (option Order) :=
  query (fun db => find (fun o => String.eqb (order_id o) id) (orders db)).

(** [prisma.order.findMany({ where })] *)
Definition order_findMany (where_ : Order -> bool) : Service (list Order) :=
  query (fun db => filter where_ (orders db)).

(** [prisma.order.create({ data })] *)
Definition order_create (row : Order) : Service Order :=
  fun db => (Ok row, mkDb (restaurants db) (menuItems db) (orders db ++ [row])).

(** [prisma.order.update({ where: { id }, data })], [data] as the function
    that overwrites the given columns. *)
Definition order_update (id : string) (data : Order -> Order) : Service Order :=
  fun db =>
    match find (fun o => String.eqb (order_id o) id) (orders db) with
    | None => (Err RecordNotFound, db)
    | Some o =>
        (Ok (data o),
         mkDb (restaurants db) (menuItems db)
              (map (fun o' => if String.eqb (order_id o') id then data o' else o')
                   (orders db)))
    end.

End Prisma.

(** * services/orderService.ts *)

Module OrderService.

Record OrderItemInput : Type := mkOrderItemInput {
  input_menuItemId : string;
  input_quantity : Z
}.

Record CreateOrderInput : Type := mkCreateOrderInput {
  input_restaurantId : string;
  input_items : list OrderItemInput;
  input_pickupEtaMin : Z;
  input_routeOrigin : string;
  input_routeDestination : string
}.

(** [const TAX_RATE = 0.0825] *)
Definition TAX_RATE : JSNumber.double := JSNumber.literal 825 10000.

Definition calculateSubtotal (its : list OrderItem) : Z :=
  fold_left (fun total item => total + priceCents item * quantity item) its 0.

Record Overrides : Type := mkOverrides {
  overrides_subtotalCents : Z;
  overrides_taxCents : Z
}.

(** [{ ...order, subtotalCents, taxCents }] *)
Record OrderWithFinancials : Type := mkOrderWithFinancials {
  order : Order;
  subtotalCents : Z;
  taxCents : Z
}.

Definition attachFinancials (o : Order) (overrides : option Overrides)
  : OrderWithFinancials :=
  let subtotalCents :=
    match overrides with
    | Some ov => overrides_subtotalCents ov
    | None => calculateSubtotal (items o)
    end in
  let taxCents :=
    match overrides with
    | Some ov => overrides_taxCents ov
    | None => Z.max (totalCents o - subtotalCents) 0
    end in
  mkOrderWithFinancials o subtotalCents taxCents.

(** [found.find((i) => i.id === id)!] followed by a property read: a
    [TypeError] when nothing is found. *)
Definition find_menuItem (found : list MenuItem) (id : string) : Result MenuItem :=
  match find (fun i => String.eqb (menuItem_id i) id) found with
  | Some i => Ok i
  | None => Err TypeError
  end.

(** [input.items.reduce((total, item) => total + find(item).priceCents *
    item.quantity, 0)] *)
Fixpoint reduce_subtotal (found : list MenuItem) (its : list OrderItemInput)
                         (total : Z) : Result Z :=
  match its with
  | [] => Ok total
  | item :: rest =>
      match find_menuItem found (input_menuItemId item) with
      | Err e => Err e
      | Ok menuItem =>
          reduce_subtotal found rest
            (total + menuItem_priceCents menuItem * input_quantity item)
      end
  end.

(** [input.items.map((item) => ({ menuItemId, quantity, priceCents:
    find(item).priceCents }))], each row with its included menu item name. *)
Fixpoint create_items (found : list MenuItem) (its : list OrderItemInput)
  : Result (list OrderItem) :=
  match its with
  | [] => Ok []
  | item :: rest =>
      match find_menuItem found (input_menuItemId item) with
      | Err e => Err e
      | Ok menuItem =>
          match create_items found rest with
          | Err e => Err e
          | Ok rows =>
              Ok (mkOrderItem (input_menuItemId item) (menuItem_name menuItem)
                              (input_quantity item) (menuItem_priceCents menuItem)
                  :: rows)
          end
      end
  end.

Definition lift {A : Type} (r : Result A) : Service A := fun db => (r, db).

Definition createOrder (fresh : RowDefaults) (customer : string)
                       (input : CreateOrderInput) : Service OrderWithFinancials :=
  (restaurant <- Prisma.restaurant_findUnique_active (input_restaurantId input) ;;
   match restaurant with
   | None => throw (HttpError 404 "Restaurant not found")
   | Some restaurant =>
       found <- Prisma.menuItem_findMany
                  (map input_menuItemId (input_items input))
                  (restaurant_id restaurant) ;;
       if negb (Nat.eqb (length found) (length (input_items input))) then
         throw (HttpError 400 "Some menu items are unavailable")
       else
         subtotalCents <- lift (reduce_subtotal found (input_items input) 0) ;;
         let taxCents := JSNumber.Math_round (JSNumber.mul subtotalCents TAX_RATE) in
         let totalCents := subtotalCents + taxCents in
         rows <- lift (create_items found (input_items input)) ;;
         o <- Prisma.order_create
                (mkOrder (default_id fresh) customer (restaurant_id restaurant)
                         (default_status fresh) (input_pickupEtaMin input)
                         (input_routeOrigin input) (input_routeDestination input)
                         totalCents (default_createdAt fresh) rows) ;;
         ret (attachFinancials o (Some (mkOverrides subtotalCents taxCents)))
   end)%service.

(** [orderBy: { createdAt: "desc" }] *)
Definition by_createdAt_desc (a b : Order) : Z := createdAt b - createdAt a.

Definition listOrdersForUser (customer : string) : Service (list OrderWithFinancials) :=
  (found <- Prisma.order_findMany (fun o => String.eqb (customerId o) customer) ;;
   let sorted := JSArray.sort by_createdAt_desc found in
   ret (map (fun o => attachFinancials o None) sorted))%service.

Section ListOrdersForRestaurant.

(** Position of a status in the declaration of the enum, which is the
    order of the [status] column. *)
Variable statusRank : OrderStatus -> Z.

(** [orderBy: [{ status: "asc" }, { createdAt: "asc" }]] *)
Definition by_status_then_createdAt (a b : Order) : Z :=
  if statusRank (status a) =? statusRank (status b)
  then createdAt a - createdAt b
  else statusRank (status a) - statusRank (status b).

Definition listOrdersForRestaurant (restaurant : string)
  : Service (list OrderWithFinancials) :=
  (found <- Prisma.order_findMany (fun o => String.eqb (restaurantId o) restaurant) ;;
   let sorted := JSArray.sort by_status_then_createdAt found in
   ret (map (fun o => attachFinancials o None) sorted))%service.

End ListOrdersForRestaurant.

Definition STATUS_TRANSITIONS (s : OrderStatus) : list OrderStatus :=
  match s with
  | PENDING => [PREPARING; CANCELED]
  | PREPARING => [READY; CANCELED]
  | READY => [COMPLETED; CANCELED]
  | COMPLETED => []
  | CANCELED => []
  end.

(** [data: { status: nextStatus }] *)
Definition set_status (s : OrderStatus) (o : Order) : Order :=
  mkOrder (order_id o) (customerId o) (restaurantId o) s (pickupEtaMin o)
          (routeOrigin o) (routeDestination o) (totalCents o) (createdAt o) (items o).

Definition updateOrderStatusForRestaurant (restaurant orderId : string)
                                          (nextStatus : OrderStatus)
  : Service OrderWithFinancials :=
  (found <- Prisma.order_findUnique orderId ;;
   match found with
   | None => throw (HttpError 404 "Order not found")
   | Some o =>
       if negb (String.eqb (restaurantId o) restaurant) then
         throw (HttpError 404 "Order not found")
       else if OrderStatus_eqb (status o) nextStatus then
         ret (attachFinancials o None)
       else
         let allowedTransitions := STATUS_TRANSITIONS (status o) in
         if negb (existsb (OrderStatus_eqb nextStatus) allowedTransitions) then
           throw (HttpError 400 "Invalid status transition")
         else
           updated <- Prisma.order_update orderId (set_status nextStatus) ;;
           ret (attachFinancials updated None)
   end)%service.

Definition getOrderForCustomer (orderId customer : string)
  : Service OrderWithFinancials :=
  (found <- Prisma.order_findUnique orderId ;;
   match found with
   | None => throw (HttpError 404 "Order not found")
   | Some o =>
       if negb (String.eqb (customerId o) customer) then
         throw (HttpError 404 "Order not found")
       else ret (attachFinancials o None)
   end)%service.

(** [UpdateRouteInput], and the [updateData] built from it: an absent
    ([undefined]) field is [None]. *)
Record UpdateRouteInput : Type := mkUpdateRouteInput {
  update_routeOrigin : option string;
  update_routeDestination : option string;
  update_pickupEtaMin : option Z
}.

Definition ROUTE_UPDATEABLE_STATUSES : list OrderStatus := [PENDING; PREPARING].

Definition optional_count {A : Type} (x : option A) : nat :=
  match x with Some _ => 1%nat | None => 0%nat end.

(** [Object.keys(updateData).length] *)
Definition keys_length (d : UpdateRouteInput) : nat :=
  (optional_count (update_routeOrigin d)
   + optional_count (update_routeDestination d)
   + optional_count (update_pickupEtaMin d))%nat.

Definition or_keep {A : Type} (x : option A) (old : A) : A :=
  match x with Some v => v | None => old end.

(** [data: updateData]: the columns present in [updateData] are
    overwritten. *)
Definition apply_updateData (d : UpdateRouteInput) (o : Order) : Order :=
  mkOrder (order_id o) (customerId o) (restaurantId o) (status o)
          (or_keep (update_pickupEtaMin d) (pickupEtaMin o))
          (or_keep (update_routeOrigin d) (routeOrigin o))
          (or_keep (update_routeDestination d) (routeDestination o))
          (totalCents o) (createdAt o) (items o).

Definition route_status_message (s : OrderStatus) : string :=
  ("Cannot update route for order with status " ++ OrderStatus_name s
   ++ ". Only orders with status PENDING or PREPARING can be re-routed.")%string.

Definition updateOrderRoute (orderId customer : string) (input : UpdateRouteInput)
  : Service OrderWithFinancials :=
  (found <- Prisma.order_findUnique orderId ;;
   match found with
   | None => throw (HttpError 404 "Order not found")
   | Some o =>
       if negb (String.eqb (customerId o) customer) then
         throw (HttpError 404 "Order not found")
       else if negb (existsb (OrderStatus_eqb (status o)) ROUTE_UPDATEABLE_STATUSES) then
         throw (HttpError 400 (route_status_message (status o)))
       else
         let updateData := mkUpdateRouteInput None None None in
         let updateData :=
           match update_routeOrigin input with
           | Some v => mkUpdateRouteInput (Some v) (update_routeDestination updateData)
                                          (update_pickupEtaMin updateData)
           | None => updateData
           end in
         let updateData :=
           match update_routeDestination input with
           | Some v => mkUpdateRouteInput (update_routeOrigin updateData) (Some v)
                                          (update_pickupEtaMin updateData)
           | None => updateData
           end in
         checked <-
           match update_pickupEtaMin input with
           | Some eta =>
               if eta <=? 0 then
                 throw (HttpError 400 "pickupEtaMin must be a positive number")
               else ret (mkUpdateRouteInput (update_routeOrigin updateData)
                                            (update_routeDestination updateData)
                                            (Some eta))
           | None => ret updateData
           end ;;
         if Nat.eqb (keys_length checked) 0 then
           throw (HttpError 400 "At least one route field must be provided")
         else
           updated <- Prisma.order_update orderId (apply_updateData checked) ;;
           ret (attachFinancials updated None)
   end)%service.

End OrderService.

(** * services/analyticsService.ts *)

Module AnalyticsService.

Record PopularItem : Type := mkPopularItem {
  item_menuItemId : string;
  item_menuItemName : string;
  totalQuantity : Z;
  orderCount : Z;
  revenueCents : Z
}.

Record PeakTime : Type := mkPeakTime {
  hour : Z;
  peak_orderCount : Z;
  peak_revenueCents : Z
}.

Record RestaurantAnalytics : Type := mkRestaurantAnalytics {
  popularItems : list PopularItem;
  peakTimes : list PeakTime;
  totalOrders : Z;
  totalRevenueCents : Z
}.

(** [where: { restaurantId, status: { not: "CANCELED" } }] *)
Definition not_canceled_of (restaurant : string) (o : Order) : bool :=
  String.eqb (restaurantId o) restaurant
  && negb (OrderStatus_eqb (status o) CANCELED).

(** An order item row with its included [order.id]. *)
Record OrderItemRow : Type := mkOrderItemRow {
  row_item : OrderItem;
  row_orderId : string
}.

(** [prisma.orderItem.findMany({ where: { order: { ... } }, include })] *)
Definition orderItem_findMany (where_order : Order -> bool) : Service (list OrderItemRow) :=
  query (fun db =>
    flat_map (fun o => map (fun i => mkOrderItemRow i (order_id o)) (items o))
             (filter where_order (orders db))).

(** The value type of [itemMap]. *)
Record ItemStats : Type := mkItemStats {
  stats_menuItemId : string;
  stats_menuItemName : string;
  stats_totalQuantity : Z;
  stats_orderIds : JSSet.t;
  stats_revenueCents : Z
}.

(** One iteration of [for (const orderItem of orderItems)]. *)
Definition aggregate_item (itemMap : JSMap.t (K := string) (V := ItemStats))
                          (orderItem : OrderItemRow) : JSMap.t :=
  let id := menuItemId (row_item orderItem) in
  match JSMap.get String.eqb id itemMap with
  | Some existing =>
      JSMap.set String.eqb id
        (mkItemStats (stats_menuItemId existing) (stats_menuItemName existing)
           (stats_totalQuantity existing + quantity (row_item orderItem))
           (JSSet.add (row_orderId orderItem) (stats_orderIds existing))
           (stats_revenueCents existing
            + priceCents (row_item orderItem) * quantity (row_item orderItem)))
        itemMap
  | None =>
      JSMap.set String.eqb id
        (mkItemStats id (menuItemName (row_item orderItem))
           (quantity (row_item orderItem))
           (JSSet.add (row_orderId orderItem) [])
           (priceCents (row_item orderItem) * quantity (row_item orderItem)))
        itemMap
  end.

Definition to_PopularItem (e : string * ItemStats) : PopularItem :=
  let item := snd e in
  mkPopularItem (stats_menuItemId item) (stats_menuItemName item)
                (stats_totalQuantity item) (JSSet.size (stats_orderIds item))
                (stats_revenueCents item).

(** [(a, b) => b.totalQuantity - a.totalQuantity] *)
Definition by_totalQuantity_desc (a b : PopularItem) : Z :=
  totalQuantity b - totalQuantity a.

(** The ranking before [slice(0, limit)]. *)
Definition rankedItems (orderItems : list OrderItemRow) : list PopularItem :=
  let itemMap := fold_left aggregate_item orderItems [] in
  JSArray.sort by_totalQuantity_desc (map to_PopularItem (JSMap.entries itemMap)).

(** [limit: number = 10]: an absent argument is [None]. *)
Definition getPopularItems (restaurant : string) (limit : option Z)
  : Service (list PopularItem) :=
  (let limit := match limit with Some n => n | None => 10 end in
   orderItems <- orderItem_findMany (not_canceled_of restaurant) ;;
   ret (JSArray.slice 0 limit (rankedItems orderItems)))%service.

(** The value type of [hourMap]. *)
Record HourStats : Type := mkHourStats {
  hour_orderCount : Z;
  hour_revenueCents : Z
}.

(** [for (let hour = 0; hour < 24; hour++) hourMap.set(hour, ...)] *)
Definition initial_hourMap : JSMap.t (K := Z) (V := HourStats) :=
  fold_left (fun m h => JSMap.set Z.eqb h (mkHourStats 0 0) m)
            (map Z.of_nat (seq 0 24)) [].

Definition to_PeakTime (e : Z * HourStats) : PeakTime :=
  mkPeakTime (fst e) (hour_orderCount (snd e)) (hour_revenueCents (snd e)).

(** [(a, b) => b.orderCount - a.orderCount] *)
Definition by_orderCount_desc (a b : PeakTime) : Z :=
  peak_orderCount b - peak_orderCount a.

Section LocalTime.

Variable LocalTZA : Z.

(** One iteration of [for (const order of orders)]; [hourMap.get(hour)!]
    followed by a property write throws when the hour has no entry. *)
Definition aggregate_hour (acc : Result (JSMap.t (K := Z) (V := HourStats)))
                          (o : Order) : Result JSMap.t :=
  match acc with
  | Err e => Err e
  | Ok hourMap =>
      let h := JSDate.getHours LocalTZA (createdAt o) in
      match JSMap.get Z.eqb h hourMap with
      | None => Err TypeError
      | Some existing =>
          Ok (JSMap.set Z.eqb h
                (mkHourStats (hour_orderCount existing + 1)
                             (hour_revenueCents existing + totalCents o))
                hourMap)
      end
  end.

Definition peakTimes_of (found : list Order) : Result (list PeakTime) :=
  match fold_left aggregate_hour found (Ok initial_hourMap) with
  | Err e => Err e
  | Ok hourMap =>
      Ok (JSArray.sort by_orderCount_desc (map to_PeakTime (JSMap.entries hourMap)))
  end.

Definition getPeakTimes (restaurant : string) : Service (list PeakTime) :=
  (found <- Prisma.order_findMany (not_canceled_of restaurant) ;;
   OrderService.lift (peakTimes_of found))%service.

(** [prisma.order.aggregate({ where, _count: { id: true }, _sum: {
    totalCents: true } })]: the sum over no row is [null]. *)
Definition order_aggregate (where_ : Order -> bool) : Service (Z * option Z) :=
  query (fun db =>
    let rows := filter where_ (orders db) in
    (Z.of_nat (length rows),
     match rows with
     | [] => None
     | _ => Some (fold_left (fun s o => s + totalCents o) rows 0)
     end)).

(** [popularItemsLimit: number = 10] *)
Definition getRestaurantAnalytics (restaurant : string) (popularItemsLimit : option Z)
  : Service RestaurantAnalytics :=
  (let limit := match popularItemsLimit with Some n => n | None => 10 end in
   popular <- getPopularItems restaurant (Some limit) ;;
   peak <- getPeakTimes restaurant ;;
   orderStats <- order_aggregate (not_canceled_of restaurant) ;;
   ret (mkRestaurantAnalytics popular peak (fst orderStats)
          (match snd orderStats with Some s => s | None => 0 end)))%service.

End LocalTime.

End AnalyticsService.

(** * [getRestaurantAnalytics] of orderService.ts (the merchant dashboard) *)

Module DashboardAnalytics.

Record PopularItem : Type := mkPopularItem {
  item_menuItemId : string;
  item_name : string;
  totalQuantity : Z;
  item_totalRevenueCents : Z
}.

Record TimeBasedStats : Type := mkTimeBasedStats {
  date : string;
  orderCount : Z;
  stats_totalRevenueCents : Z;
  averageOrderValueCents : Z
}.

Record HourCount : Type := mkHourCount {
  hour : Z;
  hour_orderCount : Z
}.

Record RestaurantAnalytics : Type := mkRestaurantAnalytics {
  popularItems : list PopularItem;
  averageOrderCostCents : Z;
  totalOrders : Z;
  totalRevenueCents : Z;
  ordersByDay : list TimeBasedStats;
  ordersByWeek : list TimeBasedStats;
  peakOrderingHours : list HourCount
}.

(** The value type of [ordersByDayMap] and [ordersByWeekMap]. *)
Record Bucket : Type := mkBucket {
  count : Z;
  revenue : Z
}.

(** The body shared by the two [orders.forEach] loops over a date key. *)
Definition add_to_bucket (key : string) (o : Order)
                         (m : JSMap.t (K := string) (V := Bucket)) : JSMap.t :=
  match JSMap.get String.eqb key m with
  | Some existing =>
      JSMap.set String.eqb key
        (mkBucket (count existing + 1) (revenue existing + totalCents o)) m
  | None => JSMap.set String.eqb key (mkBucket 1 (totalCents o)) m
  end.

Definition to_TimeBasedStats (e : string * Bucket) : TimeBasedStats :=
  let data := snd e in
  mkTimeBasedStats (fst e) (count data) (revenue data)
    (JSNumber.Math_round (JSNumber.div (revenue data) (count data))).

(** [(a, b) => a.date.localeCompare(b.date)] *)
Definition by_date_asc (a b : TimeBasedStats) : Z :=
  JSArray.localeCompare (date a) (date b).

(** [new Date(order.createdAt).toISOString().split("T")[0]] *)
Definition dayKey (o : Order) : string := JSDate.toISODate (createdAt o).

(** All day buckets, sorted, before [slice(-30)]. *)
Definition dayBuckets (found : list Order) : list TimeBasedStats :=
  let ordersByDayMap := fold_left (fun m o => add_to_bucket (dayKey o) o m) found [] in
  JSArray.sort by_date_asc (map to_TimeBasedStats (JSMap.entries ordersByDayMap)).

(** The value type of [itemMap]. *)
Record ItemTotals : Type := mkItemTotals {
  totals_name : string;
  totals_totalQuantity : Z;
  totals_totalRevenueCents : Z
}.

(** The body of [order.items.forEach]. The included [menuItem] is always
    present, so the ["Unknown Item"] fallback of the source is not taken. *)
Definition aggregate_item (itemMap : JSMap.t (K := string) (V := ItemTotals))
                          (orderItem : OrderItem) : JSMap.t :=
  let id := menuItemId orderItem in
  let name := menuItemName orderItem in
  let qty := quantity orderItem in
  let revenueCents := priceCents orderItem * qty in
  match JSMap.get String.eqb id itemMap with
  | Some existing =>
      JSMap.set String.eqb id
        (mkItemTotals (totals_name existing)
                      (totals_totalQuantity existing + qty)
                      (totals_totalRevenueCents existing + revenueCents))
        itemMap
  | None => JSMap.set String.eqb id (mkItemTotals name qty revenueCents) itemMap
  end.

Definition to_PopularItem (e : string * ItemTotals) : PopularItem :=
  mkPopularItem (fst e) (totals_name (snd e)) (totals_totalQuantity (snd e))
                (totals_totalRevenueCents (snd e)).

Definition by_totalQuantity_desc (a b : PopularItem) : Z :=
  totalQuantity b - totalQuantity a.

Definition by_orderCount_desc (a b : HourCount) : Z :=
  hour_orderCount b - hour_orderCount a.

Section LocalTime.

Variable LocalTZA : Z.

(** [weekStart.setDate(date.getDate() - date.getDay())] on a copy of the
    order's date. *)
Definition weekStart (t : Z) : Z :=
  JSDate.setDate LocalTZA t (JSDate.getDate LocalTZA t - JSDate.getDay LocalTZA t).

Definition weekKey (o : Order) : string := JSDate.toISODate (weekStart (createdAt o)).

(** All week buckets, sorted, before [slice(-12)]. *)
Definition weekBuckets (found : list Order) : list TimeBasedStats :=
  let ordersByWeekMap := fold_left (fun m o => add_to_bucket (weekKey o) o m) found [] in
  JSArray.sort by_date_asc (map to_TimeBasedStats (JSMap.entries ordersByWeekMap)).

(** [hourCounts.set(hour, (hourCounts.get(hour) || 0) + 1)] *)
Definition count_hour (hourCounts : JSMap.t (K := Z) (V := Z)) (o : Order) : JSMap.t :=
  let h := JSDate.getHours LocalTZA (createdAt o) in
  let previous :=
    match JSMap.get Z.eqb h hourCounts with
    | Some c => if c =? 0 then 0 else c
    | None => 0
    end in
  JSMap.set Z.eqb h (previous + 1) hourCounts.

Definition getRestaurantAnalytics (restaurant : string) : Service RestaurantAnalytics :=
  (found <- Prisma.order_findMany (AnalyticsService.not_canceled_of restaurant) ;;
   let totalOrders := Z.of_nat (length found) in
   let totalRevenueCents := fold_left (fun sum o => sum + totalCents o) found 0 in
   let averageOrderCostCents :=
     if 0 <? totalOrders
     then JSNumber.Math_round (JSNumber.div totalRevenueCents totalOrders)
     else 0 in
   let ordersByDay := JSArray.sliceFrom (-30) (dayBuckets found) in
   let ordersByWeek := JSArray.sliceFrom (-12) (weekBuckets found) in
   let hourCounts := fold_left count_hour found [] in
   let peakOrderingHours :=
     JSArray.slice 0 5
       (JSArray.sort by_orderCount_desc
          (map (fun e => mkHourCount (fst e) (snd e)) (JSMap.entries hourCounts))) in
   let itemMap :=
     fold_left (fun m o => fold_left aggregate_item (items o) m) found [] in
   let popularItems :=
     JSArray.sort by_totalQuantity_desc (map to_PopularItem (JSMap.entries itemMap)) in
   ret (mkRestaurantAnalytics popularItems averageOrderCostCents totalOrders
          totalRevenueCents ordersByDay ordersByWeek peakOrderingHours))%service.

End LocalTime.

End DashboardAnalytics.

(** * Properties of the store primitives *)

Section StoreFacts.

Definition findOrder (id : string) (db : Db) : option Order :=
  find (fun o => String.eqb (order_id o) id) (orders db).

(** The store after the columns of order [id] are overwritten by [data]. *)
Definition with_order_updated (id : string) (data : Order -> Order) (db : Db) : Db :=
  mkDb (restaurants db) (menuItems db)
       (map (fun o => if String.eqb (order_id o) id then data o else o) (orders db)).

Lemma find_update_same (id : string) (data : Order -> Order) (l : list Order) (o : Order) :
  (forall x, order_id (data x) = order_id x) ->
  find (fun x => String.eqb (order_id x) id) l = Some o ->
  find (fun x => String.eqb (order_id x) id)
       (map (fun x => if String.eqb (order_id x) id then data x else x) l)
  = Some (data o).
Proof.
  intros Hid. induction l as [|x l IH]; simpl; [discriminate|].
  destruct (String.eqb (order_id x) id) eqn:E.
  - intros [= ->]. rewrite Hid, E. reflexivity.
  - rewrite E. exact IH.
Qed.

Lemma find_update_other (id id' : string) (data : Order -> Order) (l : list Order) :
  (forall x, order_id (data x) = order_id x) ->
  id' <> id ->
  find (fun x => String.eqb (order_id x) id')
       (map (fun x => if String.eqb (order_id x) id then data x else x) l)
  = find (fun x => String.eqb (order_id x) id') l.
Proof.
  intros Hid Hne. induction l as [|x l IH]; simpl; [reflexivity|].
  destruct (String.eqb (order_id x) id) eqn:E.
  - rewrite Hid. apply String.eqb_eq in E. rewrite E.
    destruct (String.eqb id id') eqn:E'.
    + apply String.eqb_eq in E'. congruence.
    + exact IH.
  - destruct (String.eqb (order_id x) id'); [reflexivity | exact IH].
Qed.

Lemma findOrder_updated_same id data db o :
  (forall x, order_id (data x) = order_id x) ->
  findOrder id db = Some o ->
  findOrder id (with_order_updated id data db) = Some (data o).
Proof. intros; unfold findOrder; simpl; now apply find_update_same. Qed.

Lemma findOrder_updated_other id id' data db :
  (forall x, order_id (data x) = order_id x) ->
  id' <> id ->
  findOrder id' (with_order_updated id data db) = findOrder id' db.
Proof. intros; unfold findOrder; simpl; now apply find_update_other. Qed.

Lemma order_update_found id data db o :
  findOrder id db = Some o ->
  Prisma.order_update id data db = (Ok (data o), with_order_updated id data db).
Proof. unfold findOrder, Prisma.order_update. intros ->. reflexivity. Qed.

End StoreFacts.

Lemma OrderStatus_eqb_spec (a b : OrderStatus) : reflect (a = b) (OrderStatus_eqb a b).
Proof. destruct a, b; simpl; constructor; congruence. Qed.

(** * The order status state machine *)

Module StatusMachine.

Import OrderService.

(** The transition table of the specification, one constructor per
    allowed move. *)
Inductive Allowed : OrderStatus -> OrderStatus -> Prop :=
  | pending_preparing : Allowed PENDING PREPARING
  | pending_canceled : Allowed PENDING CANCELED
  | preparing_ready : Allowed PREPARING READY
  | preparing_canceled : Allowed PREPARING CANCELED
  | ready_completed : Allowed READY COMPLETED
  | ready_canceled : Allowed READY CANCELED.

Definition terminal (s : OrderStatus) : Prop := s = COMPLETED \/ s = CANCELED.

Lemma table_matches (s t : OrderStatus) :
  existsb (OrderStatus_eqb t) (STATUS_TRANSITIONS s) = true <-> Allowed s t.
Proof.
  split.
  - destruct s, t; simpl; intros H; try discriminate; constructor.
  - intros []; reflexivity.
Qed.

Lemma allowed_changes_status (s t : OrderStatus) : Allowed s t -> s <> t.
Proof. intros []; discriminate. Qed.

Lemma terminal_allows_nothing (s t : OrderStatus) : terminal s -> ~ Allowed s t.
Proof. intros [-> | ->] H; inversion H. Qed.

Lemma set_status_id (t : OrderStatus) (o : Order) : order_id (set_status t o) = order_id o.
Proof. reflexivity. Qed.

(** C1. For an order that exists and belongs to the restaurant,
    [updateOrderStatusForRestaurant] follows the transition table: a request
    for the current status returns the order and leaves the store as it is;
    a request for a status the table allows returns the order with the new
    status, stores it, and touches no other order; every other request
    throws 400 and writes nothing; so a terminal order rejects every request
    for a different status. *)
Theorem updateOrderStatus_follows_table
  (db : Db) (restaurant orderId : string) (o : Order) (t : OrderStatus) :
  findOrder orderId db = Some o ->
  restaurantId o = restaurant ->
  let r := updateOrderStatusForRestaurant restaurant orderId t db in
  (t = status o -> r = (Ok (attachFinancials o None), db))
  /\ (Allowed (status o) t ->
      r = (Ok (attachFinancials (set_status t o) None),
           with_order_updated orderId (set_status t) db)
      /\ findOrder orderId (snd r) = Some (set_status t o)
      /\ status (set_status t o) = t
      /\ forall id', id' <> orderId -> findOrder id' (snd r) = findOrder id' db)
  /\ (t <> status o -> ~ Allowed (status o) t ->
      r = (Err (HttpError 400 "Invalid status transition"), db))
  /\ (terminal (status o) -> t <> status o ->
      r = (Err (HttpError 400 "Invalid status transition"), db)).
Proof.
  intros Hfind Hown r.
  assert (Hr : r = if OrderStatus_eqb (status o) t then (Ok (attachFinancials o None), db)
                   else if negb (existsb (OrderStatus_eqb t) (STATUS_TRANSITIONS (status o)))
                        then (Err (HttpError 400 "Invalid status transition"), db)
                        else (Ok (attachFinancials (set_status t o) None),
                              with_order_updated orderId (set_status t) db)).
  { subst r. unfold updateOrderStatusForRestaurant, bind, Prisma.order_findUnique, query.
    fold (findOrder orderId db). rewrite Hfind, Hown, String.eqb_refl. simpl.
    destruct (OrderStatus_eqb (status o) t); [reflexivity|].
    destruct (existsb (OrderStatus_eqb t) (STATUS_TRANSITIONS (status o))); simpl;
      [|reflexivity].
    unfold throw, ret. rewrite (order_update_found _ _ _ _ Hfind). reflexivity. }
  assert (Hreject : t <> status o -> ~ Allowed (status o) t ->
                    r = (Err (HttpError 400 "Invalid status transition"), db)).
  { intros Hne Hnot. rewrite Hr.
    destruct (OrderStatus_eqb_spec (status o) t) as [E|_]; [congruence|].
    destruct (existsb (OrderStatus_eqb t) (STATUS_TRANSITIONS (status o))) eqn:Ex;
      [apply table_matches in Ex; contradiction | reflexivity]. }
  repeat split.
  - intros ->. rewrite Hr.
    destruct (OrderStatus_eqb_spec (status o) (status o)); [reflexivity | congruence].
  - rewrite Hr. pose proof (allowed_changes_status _ _ H) as Hne.
    destruct (OrderStatus_eqb_spec (status o) t); [contradiction|].
    apply table_matches in H. rewrite H. reflexivity.
  - assert (E : snd r = with_order_updated orderId (set_status t) db).
    { rewrite Hr. pose proof (allowed_changes_status _ _ H) as Hne.
      destruct (OrderStatus_eqb_spec (status o) t); [contradiction|].
      apply table_matches in H. rewrite H. reflexivity. }
    rewrite E. apply findOrder_updated_same; [apply set_status_id | exact Hfind].
  - intros id' Hne.
    assert (E : snd r = with_order_updated orderId (set_status t) db).
    { rewrite Hr. pose proof (allowed_changes_status _ _ H) as Hne'.
      destruct (OrderStatus_eqb_spec (status o) t); [contradiction|].
      apply table_matches in H. rewrite H. reflexivity. }
    rewrite E. apply findOrder_updated_other; [apply set_status_id | exact Hne].
  - exact Hreject.
  - intros Hterm Hne. apply Hreject; [exact Hne | now apply terminal_allows_nothing].
Qed.

End StatusMachine.

(** * Route updates *)

Module RouteUpdate.

Import OrderService.

Definition editable (s : OrderStatus) : bool :=
  existsb (OrderStatus_eqb s) ROUTE_UPDATEABLE_STATUSES.

Lemma editable_iff (s : OrderStatus) : editable s = true <-> s = PENDING \/ s = PREPARING.
Proof.
  destruct s; simpl; split; intros H; try discriminate; auto;
    destruct H as [H | H]; discriminate.
Qed.

Definition no_field (input : UpdateRouteInput) : Prop :=
  update_routeOrigin input = None
  /\ update_routeDestination input = None
  /\ update_pickupEtaMin input = None.

Lemma apply_updateData_id d o : order_id (apply_updateData d o) = order_id o.
Proof. reflexivity. Qed.

(** The outcome of [updateOrderRoute], check by check in the order of the
    source. *)
Definition route_outcome (orderId customer : string) (input : UpdateRouteInput) (db : Db)
  : Result OrderWithFinancials * Db :=
  match findOrder orderId db with
  | None => (Err (HttpError 404 "Order not found"), db)
  | Some o =>
      if negb (String.eqb (customerId o) customer) then
        (Err (HttpError 404 "Order not found"), db)
      else if negb (editable (status o)) then
        (Err (HttpError 400 (route_status_message (status o))), db)
      else
        match update_pickupEtaMin input with
        | Some eta =>
            if eta <=? 0 then
              (Err (HttpError 400 "pickupEtaMin must be a positive number"), db)
            else
              (Ok (attachFinancials (apply_updateData input o) None),
               with_order_updated orderId (apply_updateData input) db)
        | None =>
            match update_routeOrigin input, update_routeDestination input with
            | None, None =>
                (Err (HttpError 400 "At least one route field must be provided"), db)
            | _, _ =>
                (Ok (attachFinancials (apply_updateData input o) None),
                 with_order_updated orderId (apply_updateData input) db)
            end
        end
  end.

Lemma updateOrderRoute_outcome orderId customer input db :
  updateOrderRoute orderId customer input db = route_outcome orderId customer input db.
Proof.
  unfold updateOrderRoute, route_outcome, bind, Prisma.order_findUnique, query.
  fold (findOrder orderId db).
  destruct (findOrder orderId db) as [o|] eqn:Hfind; [|reflexivity].
  destruct (negb (String.eqb (customerId o) customer)); [reflexivity|].
  fold (editable (status o)).
  destruct (negb (editable (status o))); [reflexivity|].
  destruct input as [ro rd [eta|]]; simpl.
  - destruct (eta <=? 0); [reflexivity|].
    unfold ret, throw, keys_length; simpl.
    destruct ro, rd; simpl; rewrite (order_update_found _ _ _ _ Hfind); reflexivity.
  - unfold ret, throw, keys_length.
    destruct ro, rd; simpl; try rewrite (order_update_found _ _ _ _ Hfind); reflexivity.
Qed.

(** C8. [updateOrderRoute] throws 404 when the order does not exist or is
    not the customer's; for the customer's own order it throws 400 with a
    message that names the current status when the status is neither
    PENDING nor PREPARING, 400 when no field is supplied, and 400 when the
    supplied [pickupEtaMin] is not positive; whenever it throws, the store
    is the one it was called on. *)
Theorem updateOrderRoute_rejections
  (db : Db) (orderId customer : string) (input : UpdateRouteInput) :
  let r := updateOrderRoute orderId customer input db in
  (findOrder orderId db = None -> fst r = Err (HttpError 404 "Order not found"))
  /\ (forall o, findOrder orderId db = Some o -> customerId o <> customer ->
        fst r = Err (HttpError 404 "Order not found"))
  /\ (forall o, findOrder orderId db = Some o -> customerId o = customer ->
        (status o <> PENDING -> status o <> PREPARING ->
           fst r = Err (HttpError 400
                     ("Cannot update route for order with status "
                      ++ OrderStatus_name (status o)
                      ++ ". Only orders with status PENDING or PREPARING can be re-routed.")))
        /\ (no_field input -> exists msg, fst r = Err (HttpError 400 msg))
        /\ (forall eta, update_pickupEtaMin input = Some eta -> eta <= 0 ->
              exists msg, fst r = Err (HttpError 400 msg))
        /\ (editable (status o) = true -> no_field input ->
              fst r = Err (HttpError 400 "At least one route field must be provided"))
        /\ (editable (status o) = true ->
              forall eta, update_pickupEtaMin input = Some eta -> eta <= 0 ->
              fst r = Err (HttpError 400 "pickupEtaMin must be a positive number")))
  /\ (forall e, fst r = Err e -> snd r = db).
Proof.
  intros r. subst r. rewrite updateOrderRoute_outcome. unfold route_outcome.
  split; [intros ->; reflexivity|].
  split.
  { intros o -> Hne. apply String.eqb_neq in Hne. rewrite Hne. reflexivity. }
  split.
  { intros o -> Hown. apply String.eqb_eq in Hown. rewrite Hown. simpl.
    split; [|split; [|split; [|split]]].
    - intros H1 H2. destruct (editable (status o)) eqn:E; [|reflexivity].
      apply editable_iff in E. tauto.
    - intros (H1 & H2 & H3). rewrite H1, H2, H3.
      destruct (negb (editable (status o))); eexists; reflexivity.
    - intros eta -> Hle. apply Z.leb_le in Hle. rewrite Hle.
      destruct (negb (editable (status o))); eexists; reflexivity.
    - intros -> (H1 & H2 & H3). rewrite H1, H2, H3. reflexivity.
    - intros -> eta -> Hle. apply Z.leb_le in Hle. rewrite Hle. reflexivity. }
  intros e.
  destruct (findOrder orderId db) as [o|]; [|reflexivity].
  destruct (negb (String.eqb (customerId o) customer)); [reflexivity|].
  destruct (negb (editable (status o))); [reflexivity|].
  destruct (update_pickupEtaMin input) as [eta|].
  - destruct (eta <=? 0); [reflexivity | discriminate].
  - destruct (update_routeOrigin input), (update_routeDestination input);
      try discriminate; reflexivity.
Qed.

(** C9. A successful [updateOrderRoute] returns and stores the order with
    each supplied field replaced and each omitted field as it was; the
    status, the total, the items, the three ids and the creation time are
    unchanged, and so are all other orders and the other tables. *)
Theorem updateOrderRoute_merges_supplied_fields
  (db db' : Db) (orderId customer : string) (input : UpdateRouteInput)
  (res : OrderWithFinancials) :
  updateOrderRoute orderId customer input db = (Ok res, db') ->
  exists o,
    findOrder orderId db = Some o
    /\ findOrder orderId db' = Some (order res)
    /\ routeOrigin (order res)
       = match update_routeOrigin input with Some v => v | None => routeOrigin o end
    /\ routeDestination (order res)
       = match update_routeDestination input with Some v => v | None => routeDestination o end
    /\ pickupEtaMin (order res)
       = match update_pickupEtaMin input with Some v => v | None => pickupEtaMin o end
    /\ status (order res) = status o
    /\ totalCents (order res) = totalCents o
    /\ items (order res) = items o
    /\ order_id (order res) = order_id o
    /\ customerId (order res) = customerId o
    /\ restaurantId (order res) = restaurantId o
    /\ createdAt (order res) = createdAt o
    /\ (forall id', id' <> orderId -> findOrder id' db' = findOrder id' db)
    /\ restaurants db' = restaurants db
    /\ menuItems db' = menuItems db.
Proof.
  rewrite updateOrderRoute_outcome. unfold route_outcome.
  destruct (findOrder orderId db) as [o|] eqn:Hfind; [|discriminate].
  destruct (negb (String.eqb (customerId o) customer)); [discriminate|].
  destruct (negb (editable (status o))); [discriminate|].
  intros H.
  assert (E : res = attachFinancials (apply_updateData input o) None
              /\ db' = with_order_updated orderId (apply_updateData input) db).
  { destruct (update_pickupEtaMin input) as [eta|].
    - destruct (eta <=? 0); [discriminate|]. now inversion H.
    - destruct (update_routeOrigin input), (update_routeDestination input);
        try discriminate; now inversion H. }
  destruct E as [-> ->]. clear H. exists o. simpl.
  repeat split; try reflexivity.
  - apply (findOrder_updated_same orderId (apply_updateData input) db o
             (apply_updateData_id input) Hfind).
  - intros id' Hne.
    apply (findOrder_updated_other orderId id' (apply_updateData input) db
             (apply_updateData_id input) Hne).
Qed.

(** The call goes through whenever none of the four checks fails. *)
Lemma updateOrderRoute_succeeds (db : Db) (orderId customer : string)
                                (input : UpdateRouteInput) (o : Order) :
  findOrder orderId db = Some o ->
  customerId o = customer ->
  status o = PENDING \/ status o = PREPARING ->
  ~ no_field input ->
  (forall eta, update_pickupEtaMin input = Some eta -> 0 < eta) ->
  updateOrderRoute orderId customer input db
  = (Ok (attachFinancials (apply_updateData input o) None),
     with_order_updated orderId (apply_updateData input) db).
Proof.
  intros Hfind Hown Hst Hfield Heta.
  rewrite updateOrderRoute_outcome. unfold route_outcome.
  rewrite Hfind. apply String.eqb_eq in Hown. rewrite Hown.
  apply editable_iff in Hst. rewrite Hst. simpl.
  destruct (update_pickupEtaMin input) as [eta|] eqn:E.
  - specialize (Heta eta eq_refl). destruct (Z.leb_spec eta 0); [lia | reflexivity].
  - destruct (update_routeOrigin input) eqn:E1; [reflexivity|].
    destruct (update_routeDestination input) eqn:E2; [reflexivity|].
    exfalso. apply Hfield. repeat split; assumption.
Qed.

End RouteUpdate.

(** * Exactness of the two rounded computations *)

Module JSNumberFacts.

Import JSNumber.

Lemma pow2_pos (k : Z) : 0 <= k -> 0 < 2 ^ k.
Proof. intros; apply Z.pow_pos_nonneg; lia. Qed.

Lemma scaled_den_pos (b k : Z) : 0 < b -> 0 < scaled_den b k.
Proof.
  intros Hb. unfold scaled_den. apply Z.mul_pos_pos; [exact Hb|].
  apply pow2_pos. lia.
Qed.

(** The scaling brings the quotient up to at least [2^52]. *)
Lemma scale_exp_lower (a b : Z) :
  0 < a -> 0 < b ->
  2 ^ 52 * scaled_den b (scale_exp a b) <= scaled_num a (scale_exp a b).
Proof.
  intros Ha Hb. unfold scale_exp.
  set (k0 := 52 - Z.log2 a + Z.log2 b).
  destruct (Z.ltb_spec (scaled_num a k0 / scaled_den b k0) (2 ^ 52)) as [_ | Hq].
  - destruct (Z.log2_spec a Ha) as [Hla _].
    destruct (Z.log2_spec b Hb) as [_ Hlb].
    pose proof (Z.log2_nonneg a) as Hla0. pose proof (Z.log2_nonneg b) as Hlb0.
    unfold scaled_den, scaled_num.
    destruct (Z.le_gt_cases 0 (k0 + 1)) as [Hk | Hk].
    + rewrite (Z.max_l (k0 + 1)) by lia. rewrite (Z.max_r (- (k0 + 1))) by lia.
      rewrite Z.pow_0_r, Z.mul_1_r.
      assert (E : 2 ^ Z.log2 a * 2 ^ (k0 + 1) = 2 ^ 52 * 2 ^ Z.succ (Z.log2 b)).
      { rewrite <- !Z.pow_add_r by lia. f_equal. lia. }
      assert (H1 : 2 ^ Z.log2 a * 2 ^ (k0 + 1) <= a * 2 ^ (k0 + 1)).
      { apply Z.mul_le_mono_nonneg_r; [apply Z.lt_le_incl, pow2_pos; lia | exact Hla]. }
      assert (H2 : 2 ^ 52 * b <= 2 ^ 52 * 2 ^ Z.succ (Z.log2 b)).
      { apply Z.mul_le_mono_nonneg_l; lia. }
      lia.
    + rewrite (Z.max_r (k0 + 1)) by lia. rewrite (Z.max_l (- (k0 + 1))) by lia.
      rewrite Z.pow_0_r, Z.mul_1_r.
      assert (E : 2 ^ 52 * (2 ^ Z.succ (Z.log2 b) * 2 ^ (- (k0 + 1))) = 2 ^ Z.log2 a).
      { rewrite <- !Z.pow_add_r by lia. f_equal. lia. }
      assert (H1 : b * 2 ^ (- (k0 + 1)) <= 2 ^ Z.succ (Z.log2 b) * 2 ^ (- (k0 + 1))).
      { apply Z.mul_le_mono_nonneg_r; [apply Z.lt_le_incl, pow2_pos; lia | lia]. }
      assert (H2 : 2 ^ 52 * (b * 2 ^ (- (k0 + 1)))
                   <= 2 ^ 52 * (2 ^ Z.succ (Z.log2 b) * 2 ^ (- (k0 + 1)))).
      { apply Z.mul_le_mono_nonneg_l; [lia | exact H1]. }
      lia.
  - pose proof (scaled_den_pos b k0 Hb) as Hden.
    pose proof (Z.mul_div_le (scaled_num a k0) (scaled_den b k0) Hden) as Hmul.
    assert (H1 : scaled_den b k0 * 2 ^ 52
                 <= scaled_den b k0 * (scaled_num a k0 / scaled_den b k0)).
    { apply Z.mul_le_mono_nonneg_l; lia. }
    lia.
Qed.

(** A quotient below [2^52] is scaled up, by at least one bit. *)
Lemma scale_exp_positive (a b : Z) :
  0 < a -> 0 < b -> a < 2 ^ 52 * b -> 1 <= scale_exp a b.
Proof.
  intros Ha Hb Hlt.
  pose proof (scale_exp_lower a b Ha Hb) as H.
  destruct (Z.le_gt_cases 1 (scale_exp a b)) as [|Hk]; [assumption|exfalso].
  unfold scaled_num, scaled_den in H.
  rewrite (Z.max_r (scale_exp a b)) in H by lia.
  rewrite (Z.max_l (- scale_exp a b)) in H by lia.
  rewrite Z.pow_0_r, Z.mul_1_r in H.
  assert (1 <= 2 ^ (- scale_exp a b)) by (pose proof (pow2_pos (- scale_exp a b)); lia).
  assert (2 ^ 52 * b * 1 <= 2 ^ 52 * b * 2 ^ (- scale_exp a b)).
  { apply Z.mul_le_mono_nonneg_l; lia. }
  lia.
Qed.

(** [Math.round] of the rounded quotient is [N] when the exact quotient lies
    in [[N - 1/2, N + 1/2)] and stays more than half a unit in the last
    place below [N + 1/2]. *)
Lemma Math_round_round_ne_pos (a b N : Z) :
  0 < a -> 0 < b -> a < 2 ^ 52 * b ->
  (2 * N - 1) * b <= 2 * a ->
  (forall k, 1 <= k -> 2 ^ 52 * b <= a * 2 ^ k ->
             b < 2 ^ k * ((2 * N + 1) * b - 2 * a)) ->
  Math_round (round_ne_pos a b) = N.
Proof.
  intros Ha Hb Hlt Hlow Hgap.
  pose proof (scale_exp_positive a b Ha Hb Hlt) as Hk.
  pose proof (scale_exp_lower a b Ha Hb) as Hscaled.
  unfold round_ne_pos, Math_round. cbn [mant expo].
  set (k := scale_exp a b) in *.
  unfold scaled_num, scaled_den in *.
  rewrite (Z.max_l k) in * by lia. rewrite (Z.max_r (- k)) in * by lia.
  rewrite Z.pow_0_r, Z.mul_1_r in *.
  specialize (Hgap k Hk Hscaled).
  destruct (Z.leb_spec 0 (- k)) as [|_]; [lia|].
  replace (- - k) with k by lia. replace (1 - - k) with (k + 1) by lia.
  assert (HT : 2 ^ k = 2 * 2 ^ (k - 1)).
  { replace k with (1 + (k - 1)) at 1 by lia. rewrite Z.pow_add_r by lia. reflexivity. }
  assert (HT1 : 2 ^ (k + 1) = 2 * 2 ^ k) by (rewrite Z.pow_add_r by lia; lia).
  pose proof (pow2_pos (k - 1) ltac:(lia)) as HTpos.
  set (T := 2 ^ (k - 1)) in *. rewrite HT1, HT in *. clearbody T.
  pose proof (Z.div_mod (a * (2 * T)) b ltac:(lia)) as Hdm.
  pose proof (Z.mod_pos_bound (a * (2 * T)) b Hb) as Hr.
  set (q := a * (2 * T) / b) in *. set (r := a * (2 * T) mod b) in *.
  clearbody q r.
  assert (Hq_low : (2 * N - 1) * T <= q) by nia.
  assert (Hq_up : q < (2 * N + 1) * T) by nia.
  assert (Hup : 2 * r >= b -> q + 1 < (2 * N + 1) * T) by (intros; nia).
  set (m := if 2 * r <? b then q
            else if b <? 2 * r then q + 1 else if Z.even q then q else q + 1).
  assert (Hm : (2 * N - 1) * T <= m < (2 * N + 1) * T).
  { subst m. destruct (Z.ltb_spec (2 * r) b); [lia|].
    destruct (Z.ltb_spec b (2 * r)); [lia|].
    destruct (Z.even q); lia. }
  clearbody m.
  symmetry. apply Z.div_unique with (r := 2 * m + 2 * T - 2 * (2 * T) * N); lia.
Qed.

(** [Math.round(a / b)] is the integer nearest to the exact quotient, ties
    upwards, for a non-negative [a] below [2^52]. *)
Lemma Math_round_div_exact (a b : Z) :
  0 <= a < 2 ^ 52 -> 0 < b ->
  Math_round (div a b) = round_half_up a b.
Proof.
  intros [Ha0 Ha] Hb. unfold div, round_ne, round_half_up.
  destruct (Z.eqb_spec a 0) as [-> | Hne].
  - change (Math_round (mkDouble 0 0)) with 0.
    symmetry. apply Z.div_small. lia.
  - assert (Hpos : 0 < a) by lia.
    rewrite Z.abs_eq, Z.sgn_pos by lia.
    set (N := (2 * a + b) / (2 * b)).
    pose proof (Z.div_mod (2 * a + b) (2 * b) ltac:(lia)) as Hdm.
    pose proof (Z.mod_pos_bound (2 * a + b) (2 * b) ltac:(lia)) as Hr.
    fold N in Hdm.
    assert (E : Math_round (round_ne_pos a b) = N).
    { apply Math_round_round_ne_pos; [lia | lia | nia | nia |].
      intros k Hk Hs.
      assert (b < 2 ^ k) by nia.
      assert (1 <= (2 * N + 1) * b - 2 * a) by lia.
      pose proof (pow2_pos k ltac:(lia)). nia. }
    rewrite <- E. destruct (round_ne_pos a b) as [m e]. cbn [mant expo].
    now rewrite Z.mul_1_l.
Qed.

Lemma TAX_RATE_value :
  OrderService.TAX_RATE = mkDouble 5944751508129055 (-56).
Proof. reflexivity. Qed.

(** [Math.round(subtotalCents * TAX_RATE)] is 8.25% of the subtotal rounded
    to the nearest cent, ties upwards, for a subtotal below [2^46] cents. *)
Lemma tax_exact (s : Z) :
  0 <= s < 2 ^ 46 ->
  Math_round (mul s OrderService.TAX_RATE) = round_half_up (825 * s) 10000.
Proof.
  intros [Hs0 Hs]. rewrite TAX_RATE_value. unfold mul, round_ne, round_half_up.
  cbn [mant expo]. unfold scaled_num, scaled_den.
  change (Z.max (-56) 0) with 0. change (Z.max (- -56) 0) with 56.
  rewrite Z.pow_0_r, !Z.mul_1_r, Z.mul_1_l.
  destruct (Z.eqb_spec (s * 5944751508129055) 0) as [E0 | Hne].
  - assert (s = 0) by lia. subst s. reflexivity.
  - assert (Hpos : 0 < s) by lia.
    rewrite Z.abs_eq, Z.sgn_pos by lia.
    set (N := (2 * (825 * s) + 10000) / (2 * 10000)).
    pose proof (Z.div_mod (2 * (825 * s) + 10000) (2 * 10000) ltac:(lia)) as Hdm.
    pose proof (Z.mod_pos_bound (2 * (825 * s) + 10000) (2 * 10000) ltac:(lia)) as Hr.
    fold N in Hdm.
    assert (E : Math_round (round_ne_pos (s * 5944751508129055) (2 ^ 56)) = N).
    { apply Math_round_round_ne_pos; try lia.
      intros k Hk Hscaled.
      pose proof (pow2_pos k ltac:(lia)) as HT.
      set (T := 2 ^ k) in *. clearbody T.
      assert (HT9 : 2 ^ 9 <= T).
      { destruct (Z.le_gt_cases (2 ^ 9) T); [assumption|exfalso].
        assert (s * T <= 2 ^ 46 * 2 ^ 9) by (apply Z.mul_le_mono_nonneg; lia).
        lia. }
      assert (HD : 2 ^ 48 <= (2 * N + 1) * 2 ^ 56 - 2 * (s * 5944751508129055)) by lia.
      assert (2 ^ 9 * 2 ^ 48 <= T * ((2 * N + 1) * 2 ^ 56 - 2 * (s * 5944751508129055))).
      { apply Z.mul_le_mono_nonneg; lia. }
      lia. }
    rewrite <- E.
    destruct (round_ne_pos (s * 5944751508129055) (2 ^ 56)) as [m e]. cbn [mant expo].
    now rewrite Z.mul_1_l.
Qed.

Lemma round_ne_pos_mant_nonneg (a b : Z) :
  0 < a -> 0 < b -> 0 <= mant (round_ne_pos a b).
Proof.
  intros Ha Hb. unfold round_ne_pos. cbn [mant].
  set (k := scale_exp a b).
  assert (Hnum : 0 <= scaled_num a k).
  { unfold scaled_num. apply Z.mul_nonneg_nonneg; [lia|].
    apply Z.lt_le_incl, pow2_pos. lia. }
  pose proof (scaled_den_pos b k Hb) as Hden.
  pose proof (Z.div_pos _ _ Hnum Hden) as Hq.
  destruct (_ <? _); [assumption|].
  destruct (_ <? _); [lia|]. destruct (Z.even _); lia.
Qed.

Lemma Math_round_nonneg (d : double) : 0 <= mant d -> 0 <= Math_round d.
Proof.
  intros Hm. unfold Math_round. destruct (Z.leb_spec 0 (expo d)).
  - apply Z.mul_nonneg_nonneg; [assumption | apply Z.lt_le_incl, pow2_pos; assumption].
  - pose proof (pow2_pos (- expo d) ltac:(lia)).
    pose proof (pow2_pos (1 - expo d) ltac:(lia)).
    apply Z.div_pos; lia.
Qed.

(** Rounding a non-negative quotient never gives a negative integer. *)
Lemma Math_round_round_ne_nonneg (a b : Z) :
  0 <= a -> 0 < b -> 0 <= Math_round (round_ne a b).
Proof.
  intros Ha Hb. unfold round_ne. destruct (Z.eqb_spec a 0).
  - apply Math_round_nonneg. simpl. lia.
  - apply Math_round_nonneg. cbn [mant]. rewrite Z.sgn_pos, Z.abs_eq by lia.
    pose proof (round_ne_pos_mant_nonneg a b ltac:(lia) Hb). lia.
Qed.

Lemma tax_nonneg (s : Z) : 0 <= s -> 0 <= Math_round (mul s OrderService.TAX_RATE).
Proof.
  intros Hs. rewrite TAX_RATE_value. unfold mul. cbn [mant expo].
  apply Math_round_round_ne_nonneg.
  - unfold scaled_num. apply Z.mul_nonneg_nonneg; [lia|].
    apply Z.lt_le_incl, pow2_pos. lia.
  - apply scaled_den_pos. lia.
Qed.

End JSNumberFacts.

(** * Order creation *)

Module OrderCreation.

Import OrderService.

(** The sum of a list of amounts. *)
Definition sumZ (l : list Z) : Z := fold_right Z.add 0 l.

(** The menu item stored under an id, and its stored price. *)
Definition storedMenuItem (db : Db) (id : string) : option MenuItem :=
  find (fun m => String.eqb (menuItem_id m) id) (menuItems db).

Definition storedPrice (db : Db) (id : string) : Z :=
  match storedMenuItem db id with
  | Some m => menuItem_priceCents m
  | None => 0
  end.

(** The subtotal of a request at the stored prices. *)
Definition canonicalSubtotal (db : Db) (its : list OrderItemInput) : Z :=
  sumZ (map (fun it => storedPrice db (input_menuItemId it) * input_quantity it) its).

(** The id resolves to an available menu item of the restaurant. *)
Definition resolves (db : Db) (restaurant id : string) : Prop :=
  exists m, In m (menuItems db)
            /\ menuItem_id m = id
            /\ menuItem_restaurantId m = restaurant
            /\ isAvailable m = true.

Definition activeRestaurant (db : Db) (id : string) : option Restaurant :=
  find (fun r => String.eqb (restaurant_id r) id && Bool.eqb (isActive r) true)
       (restaurants db).

(** The rows [menuItem.findMany] returns for a request. *)
Definition matched (db : Db) (restaurant : string) (ids : list string) : list MenuItem :=
  filter (fun m => existsb (String.eqb (menuItem_id m)) ids
                   && String.eqb (menuItem_restaurantId m) restaurant
                   && Bool.eqb (isAvailable m) true)
         (menuItems db).

(** The store after [row] is inserted. *)
Definition with_order_created (row : Order) (db : Db) : Db :=
  mkDb (restaurants db) (menuItems db) (orders db ++ [row]).

Lemma sumZ_cons (x : Z) (l : list Z) : sumZ (x :: l) = x + sumZ l.
Proof. reflexivity. Qed.

Lemma sumZ_app (l1 l2 : list Z) : sumZ (l1 ++ l2) = sumZ l1 + sumZ l2.
Proof. induction l1 as [|x l1 IH]; [reflexivity|]. cbn [app]. rewrite !sumZ_cons, IH. lia. Qed.

Lemma fold_left_add_sumZ {A : Type} (f : A -> Z) (l : list A) (acc : Z) :
  fold_left (fun total x => total + f x) l acc = acc + sumZ (map f l).
Proof.
  revert acc. induction l as [|x l IH]; intros acc; cbn [fold_left map].
  - unfold sumZ. simpl. lia.
  - rewrite IH, sumZ_cons. lia.
Qed.

Lemma calculateSubtotal_sum (its : list OrderItem) :
  calculateSubtotal its = sumZ (map (fun i => priceCents i * quantity i) its).
Proof. unfold calculateSubtotal. now rewrite fold_left_add_sumZ. Qed.

(** The outcome of [createOrder], step by step. *)
Lemma createOrder_unfold fresh customer input db :
  createOrder fresh customer input db =
  match activeRestaurant db (input_restaurantId input) with
  | None => (Err (HttpError 404 "Restaurant not found"), db)
  | Some restaurant =>
      let found := matched db (restaurant_id restaurant)
                           (map input_menuItemId (input_items input)) in
      if negb (Nat.eqb (length found) (length (input_items input))) then
        (Err (HttpError 400 "Some menu items are unavailable"), db)
      else
        match reduce_subtotal found (input_items input) 0 with
        | Err e => (Err e, db)
        | Ok subtotal =>
            let tax := JSNumber.Math_round (JSNumber.mul subtotal TAX_RATE) in
            match create_items found (input_items input) with
            | Err e => (Err e, db)
            | Ok rows =>
                let o := mkOrder (default_id fresh) customer (restaurant_id restaurant)
                           (default_status fresh) (input_pickupEtaMin input)
                           (input_routeOrigin input) (input_routeDestination input)
                           (subtotal + tax) (default_createdAt fresh) rows in
                (Ok (mkOrderWithFinancials o subtotal tax), with_order_created o db)
            end
        end
  end.
Proof.
  unfold createOrder, bind, Prisma.restaurant_findUnique_active,
    Prisma.menuItem_findMany, Prisma.order_create, query, throw, ret, lift,
    attachFinancials, activeRestaurant, matched, with_order_created.
  destruct (find _ (restaurants db)) as [r|]; [|reflexivity].
  cbv beta iota zeta.
  destruct (negb (Nat.eqb _ _)); [reflexivity|].
  destruct (reduce_subtotal _ _ 0); [|reflexivity].
  destruct (create_items _ _); reflexivity.
Qed.

Lemma activeRestaurant_sound db id r :
  activeRestaurant db id = Some r ->
  In r (restaurants db) /\ restaurant_id r = id /\ isActive r = true.
Proof.
  unfold activeRestaurant. intros H. apply find_some in H. destruct H as [Hin H].
  apply andb_prop in H. destruct H as [H1 H2].
  apply String.eqb_eq in H1. apply Bool.eqb_prop in H2. auto.
Qed.

Lemma activeRestaurant_none db id :
  activeRestaurant db id = None <->
  ~ exists r, In r (restaurants db) /\ restaurant_id r = id /\ isActive r = true.
Proof.
  unfold activeRestaurant. split.
  - intros H (r & Hin & Hid & Hact).
    pose proof (find_none _ _ H r Hin) as Hf. cbv beta in Hf.
    rewrite Hid, String.eqb_refl, Hact in Hf. discriminate.
  - intros H. destruct (find _ _) as [r|] eqn:E; [|reflexivity].
    exfalso. apply H. exists r. now apply activeRestaurant_sound.
Qed.

Lemma matched_iff db restaurant ids m :
  In m (matched db restaurant ids) <->
  In m (menuItems db) /\ In (menuItem_id m) ids
  /\ menuItem_restaurantId m = restaurant /\ isAvailable m = true.
Proof.
  unfold matched. rewrite filter_In, !andb_true_iff, existsb_exists,
    String.eqb_eq, Bool.eqb_true_iff.
  split.
  - intros (Hin & (((x & Hx & Hxe) & Hr) & Ha)).
    apply String.eqb_eq in Hxe. subst x. auto.
  - intros (Hin & Hid & Hr & Ha). repeat split; auto.
    exists (menuItem_id m). split; [assumption | apply String.eqb_refl].
Qed.

(** Filtering the rows of a table keeps its key unique. *)
Lemma filter_keeps_unique_keys {T : Type} (keep : T -> bool) (key : T -> string)
                               (rows : list T) (Hkey : NoDup (map key rows)) :
  NoDup (map key (filter keep rows)).
Proof.
  induction rows as [|x rows IH]; [constructor|].
  cbn [map filter] in *. apply NoDup_cons_iff in Hkey. destruct Hkey as [Hfresh Hrest].
  destruct (keep x); [|now apply IH].
  cbn [map]. apply NoDup_cons; [|now apply IH].
  rewrite in_map_iff. intros (y & Hy & Hin).
  apply filter_In in Hin. apply Hfresh. rewrite in_map_iff. exists y. tauto.
Qed.

Lemma find_unique_key {A : Type} (key : A -> string) (l : list A) (m : A) :
  NoDup (map key l) -> In m l ->
  find (fun x => String.eqb (key x) (key m)) l = Some m.
Proof.
  induction l as [|x l IH]; simpl; intros Hnd Hin; [contradiction|].
  inversion Hnd as [|? ? Hnotin Hnd']; subst.
  destruct Hin as [-> | Hin].
  - now rewrite String.eqb_refl.
  - destruct (String.eqb (key x) (key m)) eqn:E; [|auto].
    apply String.eqb_eq in E. exfalso. apply Hnotin. rewrite E. now apply in_map.
Qed.

Section UniqueMenuIds.

Variable db : Db.

(** [MenuItem.id] is the primary key of its table. *)
Hypothesis menu_ids_unique : NoDup (map menuItem_id (menuItems db)).

Lemma resolves_iff_matched restaurant ids id :
  In id ids ->
  (resolves db restaurant id <-> In id (map menuItem_id (matched db restaurant ids))).
Proof.
  intros Hid. unfold resolves. rewrite in_map_iff. split.
  - intros (m & Hin & <- & Hr & Ha). exists m. split; [reflexivity|].
    apply matched_iff. auto.
  - intros (m & <- & Hm). apply matched_iff in Hm. exists m. tauto.
Qed.

(** The count comparison of the source passes exactly when every
    requested id resolves and no id is requested twice. *)
Lemma count_check_iff restaurant ids :
  length (matched db restaurant ids) = length ids <->
  NoDup ids /\ forall id, In id ids -> resolves db restaurant id.
Proof.
  set (F := map menuItem_id (matched db restaurant ids)).
  assert (HF : NoDup F) by (apply filter_keeps_unique_keys, menu_ids_unique).
  assert (Hincl : incl F ids).
  { intros id Hin. apply in_map_iff in Hin. destruct Hin as (m & <- & Hm).
    apply matched_iff in Hm. tauto. }
  assert (Hlen : length F = length (matched db restaurant ids)) by apply length_map.
  split.
  - intros H.
    assert (Hle : (length ids <= length F)%nat) by lia.
    split.
    + exact (NoDup_incl_NoDup HF Hle Hincl).
    + intros id Hid. apply (resolves_iff_matched restaurant ids id Hid).
      exact (NoDup_length_incl HF Hle Hincl id Hid).
  - intros [Hnd Hall]. rewrite <- Hlen.
    apply Permutation_length, NoDup_Permutation; [exact HF | exact Hnd|].
    intros id. split; [apply Hincl|].
    intros Hid. apply (resolves_iff_matched restaurant ids id Hid). auto.
Qed.

Lemma find_matched restaurant ids id m :
  find (fun i => String.eqb (menuItem_id i) id) (matched db restaurant ids) = Some m ->
  storedMenuItem db id = Some m.
Proof.
  intros H. apply find_some in H. destruct H as [Hin Hid].
  apply String.eqb_eq in Hid. subst id. apply matched_iff in Hin.
  unfold storedMenuItem. apply find_unique_key; tauto.
Qed.

Lemma reduce_subtotal_canonical restaurant ids its acc s :
  reduce_subtotal (matched db restaurant ids) its acc = Ok s ->
  s = acc + canonicalSubtotal db its.
Proof.
  unfold canonicalSubtotal. revert acc.
  induction its as [|it its IH]; intros acc H; cbn [reduce_subtotal] in H; cbn [map].
  - inversion H. unfold sumZ. simpl. lia.
  - unfold find_menuItem in H.
    destruct (find _ (matched db restaurant ids)) as [m|] eqn:E; [|discriminate].
    apply IH in H. rewrite sumZ_cons. unfold storedPrice at 1.
    rewrite (find_matched _ _ _ _ E). lia.
Qed.

Lemma create_items_canonical restaurant ids its rows :
  create_items (matched db restaurant ids) its = Ok rows ->
  map (fun i => (menuItemId i, quantity i, priceCents i)) rows
  = map (fun it => (input_menuItemId it, input_quantity it,
                    storedPrice db (input_menuItemId it))) its.
Proof.
  revert rows. induction its as [|it its IH]; simpl; intros rows H.
  - inversion H. reflexivity.
  - unfold find_menuItem in H.
    destruct (find _ (matched db restaurant ids)) as [m|] eqn:E; [|discriminate].
    destruct (create_items _ its) as [rows'|]; [|discriminate].
    inversion H; subst. simpl. rewrite (IH rows' eq_refl).
    unfold storedPrice. now rewrite (find_matched _ _ _ _ E).
Qed.

End UniqueMenuIds.

(** Once every requested id is among the matched rows, neither lookup of
    the source reads a property of [undefined]. *)
Lemma lookups_succeed (found : list MenuItem) (its : list OrderItemInput) (acc : Z) :
  (forall it, In it its -> In (input_menuItemId it) (map menuItem_id found)) ->
  (exists s, reduce_subtotal found its acc = Ok s)
  /\ (exists rows, create_items found its = Ok rows).
Proof.
  revert acc. induction its as [|it its IH]; simpl; intros acc Hall.
  - split; eexists; reflexivity.
  - assert (Hit : exists m, find (fun i => String.eqb (menuItem_id i) (input_menuItemId it))
                                 found = Some m).
    { destruct (find _ found) as [m|] eqn:E; [eauto|exfalso].
      specialize (Hall it (or_introl eq_refl)). apply in_map_iff in Hall.
      destruct Hall as (m & Hid & Hin).
      pose proof (find_none _ _ E m Hin) as Hf. cbv beta in Hf.
      rewrite Hid, String.eqb_refl in Hf. discriminate. }
    destruct Hit as (m & Hm). unfold find_menuItem. rewrite Hm.
    destruct (IH (acc + menuItem_priceCents m * input_quantity it)
                 (fun it' H => Hall it' (or_intror H))) as [Hs (rows & Hrows)].
    split; [exact Hs|]. rewrite Hrows. eexists; reflexivity.
Qed.

End OrderCreation.

(** * Sample data *)

Module Examples.

Import OrderService.

Definition burger : MenuItem := mkMenuItem "item-1" "rest-1" "Burger" 1000 true.
Definition fries : MenuItem := mkMenuItem "item-2" "rest-1" "Fries" 500 true.

Definition row (id : string) (s : OrderStatus) (at_ total : Z) (its : list OrderItem)
  : Order :=
  mkOrder id "cust-1" "rest-1" s 15 "Raleigh" "Durham" total at_ its.

(** 2024-01-01 12:00, 12:30 and 18:00 UTC, and the next day at noon. *)
Definition order1 : Order :=
  row "order-1" PENDING 1704110400000 1000
      [mkOrderItem "item-1" "Burger" 5 1000; mkOrderItem "item-2" "Fries" 10 500].
Definition order2 : Order :=
  row "order-2" READY 1704112200000 500 [mkOrderItem "item-1" "Burger" 3 1000].
Definition order3 : Order :=
  row "order-3" CANCELED 1704132000000 5000 [mkOrderItem "item-2" "Fries" 40 500].
Definition order4 : Order :=
  row "order-4" COMPLETED 1704196800000 1200 [].

Definition store : Db :=
  mkDb [mkRestaurant "rest-1" true] [burger; fries] [order1; order2; order3; order4].

Definition fresh : RowDefaults := mkRowDefaults "order-5" 1704200000000 PENDING.

Definition request (its : list OrderItemInput) : CreateOrderInput :=
  mkCreateOrderInput "rest-1" its 20 "Raleigh" "Cary".

End Examples.

(** * Totals and preconditions of [createOrder] *)

Module CreateOrderProps.

Import OrderService OrderCreation.

(** C2. An order created by [createOrder] is stored with [totalCents]
    equal to the subtotal plus [Math.round(subtotal * 0.0825)], where the
    subtotal is the sum over the requested items of the stored menu price
    times the requested quantity; the stored items carry those prices, and
    the returned order is annotated with this subtotal and this tax. For a
    subtotal below [2^46] cents the rounded product is the exact 8.25%
    rounded to the nearest cent, ties upwards. *)
Theorem createOrder_total_is_subtotal_plus_tax
  (db db' : Db) (fresh : RowDefaults) (customer : string) (input : CreateOrderInput)
  (res : OrderWithFinancials) :
  NoDup (map menuItem_id (menuItems db)) ->
  createOrder fresh customer input db = (Ok res, db') ->
  let subtotal := canonicalSubtotal db (input_items input) in
  let tax := JSNumber.Math_round (JSNumber.mul subtotal TAX_RATE) in
  totalCents (order res) = subtotal + tax
  /\ subtotalCents res = subtotal
  /\ taxCents res = tax
  /\ orders db' = orders db ++ [order res]
  /\ map (fun i => (menuItemId i, quantity i, priceCents i)) (items (order res))
     = map (fun it => (input_menuItemId it, input_quantity it,
                       storedPrice db (input_menuItemId it))) (input_items input)
  /\ (0 <= subtotal < 2 ^ 46 -> tax = JSNumber.round_half_up (825 * subtotal) 10000).
Proof.
  intros Hnd H subtotal tax. rewrite createOrder_unfold in H.
  destruct (activeRestaurant db (input_restaurantId input)) as [r|]; [|discriminate].
  cbv zeta in H.
  destruct (negb (Nat.eqb _ _)); [discriminate|].
  destruct (reduce_subtotal _ _ 0) as [s|] eqn:Hs; [|discriminate].
  destruct (create_items _ _) as [rows|] eqn:Hrows; [|discriminate].
  apply (reduce_subtotal_canonical db Hnd) in Hs. rewrite Z.add_0_l in Hs.
  apply (create_items_canonical db Hnd) in Hrows.
  inversion H; subst res db'; clear H. fold subtotal in Hs. subst s. fold tax.
  cbn [order totalCents subtotalCents taxCents items orders with_order_created].
  repeat split; try reflexivity; try assumption.
  intros Hrange. apply JSNumberFacts.tax_exact. exact Hrange.
Qed.

(** X27. What [createOrder] answers, in terms of the request and the store. *)
Theorem createOrder_outcome
  (db : Db) (fresh : RowDefaults) (customer : string) (input : CreateOrderInput) :
  NoDup (map menuItem_id (menuItems db)) ->
  let r := createOrder fresh customer input db in
  let ids := map input_menuItemId (input_items input) in
  (fst r = Err (HttpError 404 "Restaurant not found")
   <-> activeRestaurant db (input_restaurantId input) = None)
  /\ (fst r = Err (HttpError 400 "Some menu items are unavailable")
      <-> activeRestaurant db (input_restaurantId input) <> None
          /\ ~ (NoDup ids
                /\ forall id, In id ids -> resolves db (input_restaurantId input) id))
  /\ ((exists res, fst r = Ok res)
      <-> activeRestaurant db (input_restaurantId input) <> None
          /\ NoDup ids
          /\ forall id, In id ids -> resolves db (input_restaurantId input) id).
Proof.
  intros Hnd r ids. subst r. rewrite createOrder_unfold.
  destruct (activeRestaurant db (input_restaurantId input)) as [rest|] eqn:Hrest.
  2:{ cbn [fst].
      split; [split; reflexivity|].
      split; [split; [discriminate | intros [Hn _]; congruence]|].
      split; [intros (res & Hres); discriminate | intros [Hn _]; congruence]. }
  destruct (activeRestaurant_sound _ _ _ Hrest) as (_ & Hrid & _).
  rewrite Hrid. cbv zeta. fold ids.
  pose proof (count_check_iff db Hnd (input_restaurantId input) ids) as Hcount.
  assert (Hlen : length (input_items input) = length ids)
    by (subst ids; now rewrite length_map).
  destruct (Nat.eqb_spec (length (matched db (input_restaurantId input) ids))
                         (length (input_items input))) as [E | E]; cbn [negb].
  - rewrite Hlen in E. pose proof (proj1 Hcount E) as [Hnodup Hall].
    destruct (lookups_succeed (matched db (input_restaurantId input) ids)
                (input_items input) 0) as [(s & Hs) (rows & Hrows)].
    { intros it Hit.
      apply (resolves_iff_matched db (input_restaurantId input) ids).
      - subst ids. now apply in_map.
      - apply Hall. subst ids. now apply in_map. }
    rewrite Hs, Hrows. cbn [fst].
    split; [split; discriminate|].
    split.
    + split; [discriminate|]. intros [_ Hn]. exfalso. apply Hn. split; assumption.
    + split; [intros _; repeat split; [discriminate | assumption | assumption]|].
      intros _. eexists; reflexivity.
  - cbn [fst].
    assert (Hfail : ~ (NoDup ids /\
                       forall id, In id ids -> resolves db (input_restaurantId input) id)).
    { intros HH. apply E. rewrite Hlen. apply Hcount. exact HH. }
    split; [split; discriminate|].
    split.
    + split; [intros _; split; [discriminate | exact Hfail] | reflexivity].
    + split; [intros (res & H); discriminate|].
      intros (_ & Hnodup & Hall). exfalso. apply Hfail. split; assumption.
Qed.

(** C3, on the sample store: a request that names the available burger of
    the active restaurant twice is refused as "unavailable", although every
    line of the request resolves. *)
Theorem createOrder_refuses_repeated_item :
  let input := Examples.request [mkOrderItemInput "item-1" 1; mkOrderItemInput "item-1" 2] in
  activeRestaurant Examples.store (input_restaurantId input)
    = Some (mkRestaurant "rest-1" true)
  /\ (forall it, In it (input_items input) ->
        resolves Examples.store "rest-1" (input_menuItemId it))
  /\ createOrder Examples.fresh "cust-1" input Examples.store
     = (Err (HttpError 400 "Some menu items are unavailable"), Examples.store).
Proof.
  cbv zeta. split; [reflexivity|]. split; [|reflexivity].
  intros it Hit. exists Examples.burger.
  destruct Hit as [<- | [<- | []]]; simpl; auto.
Qed.

End CreateOrderProps.

(** * Properties of [sort] and [slice] *)

Module JSArrayFacts.

Import JSArray.

Section SortFacts.

Context {A : Type}.
Variable compareFn : A -> A -> Z.

(** [a] may stand before [b] in the sorted array. *)
Definition ordered (a b : A) : Prop := compareFn a b <= 0.

Lemma insert_perm (x : A) (l : list A) : Permutation (insert compareFn x l) (x :: l).
Proof.
  induction l as [|y l IH]; simpl; [reflexivity|].
  destruct (0 <? compareFn x y); [|reflexivity].
  rewrite IH. apply perm_swap.
Qed.

Lemma sort_perm (l : list A) : Permutation (sort compareFn l) l.
Proof.
  induction l as [|x l IH]; simpl; [reflexivity|].
  unfold sort in IH. rewrite insert_perm. now constructor.
Qed.

Lemma sort_In (l : list A) (x : A) : In x (sort compareFn l) <-> In x l.
Proof.
  split; apply Permutation_in; [apply sort_perm | symmetry; apply sort_perm].
Qed.

Lemma sort_length (l : list A) : length (sort compareFn l) = length l.
Proof. apply Permutation_length, sort_perm. Qed.

(** The comparator never asks for both orders at once. *)
Hypothesis compare_asym : forall x y, 0 < compareFn x y -> compareFn y x <= 0.

Lemma insert_sorted (x : A) (l : list A) :
  Sorted ordered l -> Sorted ordered (insert compareFn x l).
Proof.
  induction l as [|y l IH]; simpl; intros Hs.
  - repeat constructor.
  - destruct (Z.ltb_spec 0 (compareFn x y)) as [Hgt | Hle].
    + inversion Hs as [|? ? Hs' Hhd]; subst.
      constructor; [auto|].
      destruct l as [|z l]; simpl.
      * constructor. now apply compare_asym.
      * destruct (0 <? compareFn x z).
        -- inversion Hhd; subst. now constructor.
        -- constructor. now apply compare_asym.
    + constructor; [assumption|]. constructor. exact Hle.
Qed.

Lemma sort_sorted (l : list A) : Sorted ordered (sort compareFn l).
Proof.
  induction l as [|x l IH]; simpl; [constructor|].
  apply insert_sorted. exact IH.
Qed.

Hypothesis compare_trans :
  forall x y z, compareFn x y <= 0 -> compareFn y z <= 0 -> compareFn x z <= 0.

Lemma sort_strongly_sorted (l : list A) : StronglySorted ordered (sort compareFn l).
Proof.
  apply Sorted_StronglySorted; [|apply sort_sorted].
  intros x y z. apply compare_trans.
Qed.

End SortFacts.

Lemma StronglySorted_weaken {A : Type} (R R' : A -> A -> Prop) (l : list A) :
  (forall a b, R a b -> R' a b) -> StronglySorted R l -> StronglySorted R' l.
Proof.
  intros Himp Hs. induction Hs as [|x l Hs IH Hall]; constructor; [assumption|].
  eapply Forall_impl; [|exact Hall]. intros b. apply Himp.
Qed.

Lemma Sorted_weaken {A : Type} (R R' : A -> A -> Prop) (l : list A) :
  (forall a b, R a b -> R' a b) -> Sorted R l -> Sorted R' l.
Proof.
  intros Himp Hs. induction Hs as [|x l Hs IH Hhd]; constructor; [assumption|].
  destruct Hhd; constructor. now apply Himp.
Qed.

(** In a strongly sorted list an element is related to every later one. *)
Lemma StronglySorted_nth {A : Type} (R : A -> A -> Prop) (l : list A) (i j : nat) (a b : A) :
  StronglySorted R l -> (i < j)%nat ->
  nth_error l i = Some a -> nth_error l j = Some b -> R a b.
Proof.
  intros Hs. revert i j. induction Hs as [|x l Hs IH Hall]; intros i j Hlt Ha Hb.
  - destruct i; discriminate.
  - destruct j as [|j]; [lia|]. simpl in Hb.
    destruct i as [|i]; simpl in Ha.
    + inversion Ha; subst. rewrite Forall_forall in Hall.
      apply Hall. eapply nth_error_In; eassumption.
    + apply (IH i j); [lia | assumption | assumption].
Qed.

Lemma In_prefix {A : Type} (k : nat) (l : list A) (x : A) : In x (firstn k l) -> In x l.
Proof. intros H. rewrite <- (firstn_skipn k l). apply in_app_iff. now left. Qed.

Lemma filter_idem {A : Type} (p : A -> bool) (l : list A) :
  filter p (filter p l) = filter p l.
Proof.
  induction l as [|x l IH]; [reflexivity|]. cbn [filter].
  destruct (p x) eqn:E; [|exact IH]. cbn [filter]. now rewrite E, IH.
Qed.

Lemma slice_0_nonneg {A : Type} (n : Z) (l : list A) :
  0 <= n -> slice 0 n l = firstn (Z.to_nat n) l.
Proof.
  intros Hn. unfold slice, relativeIndex.
  change (0 <? 0) with false. cbv iota.
  rewrite (Z.min_l 0) by lia. cbn [Z.to_nat skipn].
  destruct (Z.ltb_spec n 0); [lia|]. rewrite Z.sub_0_r.
  destruct (Z.le_gt_cases n (Z.of_nat (length l))).
  - now rewrite Z.min_l by lia.
  - rewrite Z.min_r by lia. rewrite Nat2Z.id.
    rewrite !firstn_all2; [reflexivity | lia | lia].
Qed.

(** [slice(0, end)] keeps a prefix, whatever [end] is. *)
Lemma slice_0_prefix {A : Type} (n : Z) (l : list A) :
  exists k, slice 0 n l = firstn k l.
Proof.
  unfold slice, relativeIndex. change (0 <? 0) with false. cbv iota.
  rewrite (Z.min_l 0) by lia. cbn [Z.to_nat skipn]. eauto.
Qed.

(** [slice(-n)] keeps the last [n] elements. *)
Lemma sliceFrom_last {A : Type} (n : nat) (l : list A) :
  (0 < n)%nat ->
  sliceFrom (- Z.of_nat n) l = skipn (length l - n) l.
Proof.
  intros Hn. unfold sliceFrom, relativeIndex.
  destruct (Z.ltb_spec (- Z.of_nat n) 0); [|lia].
  f_equal. lia.
Qed.

Lemma sliceFrom_suffix {A : Type} (n : nat) (l : list A) :
  (0 < n)%nat ->
  l = firstn (length l - n) l ++ sliceFrom (- Z.of_nat n) l
  /\ length (sliceFrom (- Z.of_nat n) l) = Nat.min n (length l).
Proof.
  intros Hn. rewrite (sliceFrom_last n l Hn). split.
  - symmetry. apply firstn_skipn.
  - rewrite length_skipn. lia.
Qed.

End JSArrayFacts.

(** * Financial annotations of returned orders *)

Module Financials.

Import OrderService OrderCreation.

(** The annotations are the ones derived from the order itself. *)
Definition derived (r : OrderWithFinancials) : Prop :=
  subtotalCents r = sumZ (map (fun i => priceCents i * quantity i) (items (order r)))
  /\ taxCents r = Z.max (totalCents (order r) - subtotalCents r) 0.

Lemma attachFinancials_derived (o : Order) : derived (attachFinancials o None).
Proof. split; simpl; [apply calculateSubtotal_sum | reflexivity]. Qed.

Lemma attachFinancials_order (o : Order) (ov : option Overrides) :
  order (attachFinancials o ov) = o.
Proof. reflexivity. Qed.

Lemma listing_derived (l : list Order) :
  Forall derived (map (fun o => attachFinancials o None) l).
Proof. apply Forall_forall. intros r Hr. apply in_map_iff in Hr.
  destruct Hr as (o & <- & _). apply attachFinancials_derived. Qed.

Lemma create_items_subtotal found its acc s rows :
  reduce_subtotal found its acc = Ok s ->
  create_items found its = Ok rows ->
  s = acc + sumZ (map (fun i => priceCents i * quantity i) rows).
Proof.
  revert acc rows. induction its as [|it its IH]; intros acc rows Hs Hrows;
    cbn [reduce_subtotal create_items] in *.
  - inversion Hs; inversion Hrows; subst. unfold sumZ. simpl. lia.
  - destruct (find_menuItem found (input_menuItemId it)) as [m|]; [|discriminate].
    destruct (create_items found its) as [rows'|]; [|discriminate].
    inversion Hrows; subst. cbn [map]. rewrite sumZ_cons. cbn [priceCents quantity].
    rewrite (IH _ rows' Hs eq_refl). lia.
Qed.

(** The id of the restaurant [createOrder] found for a request. *)
Definition restaurant_id_of (db : Db) (input : CreateOrderInput) : string :=
  match activeRestaurant db (input_restaurantId input) with
  | Some r => restaurant_id r
  | None => input_restaurantId input
  end.

Lemma reduce_subtotal_nonneg found its acc s :
  Forall (fun m => 0 <= menuItem_priceCents m) found ->
  Forall (fun it => 0 < input_quantity it) its ->
  0 <= acc ->
  reduce_subtotal found its acc = Ok s -> 0 <= s.
Proof.
  intros Hprice Hqty. revert acc.
  induction Hqty as [|it its Hq Hqty IH]; intros acc Hacc H; cbn [reduce_subtotal] in H.
  - inversion H. lia.
  - unfold find_menuItem in H. destruct (find _ found) as [m|] eqn:E; [|discriminate].
    apply find_some in E. destruct E as [Hin _].
    rewrite Forall_forall in Hprice. specialize (Hprice m Hin).
    apply IH in H; [assumption|]. nia.
Qed.

End Financials.

Module ReturnedOrders.

Import OrderService OrderCreation Financials.

(** C10. Every order returned by [createOrder], [listOrdersForUser],
    [listOrdersForRestaurant], [getOrderForCustomer],
    [updateOrderStatusForRestaurant] and [updateOrderRoute] is annotated
    with [subtotalCents], the sum of [priceCents * quantity] over its items,
    and [taxCents = max (totalCents - subtotalCents) 0] (for [createOrder],
    which passes its own figures, on a menu without negative prices and a
    request with positive quantities; its subtotal plus tax is the total
    in any case); so [taxCents] is never negative, and subtotal plus tax is
    the total exactly when the total is at least the subtotal. *)
Theorem returned_orders_carry_derived_financials :
  (forall db customer,
     exists l, listOrdersForUser customer db = (Ok l, db) /\ Forall derived l)
  /\ (forall statusRank db restaurant,
        exists l, listOrdersForRestaurant statusRank restaurant db = (Ok l, db)
                  /\ Forall derived l)
  /\ (forall db orderId customer res db',
        getOrderForCustomer orderId customer db = (Ok res, db') -> derived res)
  /\ (forall db restaurant orderId nextStatus res db',
        updateOrderStatusForRestaurant restaurant orderId nextStatus db = (Ok res, db') ->
        derived res)
  /\ (forall db orderId customer input res db',
        updateOrderRoute orderId customer input db = (Ok res, db') -> derived res)
  /\ (forall db fresh customer input res db',
        Forall (fun m => 0 <= menuItem_priceCents m) (menuItems db) ->
        Forall (fun it => 0 < input_quantity it) (input_items input) ->
        createOrder fresh customer input db = (Ok res, db') -> derived res)
  /\ (forall db fresh customer input res db',
        createOrder fresh customer input db = (Ok res, db') ->
        subtotalCents res
        = sumZ (map (fun i => priceCents i * quantity i) (items (order res)))
        /\ subtotalCents res + taxCents res = totalCents (order res))
  /\ (forall r, derived r ->
        0 <= taxCents r
        /\ (subtotalCents r + taxCents r = totalCents (order r)
            <-> subtotalCents r <= totalCents (order r))).
Proof.
  assert (Hcreate : forall db fresh customer input res db',
            createOrder fresh customer input db = (Ok res, db') ->
            exists s,
              reduce_subtotal
                (matched db (restaurant_id_of db input)
                         (map input_menuItemId (input_items input)))
                (input_items input) 0 = Ok s
              /\ subtotalCents res = s
              /\ subtotalCents res
                 = sumZ (map (fun i => priceCents i * quantity i) (items (order res)))
              /\ taxCents res = JSNumber.Math_round (JSNumber.mul s TAX_RATE)
              /\ totalCents (order res) = s + taxCents res).
  { intros db fresh customer input res db'. unfold restaurant_id_of.
    rewrite createOrder_unfold.
    destruct (activeRestaurant db (input_restaurantId input)) as [r|]; [|discriminate].
    cbv zeta. destruct (negb (Nat.eqb _ _)); [discriminate|].
    destruct (reduce_subtotal _ _ 0) as [s|] eqn:Hs; [|discriminate].
    destruct (create_items _ _) as [rows|] eqn:Hrows; [|discriminate].
    intros H; inversion H; subst res db'; clear H.
    exists s. cbn [order subtotalCents taxCents totalCents items].
    split; [reflexivity|]. split; [reflexivity|]. split; [|split; reflexivity].
    rewrite (create_items_subtotal _ _ 0 s rows Hs Hrows). lia. }
  split; [|split; [|split; [|split; [|split; [|split; [|split]]]]]].
  - intros db customer. eexists. split; [reflexivity | apply listing_derived].
  - intros rank db restaurant. eexists. split; [reflexivity | apply listing_derived].
  - intros db orderId customer res db'.
    unfold getOrderForCustomer, bind, Prisma.order_findUnique, query, throw, ret.
    destruct (find _ (orders db)) as [o|]; [|discriminate].
    destruct (negb _); [discriminate|].
    intros H; inversion H; subst. apply attachFinancials_derived.
  - intros db restaurant orderId t res db'.
    unfold updateOrderStatusForRestaurant, bind, Prisma.order_findUnique,
      Prisma.order_update, query, throw, ret.
    destruct (find _ (orders db)) as [o|] eqn:Hfind; [|discriminate].
    destruct (negb (String.eqb _ _)); [discriminate|].
    destruct (OrderStatus_eqb _ _).
    + intros H; inversion H; subst. apply attachFinancials_derived.
    + destruct (negb (existsb _ _)); [discriminate|]. rewrite Hfind.
      intros H; inversion H; subst. apply attachFinancials_derived.
  - intros db orderId customer input res db'.
    rewrite RouteUpdate.updateOrderRoute_outcome. unfold RouteUpdate.route_outcome.
    destruct (findOrder orderId db) as [o|]; [|discriminate].
    destruct (negb (String.eqb _ _)); [discriminate|].
    destruct (negb (RouteUpdate.editable _)); [discriminate|].
    destruct (update_pickupEtaMin input) as [eta|].
    + destruct (eta <=? 0); [discriminate|].
      intros H; inversion H; subst. apply attachFinancials_derived.
    + destruct (update_routeOrigin input), (update_routeDestination input);
        try discriminate; intros H; inversion H; subst; apply attachFinancials_derived.
  - intros db fresh customer input res db' Hprice Hqty Hres.
    destruct (Hcreate _ _ _ _ _ _ Hres) as (s & Hs & Hsub & Hsum & Htax & Htotal).
    assert (Hs0 : 0 <= s).
    { apply (reduce_subtotal_nonneg _ _ 0 s) in Hs; [assumption | | assumption | lia].
      apply Forall_forall. intros m Hm. apply matched_iff in Hm.
      rewrite Forall_forall in Hprice. apply Hprice. tauto. }
    pose proof (JSNumberFacts.tax_nonneg s Hs0) as Hnonneg.
    split; [exact Hsum|]. lia.
  - intros db fresh customer input res db' Hres.
    destruct (Hcreate _ _ _ _ _ _ Hres) as (s & _ & Hsub & Hsum & _ & Htotal).
    split; [exact Hsum | lia].
  - intros r [Hsub Htax]. rewrite Htax. split; [lia|]. split; lia.
Qed.

End ReturnedOrders.

(** * The theorems at work on the sample store *)

Module Instances.

Import OrderService OrderCreation Examples.

Lemma sample_menu_ids_unique : NoDup (map menuItem_id (menuItems store)).
Proof.
  simpl. repeat constructor; simpl; intros H; repeat destruct H as [H | H];
    try discriminate; assumption.
Qed.

Lemma updateOrderStatus_follows_table_sample :
  findOrder "order-1" store = Some order1
  /\ updateOrderStatusForRestaurant "rest-1" "order-1" PREPARING store
     = (Ok (attachFinancials (set_status PREPARING order1) None),
        with_order_updated "order-1" (set_status PREPARING) store)
  /\ updateOrderStatusForRestaurant "rest-1" "order-1" READY store
     = (Err (HttpError 400 "Invalid status transition"), store).
Proof.
  split; [reflexivity|]. split.
  - destruct (StatusMachine.updateOrderStatus_follows_table
                store "rest-1" "order-1" order1 PREPARING eq_refl eq_refl)
      as (_ & Hallowed & _).
    apply Hallowed. constructor.
  - destruct (StatusMachine.updateOrderStatus_follows_table
                store "rest-1" "order-1" order1 READY eq_refl eq_refl)
      as (_ & _ & Hreject & _).
    apply Hreject.
    + cbv. discriminate.
    + intros H. cbv in H. inversion H.
Defined.

Definition eta_only : UpdateRouteInput := mkUpdateRouteInput None None (Some 25).

Definition order1_rerouted : Order :=
  mkOrder "order-1" "cust-1" "rest-1" PENDING 25 "Raleigh" "Durham" 1000 1704110400000
          (items order1).

Lemma updateOrderRoute_merges_sample :
  updateOrderRoute "order-1" "cust-1" eta_only store
  = (Ok (mkOrderWithFinancials order1_rerouted 10000 0),
     with_order_updated "order-1" (apply_updateData eta_only) store)
  /\ routeOrigin order1_rerouted = routeOrigin order1
  /\ routeDestination order1_rerouted = routeDestination order1
  /\ pickupEtaMin order1_rerouted = 25.
Proof.
  assert (E : updateOrderRoute "order-1" "cust-1" eta_only store
              = (Ok (mkOrderWithFinancials order1_rerouted 10000 0),
                 with_order_updated "order-1" (apply_updateData eta_only) store))
    by reflexivity.
  split; [exact E|].
  destruct (RouteUpdate.updateOrderRoute_merges_supplied_fields _ _ _ _ _ _ E)
    as (o & Hfind & _ & Hro & Hrd & Heta & _).
  assert (Hsame : Some order1 = Some o) by exact Hfind.
  inversion Hsame; subst o.
  repeat split; assumption.
Defined.

Definition two_burgers_one_fries : CreateOrderInput :=
  request [mkOrderItemInput "item-1" 2; mkOrderItemInput "item-2" 1].

Definition order5 : Order :=
  mkOrder "order-5" "cust-1" "rest-1" PENDING 20 "Raleigh" "Cary" 2706 1704200000000
          [mkOrderItem "item-1" "Burger" 2 1000; mkOrderItem "item-2" "Fries" 1 500].

Lemma createOrder_total_sample :
  createOrder fresh "cust-1" two_burgers_one_fries store
  = (Ok (mkOrderWithFinancials order5 2500 206), with_order_created order5 store)
  /\ canonicalSubtotal store (input_items two_burgers_one_fries) = 2500
  /\ totalCents order5 = 2500 + JSNumber.round_half_up (825 * 2500) 10000.
Proof.
  assert (E : createOrder fresh "cust-1" two_burgers_one_fries store
              = (Ok (mkOrderWithFinancials order5 2500 206),
                 with_order_created order5 store)) by reflexivity.
  split; [exact E|]. split; [reflexivity|].
  destruct (CreateOrderProps.createOrder_total_is_subtotal_plus_tax
              _ _ _ _ _ _ sample_menu_ids_unique E) as (Htotal & _ & _ & _ & _ & Hexact).
  cbn [order] in Htotal. rewrite Htotal.
  rewrite Hexact; [reflexivity|].
  vm_compute. split; [discriminate | reflexivity].
Defined.

End Instances.



(** * Properties of maps and of the grouping loops *)

Module JSMapFacts.

Import JSMap.

Section MapFacts.

Context {K V : Type}.
Variable eqb : K -> K -> bool.
Hypothesis eqb_spec : forall a b, reflect (a = b) (eqb a b).

Definition keys (m : list (K * V)) : list K := map fst m.

Lemma get_set_same (k : K) (v : V) (m : list (K * V)) :
  get eqb k (set eqb k v m) = Some v.
Proof.
  induction m as [|[k' v'] m IH]; simpl.
  - destruct (eqb_spec k k); [reflexivity | congruence].
  - destruct (eqb_spec k k') as [E | E]; simpl.
    + destruct (eqb_spec k k'); [reflexivity | congruence].
    + destruct (eqb_spec k k'); [congruence | exact IH].
Qed.

Lemma get_set_other (k k' : K) (v : V) (m : list (K * V)) :
  k' <> k -> get eqb k' (set eqb k v m) = get eqb k' m.
Proof.
  intros Hne. induction m as [|[k0 v0] m IH]; simpl.
  - destruct (eqb_spec k' k); [congruence | reflexivity].
  - destruct (eqb_spec k k0) as [E | E]; simpl.
    + subst k0. destruct (eqb_spec k' k); [congruence | reflexivity].
    + destruct (eqb_spec k' k0); [reflexivity | exact IH].
Qed.

Lemma get_None_iff (k : K) (m : list (K * V)) :
  get eqb k m = None <-> ~ In k (keys m).
Proof.
  induction m as [|[k' v'] m IH]; simpl; [tauto|].
  destruct (eqb_spec k k') as [E | E].
  - split; [discriminate | intros H; exfalso; apply H; auto].
  - rewrite IH. split; [intros H [H1 | H1]; [congruence | tauto] | tauto].
Qed.

Lemma get_Some_In (k : K) (v : V) (m : list (K * V)) :
  get eqb k m = Some v -> In (k, v) m.
Proof.
  induction m as [|[k' v'] m IH]; simpl; [discriminate|].
  destruct (eqb_spec k k') as [E | E].
  - intros [= ->]. subst. now left.
  - intros H. right. auto.
Qed.

Lemma In_get_Some (k : K) (v : V) (m : list (K * V)) :
  NoDup (keys m) -> In (k, v) m -> get eqb k m = Some v.
Proof.
  induction m as [|[k' v'] m IH]; simpl; intros Hnd Hin; [contradiction|].
  apply NoDup_cons_iff in Hnd. destruct Hnd as [Hfresh Hnd].
  destruct Hin as [[= -> ->] | Hin].
  - destruct (eqb_spec k k); [reflexivity | congruence].
  - destruct (eqb_spec k k') as [E | E]; [|auto].
    subst k'. exfalso. apply Hfresh. change k with (fst (k, v)). now apply in_map.
Qed.

Lemma keys_set (k : K) (v : V) (m : list (K * V)) :
  keys (set eqb k v m)
  = match get eqb k m with Some _ => keys m | None => keys m ++ [k] end.
Proof.
  induction m as [|[k' v'] m IH]; simpl; [reflexivity|].
  destruct (eqb_spec k k'); simpl; [reflexivity|].
  rewrite IH. now destruct (get eqb k m).
Qed.

Lemma NoDup_keys_set (k : K) (v : V) (m : list (K * V)) :
  NoDup (keys m) -> NoDup (keys (set eqb k v m)).
Proof.
  intros Hnd. rewrite keys_set. destruct (get eqb k m) eqn:E; [assumption|].
  apply get_None_iff in E.
  apply NoDup_rev in Hnd. rewrite <- (rev_involutive (keys m ++ [k])).
  apply NoDup_rev. rewrite rev_app_distr. simpl. constructor; [|assumption].
  now rewrite <- in_rev.
Qed.

Section Grouping.

Context {X : Type}.
Variable key : X -> K.
Variable init : X -> V.
Variable upd : X -> V -> V.

(** The body of a grouping loop: update the entry of the row's key, or
    create it. *)
Definition upsert (m : list (K * V)) (x : X) : list (K * V) :=
  match get eqb (key x) m with
  | Some existing => set eqb (key x) (upd x existing) m
  | None => set eqb (key x) (init x) m
  end.

(** The rows with a given key, in the order they were met. *)
Definition group (k : K) (rows : list X) : list X :=
  filter (fun x => eqb (key x) k) rows.

(** What an entry says about the rows of its key. *)
Variable summarises : V -> list X -> Prop.
Hypothesis summarises_init : forall x, summarises (init x) [x].
Hypothesis summarises_upd :
  forall x e l, summarises e l -> summarises (upd x e) (l ++ [x]).

Definition grouped (m : list (K * V)) (seen : list X) : Prop :=
  NoDup (keys m)
  /\ (forall k, In k (keys m) <-> exists x, In x seen /\ key x = k)
  /\ (forall k v, get eqb k m = Some v -> summarises v (group k seen)).

Lemma group_snoc (k : K) (seen : list X) (x : X) :
  group k (seen ++ [x])
  = group k seen ++ (if eqb (key x) k then [x] else []).
Proof. unfold group. rewrite filter_app. reflexivity. Qed.

Lemma group_empty (k : K) (m : list (K * V)) (seen : list X) :
  grouped m seen -> get eqb k m = None -> group k seen = [].
Proof.
  intros (_ & Hkeys & _) Hnone. apply get_None_iff in Hnone.
  unfold group. destruct (filter _ seen) as [|x l] eqn:E; [reflexivity|exfalso].
  assert (Hin : In x (filter (fun x => eqb (key x) k) seen)) by (rewrite E; now left).
  apply filter_In in Hin. destruct Hin as [Hin Hk].
  destruct (eqb_spec (key x) k); [|discriminate].
  apply Hnone, Hkeys. eauto.
Qed.

Lemma upsert_grouped (m : list (K * V)) (seen : list X) (x : X) :
  grouped m seen -> grouped (upsert m x) (seen ++ [x]).
Proof.
  intros Hg. pose proof Hg as (Hnd & Hkeys & Hsum).
  assert (Hkeys' : forall v k, In k (keys (set eqb (key x) v m))
                               <-> exists y, In y (seen ++ [x]) /\ key y = k).
  { intros v k. rewrite keys_set.
    assert (Hsplit : (exists y, In y (seen ++ [x]) /\ key y = k)
                     <-> In k (keys m) \/ key x = k).
    { rewrite Hkeys. split.
      - intros (y & Hy & Hk). apply in_app_iff in Hy.
        destruct Hy as [Hy | [-> | []]]; [left; eauto | now right].
      - intros [(y & Hy & Hk) | Hk].
        + exists y. split; [apply in_app_iff; now left | assumption].
        + exists x. split; [apply in_app_iff; right; now left | assumption]. }
    rewrite Hsplit.
    destruct (get eqb (key x) m) as [e0|] eqn:E.
    - split; [tauto|]. intros [H | <-]; [assumption|].
      apply get_Some_In in E. change (key x) with (fst (key x, e0)). now apply in_map.
    - rewrite in_app_iff. simpl. split; [intros [H | [H | []]]; auto | intros [H | H]; auto]. }
  assert (Hsum' : forall v, summarises v (group (key x) seen ++ [x]) ->
            forall k w, get eqb k (set eqb (key x) v m) = Some w ->
                        summarises w (group k (seen ++ [x]))).
  { intros v Hv k w Hget. rewrite group_snoc.
    destruct (eqb_spec (key x) k) as [<- | Hne].
    - rewrite get_set_same in Hget. inversion Hget; subst. exact Hv.
    - rewrite get_set_other in Hget by congruence.
      rewrite app_nil_r. now apply Hsum. }
  unfold upsert. destruct (get eqb (key x) m) as [e|] eqn:E.
  - split; [now apply NoDup_keys_set|]. split; [apply Hkeys'|].
    apply Hsum'. apply summarises_upd. now apply Hsum.
  - split; [now apply NoDup_keys_set|]. split; [apply Hkeys'|].
    apply Hsum'. rewrite (group_empty _ _ _ Hg E). apply summarises_init.
Qed.

Lemma fold_upsert_grouped (rows : list X) (m : list (K * V)) (seen : list X) :
  grouped m seen -> grouped (fold_left upsert rows m) (seen ++ rows).
Proof.
  revert m seen. induction rows as [|x rows IH]; intros m seen Hg; simpl.
  - now rewrite app_nil_r.
  - replace (seen ++ x :: rows) with ((seen ++ [x]) ++ rows)
      by (rewrite <- app_assoc; reflexivity).
    apply IH. now apply upsert_grouped.
Qed.

(** A grouping loop started on the empty map: one entry per key met, each
    summarising the rows of its key. *)
Lemma grouping_loop (rows : list X) :
  let m := fold_left upsert rows [] in
  NoDup (keys m)
  /\ (forall k, In k (keys m) <-> exists x, In x rows /\ key x = k)
  /\ (forall k v, In (k, v) m -> summarises v (group k rows)).
Proof.
  assert (H0 : grouped [] []).
  { split; [constructor|]. split; [|discriminate].
    intros k. simpl. split; [contradiction | intros (x & [] & _)]. }
  pose proof (fold_upsert_grouped rows [] [] H0) as (Hnd & Hkeys & Hsum).
  simpl in *. split; [assumption|]. split; [assumption|].
  intros k v Hin. apply Hsum. now apply In_get_Some.
Qed.

End Grouping.

End MapFacts.

End JSMapFacts.
(** * Peak hours *)

Module PeakHours.

Import AnalyticsService OrderCreation JSMapFacts.

(** The 24 hours of the day, in the order the buckets are created. *)
Definition hours24 : list Z := map Z.of_nat (seq 0 24).

Lemma getHours_range (tz t : Z) : 0 <= JSDate.getHours tz t < 24.
Proof. unfold JSDate.getHours. apply Z.mod_pos_bound. lia. Qed.

Lemma In_hours24 (h : Z) : 0 <= h < 24 -> In h hours24.
Proof.
  intros Hh. unfold hours24. apply in_map_iff. exists (Z.to_nat h).
  split; [lia | apply in_seq; lia].
Qed.

Lemma hours24_NoDup : NoDup hours24.
Proof.
  unfold hours24. apply Finite.Injective_map_NoDup; [|apply seq_NoDup].
  intros a b. apply Nat2Z.inj.
Qed.

Lemma initial_hourMap_keys : keys initial_hourMap = hours24.
Proof. reflexivity. Qed.

Lemma initial_hourMap_zero (h : Z) (v : HourStats) :
  JSMap.get Z.eqb h initial_hourMap = Some v -> v = mkHourStats 0 0.
Proof.
  intros H. apply (get_Some_In Z.eqb Z.eqb_spec) in H.
  assert (Hall : Forall (fun e => snd e = mkHourStats 0 0) initial_hourMap)
    by (repeat constructor).
  rewrite Forall_forall in Hall. exact (Hall _ H).
Qed.

Section LocalTime.

Variable LocalTZA : Z.

Definition hourOf (o : Order) : Z := JSDate.getHours LocalTZA (createdAt o).

(** The orders placed within hour [h]. *)
Definition inHour (h : Z) (found : list Order) : list Order :=
  group Z.eqb hourOf h found.

Definition bucketed (m : list (Z * HourStats)) (seen : list Order) : Prop :=
  keys m = hours24
  /\ forall h v, JSMap.get Z.eqb h m = Some v ->
       hour_orderCount v = Z.of_nat (length (inHour h seen))
       /\ hour_revenueCents v = sumZ (map totalCents (inHour h seen)).

Lemma aggregate_hour_bucketed (m : list (Z * HourStats)) (seen : list Order) (o : Order) :
  bucketed m seen ->
  exists m', aggregate_hour LocalTZA (Ok m) o = Ok m' /\ bucketed m' (seen ++ [o]).
Proof.
  intros [Hkeys Hstats]. unfold aggregate_hour. fold (hourOf o).
  destruct (JSMap.get Z.eqb (hourOf o) m) as [e|] eqn:E.
  - eexists. split; [reflexivity|]. split.
    + rewrite (keys_set Z.eqb Z.eqb_spec), E. exact Hkeys.
    + intros h v Hget. unfold inHour. rewrite group_snoc.
      destruct (Z.eqb_spec (hourOf o) h) as [<- | Hne].
      * rewrite (get_set_same Z.eqb Z.eqb_spec) in Hget. inversion Hget; subst v.
        destruct (Hstats _ _ E) as [Hc Hr]. cbn [hour_orderCount hour_revenueCents].
        rewrite length_app, map_app, sumZ_app. unfold inHour in *.
        change (sumZ (map totalCents [o])) with (totalCents o + 0).
        change (length [o]) with 1%nat. lia.
      * rewrite (get_set_other Z.eqb Z.eqb_spec) in Hget by congruence.
        rewrite app_nil_r. now apply Hstats.
  - exfalso. apply (get_None_iff Z.eqb Z.eqb_spec) in E. apply E. rewrite Hkeys.
    apply In_hours24, getHours_range.
Qed.

Lemma fold_aggregate_hour (rows : list Order) (m : list (Z * HourStats)) (seen : list Order) :
  bucketed m seen ->
  exists m', fold_left (aggregate_hour LocalTZA) rows (Ok m) = Ok m'
             /\ bucketed m' (seen ++ rows).
Proof.
  revert m seen. induction rows as [|o rows IH]; intros m seen Hb; cbn [fold_left].
  - exists m. now rewrite app_nil_r.
  - destruct (aggregate_hour_bucketed m seen o Hb) as (m1 & -> & Hb1).
    destruct (IH m1 (seen ++ [o]) Hb1) as (m' & Hfold & Hb').
    exists m'. split; [assumption|]. now rewrite <- app_assoc in Hb'.
Qed.

(** [b] has at least as many orders as [a]: the order of the result. *)
Definition busier_first (a b : PeakTime) : Prop := peak_orderCount b <= peak_orderCount a.

Lemma peakTimes_of_spec (found : list Order) :
  exists peak,
    peakTimes_of LocalTZA found = Ok peak
    /\ length peak = 24%nat
    /\ Permutation (map hour peak) hours24
    /\ (forall p, In p peak ->
          peak_orderCount p = Z.of_nat (length (inHour (hour p) found))
          /\ peak_revenueCents p = sumZ (map totalCents (inHour (hour p) found)))
    /\ StronglySorted busier_first peak.
Proof.
  assert (H0 : bucketed initial_hourMap []).
  { split; [reflexivity|]. intros h v Hget.
    rewrite (initial_hourMap_zero h v Hget). split; reflexivity. }
  destruct (fold_aggregate_hour found _ _ H0) as (m & Hfold & Hkeys & Hstats).
  cbn [app] in Hstats.
  exists (JSArray.sort by_orderCount_desc (map to_PeakTime m)).
  split; [unfold peakTimes_of, JSMap.t in *; rewrite Hfold; reflexivity|].
  assert (Hperm : Permutation (JSArray.sort by_orderCount_desc (map to_PeakTime m))
                              (map to_PeakTime m)) by apply JSArrayFacts.sort_perm.
  assert (Hhours : map hour (map to_PeakTime m) = hours24).
  { rewrite map_map. exact Hkeys. }
  split; [|split; [|split]].
  - rewrite (Permutation_length Hperm), length_map.
    unfold keys in Hkeys. rewrite <- (length_map fst), Hkeys. reflexivity.
  - rewrite <- Hhours. now apply Permutation_map.
  - intros p Hp. apply (Permutation_in _ Hperm) in Hp. apply in_map_iff in Hp.
    destruct Hp as ([h v] & <- & Hin). cbn [to_PeakTime hour peak_orderCount
      peak_revenueCents fst snd].
    apply Hstats. apply (In_get_Some Z.eqb Z.eqb_spec); [|assumption].
    rewrite Hkeys. apply hours24_NoDup.
  - apply (JSArrayFacts.StronglySorted_weaken (JSArrayFacts.ordered by_orderCount_desc)).
    + unfold JSArrayFacts.ordered, by_orderCount_desc, busier_first. intros a b. lia.
    + apply JSArrayFacts.sort_strongly_sorted; unfold by_orderCount_desc; intros; lia.
Qed.

End LocalTime.

(** C5. [getPeakTimes] always answers with 24 entries, one for each hour
    from 0 to 23; the entry of an hour counts the restaurant's non-canceled
    orders created within that hour (local time) and sums their totals, so
    an hour without orders reports 0 and 0; the entries are in descending
    order of [orderCount]. *)
Theorem getPeakTimes_reports_24_hours (tz : Z) (db : Db) (restaurant : string) :
  let kept := filter (AnalyticsService.not_canceled_of restaurant) (orders db) in
  let within h := filter (fun o => JSDate.getHours tz (createdAt o) =? h) kept in
  exists peak,
    AnalyticsService.getPeakTimes tz restaurant db = (Ok peak, db)
    /\ length peak = 24%nat
    /\ Permutation (map AnalyticsService.hour peak) (map Z.of_nat (seq 0 24))
    /\ (forall p, In p peak ->
          AnalyticsService.peak_orderCount p
          = Z.of_nat (length (within (AnalyticsService.hour p)))
          /\ AnalyticsService.peak_revenueCents p
             = OrderCreation.sumZ (map totalCents (within (AnalyticsService.hour p))))
    /\ StronglySorted
         (fun a b => AnalyticsService.peak_orderCount b
                     <= AnalyticsService.peak_orderCount a) peak
    /\ (kept = [] ->
        forall p, In p peak ->
          AnalyticsService.peak_orderCount p = 0
          /\ AnalyticsService.peak_revenueCents p = 0).
Proof.
  intros kept within.
  destruct (PeakHours.peakTimes_of_spec tz kept) as (peak & Hpeak & Hlen & Hperm & Hstats & Hsorted).
  exists peak. split.
  { unfold AnalyticsService.getPeakTimes, bind, Prisma.order_findMany, query,
      OrderService.lift. fold kept. now rewrite Hpeak. }
  split; [exact Hlen|]. split; [exact Hperm|]. split; [exact Hstats|].
  split; [exact Hsorted|].
  intros Hempty p Hp. destruct (Hstats p Hp) as [Hc Hr].
  rewrite Hc, Hr. unfold PeakHours.inHour, JSMapFacts.group. rewrite Hempty.
  split; reflexivity.
Qed.

End PeakHours.

(** * Popular items *)

Module PopularItems.

Import AnalyticsService OrderCreation JSMapFacts.

Lemma JSSet_add_In (x y : string) (s : JSSet.t) :
  In y (JSSet.add x s) <-> y = x \/ In y s.
Proof.
  unfold JSSet.add, JSSet.has. destruct (existsb (String.eqb x) s) eqn:E.
  - split; [auto|]. intros [-> | H]; [|assumption].
    apply existsb_exists in E. destruct E as (z & Hz & Hxz).
    apply String.eqb_eq in Hxz. now subst z.
  - rewrite in_app_iff. simpl. split; [intros [H | [H | []]]; auto | intros [H | H]; auto].
Qed.

Lemma JSSet_add_NoDup (x : string) (s : JSSet.t) : NoDup s -> NoDup (JSSet.add x s).
Proof.
  intros Hnd. unfold JSSet.add, JSSet.has.
  destruct (existsb (String.eqb x) s) eqn:E; [assumption|].
  assert (Hnot : ~ In x s).
  { intros Hin. assert (existsb (String.eqb x) s = true); [|congruence].
    apply existsb_exists. exists x. split; [assumption | apply String.eqb_refl]. }
  apply NoDup_rev in Hnd. rewrite <- (rev_involutive (s ++ [x])).
  apply NoDup_rev. rewrite rev_app_distr. simpl. constructor; [|assumption].
  now rewrite <- in_rev.
Qed.

(** The size of a set that holds exactly the members of [l] is the number
    of distinct members of [l]. *)
Lemma JSSet_size_distinct (s : JSSet.t) (l : list string) :
  NoDup s -> (forall id, In id s <-> In id l) ->
  JSSet.size s = Z.of_nat (length (nodup string_dec l)).
Proof.
  intros Hnd Hsame. unfold JSSet.size. f_equal.
  apply Permutation_length, NoDup_Permutation; [assumption | apply NoDup_nodup|].
  intros id. rewrite nodup_In. apply Hsame.
Qed.

Definition lineKey (r : OrderItemRow) : string := menuItemId (row_item r).
Definition lineQuantity (r : OrderItemRow) : Z := quantity (row_item r).
Definition lineRevenue (r : OrderItemRow) : Z :=
  priceCents (row_item r) * quantity (row_item r).

(** The lines of the non-canceled orders that name menu item [id]. *)
Definition linesOf (id : string) (rows : list OrderItemRow) : list OrderItemRow :=
  filter (fun r => String.eqb (lineKey r) id) rows.

(** What the accumulator of a menu item has gathered from its lines. *)
Definition gathered (e : ItemStats) (l : list OrderItemRow) : Prop :=
  (exists first rest, l = first :: rest /\ stats_menuItemId e = lineKey first)
  /\ stats_totalQuantity e = sumZ (map lineQuantity l)
  /\ stats_revenueCents e = sumZ (map lineRevenue l)
  /\ NoDup (stats_orderIds e)
  /\ (forall id, In id (stats_orderIds e) <-> In id (map row_orderId l)).

Lemma sumZ_snoc (l : list Z) (x : Z) : sumZ (l ++ [x]) = sumZ l + x.
Proof. rewrite sumZ_app. unfold sumZ at 2. simpl. lia. Qed.

Lemma sumZ_map_snoc {A : Type} (f : A -> Z) (l : list A) (x : A) :
  sumZ (map f (l ++ [x])) = sumZ (map f l) + f x.
Proof. rewrite map_app. apply sumZ_snoc. Qed.

Lemma itemMap_grouped (rows : list OrderItemRow) :
  let m := fold_left aggregate_item rows [] in
  NoDup (keys m)
  /\ (forall k, In k (keys m) <-> exists x, In x rows /\ lineKey x = k)
  /\ (forall k e, In (k, e) m -> gathered e (linesOf k rows)).
Proof.
  apply (grouping_loop String.eqb String.eqb_spec lineKey
           (fun r => mkItemStats (lineKey r) (menuItemName (row_item r)) (lineQuantity r)
                       (JSSet.add (row_orderId r) []) (lineRevenue r))
           (fun r existing =>
              mkItemStats (stats_menuItemId existing) (stats_menuItemName existing)
                (stats_totalQuantity existing + lineQuantity r)
                (JSSet.add (row_orderId r) (stats_orderIds existing))
                (stats_revenueCents existing + lineRevenue r))
           gathered).
  - intros x. unfold gathered. cbn [stats_menuItemId stats_totalQuantity
      stats_revenueCents stats_orderIds map].
    split; [eauto|]. split; [unfold sumZ; simpl; lia|].
    split; [unfold sumZ; simpl; lia|].
    split; [apply JSSet_add_NoDup; constructor|].
    intros id. rewrite JSSet_add_In. simpl. intuition.
  - intros x e l ((first & rest & Hl & Hid) & Hq & Hr & Hnd & Hids). unfold gathered.
    cbn [stats_menuItemId stats_totalQuantity stats_revenueCents stats_orderIds].
    split; [exists first, (rest ++ [x]); split; [now rewrite Hl | assumption]|].
    rewrite !sumZ_map_snoc.
    split; [lia|]. split; [lia|].
    split; [now apply JSSet_add_NoDup|].
    intros id. rewrite JSSet_add_In, map_app, in_app_iff, Hids. simpl. intuition.
Qed.

(** [b] was ordered at most as often as [a]: the order of the ranking. *)
Definition more_popular_first (a b : PopularItem) : Prop :=
  totalQuantity b <= totalQuantity a.

Lemma StronglySorted_firstn {A : Type} (R : A -> A -> Prop) (k : nat) (l : list A) :
  StronglySorted R l -> StronglySorted R (firstn k l).
Proof.
  intros Hs. revert k. induction Hs as [|x l Hs IH Hall]; intros k.
  - rewrite firstn_nil. constructor.
  - destruct k as [|k]; simpl; constructor; [apply IH|].
    rewrite Forall_forall in *. intros y Hy. apply Hall.
    rewrite <- (firstn_skipn k l). apply in_app_iff. now left.
Qed.

Lemma rankedItems_spec (rows : list OrderItemRow) :
  let ranking := rankedItems rows in
  NoDup (map item_menuItemId ranking)
  /\ (forall id, In id (map item_menuItemId ranking)
                 <-> exists r, In r rows /\ lineKey r = id)
  /\ (forall p, In p ranking ->
        let l := linesOf (item_menuItemId p) rows in
        totalQuantity p = sumZ (map lineQuantity l)
        /\ orderCount p = Z.of_nat (length (nodup string_dec (map row_orderId l)))
        /\ revenueCents p = sumZ (map lineRevenue l))
  /\ StronglySorted more_popular_first ranking.
Proof.
  intros ranking. subst ranking. unfold rankedItems, JSMap.entries.
  destruct (itemMap_grouped rows) as (Hnd & Hkeys & Hg).
  set (m := fold_left aggregate_item rows []) in *.
  assert (Hid : forall k e, In (k, e) m -> stats_menuItemId e = k).
  { intros k e Hin. destruct (Hg k e Hin) as ((first & rest & Hl & ->) & _).
    assert (Hfirst : In first (linesOf k rows)) by (rewrite Hl; now left).
    apply filter_In in Hfirst. destruct Hfirst as [_ Hk]. now apply String.eqb_eq in Hk. }
  assert (Hmapid : map item_menuItemId (map to_PopularItem m) = keys m).
  { rewrite map_map. apply map_ext_in. intros [k e] Hin. simpl. now apply Hid. }
  pose proof (JSArrayFacts.sort_perm by_totalQuantity_desc (map to_PopularItem m)) as Hperm.
  assert (Hids : Permutation
                   (map item_menuItemId (JSArray.sort by_totalQuantity_desc (map to_PopularItem m)))
                   (keys m)).
  { rewrite <- Hmapid. now apply Permutation_map. }
  split; [|split; [|split]].
  - apply (Permutation_NoDup (Permutation_sym Hids)). exact Hnd.
  - intros id. rewrite <- Hkeys. split; apply Permutation_in;
      [exact Hids | exact (Permutation_sym Hids)].
  - intros p Hp. apply (Permutation_in _ Hperm) in Hp. apply in_map_iff in Hp.
    destruct Hp as ([k e] & <- & Hin).
    cbn [to_PopularItem item_menuItemId totalQuantity orderCount revenueCents snd].
    rewrite (Hid k e Hin).
    destruct (Hg k e Hin) as (_ & Hq & Hr & Hnodup & Hsame).
    split; [assumption|]. split; [|assumption].
    now apply JSSet_size_distinct.
  - apply (JSArrayFacts.StronglySorted_weaken (JSArrayFacts.ordered by_totalQuantity_desc)).
    + unfold JSArrayFacts.ordered, by_totalQuantity_desc, more_popular_first. intros a b. lia.
    + apply JSArrayFacts.sort_strongly_sorted; unfold by_totalQuantity_desc; intros; lia.
Qed.

(** C6. [getPopularItems] groups the order items of the restaurant's
    non-canceled orders by [menuItemId]: one entry per menu item ordered,
    with the summed quantity, the number of distinct orders among its lines
    and the summed [priceCents * quantity]; the entries are in descending
    order of [totalQuantity], so an entry never stands behind one with a
    lower quantity; the answer is the first [limit] entries of this ranking
    (the first 10 when no limit is given). *)
Theorem getPopularItems_ranks_by_quantity
  (db : Db) (restaurant : string) (limit : option Z) :
  let kept := filter (not_canceled_of restaurant) (orders db) in
  let rows := flat_map (fun o => map (fun i => mkOrderItemRow i (order_id o)) (items o))
                       kept in
  let lines id := filter (fun r => String.eqb (menuItemId (row_item r)) id) rows in
  let ranking := rankedItems rows in
  exists result,
    getPopularItems restaurant limit db = (Ok result, db)
    /\ NoDup (map item_menuItemId ranking)
    /\ (forall id, In id (map item_menuItemId ranking)
                   <-> exists r, In r rows /\ menuItemId (row_item r) = id)
    /\ (forall p, In p ranking ->
          totalQuantity p
          = sumZ (map (fun r => quantity (row_item r)) (lines (item_menuItemId p)))
          /\ orderCount p
             = Z.of_nat (length (nodup string_dec
                                   (map row_orderId (lines (item_menuItemId p)))))
          /\ revenueCents p
             = sumZ (map (fun r => priceCents (row_item r) * quantity (row_item r))
                         (lines (item_menuItemId p))))
    /\ StronglySorted (fun a b => totalQuantity b <= totalQuantity a) ranking
    /\ (exists k, result = firstn k ranking)
    /\ (forall n, limit = Some n -> 0 <= n -> result = firstn (Z.to_nat n) ranking)
    /\ (limit = None -> result = firstn 10 ranking)
    /\ (forall i j a b, (i < j)%nat ->
          nth_error result i = Some a -> nth_error result j = Some b ->
          totalQuantity b <= totalQuantity a).
Proof.
  intros kept rows lines ranking.
  destruct (rankedItems_spec rows) as (Hnd & Hids & Hstats & Hsorted).
  fold ranking in Hnd, Hids, Hstats, Hsorted.
  set (n := match limit with Some n => n | None => 10 end).
  exists (JSArray.slice 0 n ranking).
  destruct (JSArrayFacts.slice_0_prefix n ranking) as (k & Hprefix).
  split; [reflexivity|]. split; [exact Hnd|]. split; [exact Hids|].
  split; [exact Hstats|]. split; [exact Hsorted|].
  split; [eauto|]. split; [|split].
  - intros n' -> Hn'. subst n. now apply JSArrayFacts.slice_0_nonneg.
  - intros ->. subst n. now rewrite JSArrayFacts.slice_0_nonneg.
  - intros i j a b Hlt Ha Hb. rewrite Hprefix in Ha, Hb.
    apply (JSArrayFacts.StronglySorted_nth more_popular_first (firstn k ranking) i j a b);
      [now apply StronglySorted_firstn | assumption | assumption | assumption].
Qed.

End PopularItems.

(** * Daily and weekly rollups, totals *)

Module Rollups.

Import DashboardAnalytics OrderCreation JSMapFacts.

(** ** The order of date keys *)

Lemma ascii_compare_refl (c : ascii) : Ascii.compare c c = Eq.
Proof. unfold Ascii.compare. apply N.compare_refl. Qed.

Lemma ascii_compare_lt_trans (a b c : ascii) :
  Ascii.compare a b = Lt -> Ascii.compare b c = Lt -> Ascii.compare a c = Lt.
Proof.
  unfold Ascii.compare. rewrite !N.compare_lt_iff. apply N.lt_trans.
Qed.

Lemma string_compare_trans (a b c : string) :
  String.compare a b <> Gt -> String.compare b c <> Gt -> String.compare a c <> Gt.
Proof.
  revert b c. induction a as [|x a IH]; intros [|y b] [|z c]; simpl;
    try congruence.
  destruct (Ascii.compare x y) eqn:Exy; try congruence;
    destruct (Ascii.compare y z) eqn:Eyz; try congruence; intros Hab Hbc.
  - apply Ascii.compare_eq_iff in Exy, Eyz. subst. rewrite ascii_compare_refl.
    now apply (IH b c).
  - apply Ascii.compare_eq_iff in Exy. subst. now rewrite Eyz.
  - apply Ascii.compare_eq_iff in Eyz. subst. now rewrite Exy.
  - now rewrite (ascii_compare_lt_trans x y z Exy Eyz).
Qed.

Lemma localeCompare_le (a b : string) :
  JSArray.localeCompare a b <= 0 <-> String.compare a b <> Gt.
Proof. unfold JSArray.localeCompare. destruct (String.compare a b); split; (lia || congruence). Qed.

Lemma localeCompare_asym (a b : string) :
  0 < JSArray.localeCompare a b -> JSArray.localeCompare b a <= 0.
Proof.
  unfold JSArray.localeCompare. rewrite (String.compare_antisym b a).
  destruct (String.compare a b); simpl; lia.
Qed.

Lemma pad_length (w : nat) (n : Z) (acc : string) :
  String.length (JSDate.pad w n acc) = (w + String.length acc)%nat.
Proof.
  revert n acc. induction w as [|w IH]; intros n acc; [reflexivity|].
  cbn [JSDate.pad]. rewrite IH. cbn [String.length]. lia.
Qed.

Lemma append_length (a b : string) :
  String.length (a ++ b) = (String.length a + String.length b)%nat.
Proof. induction a as [|c a IH]; [reflexivity|]. cbn [String.append String.length]. now rewrite IH. Qed.

(** Within the years 0 to 9999 a date key has the ten characters of
    [YYYY-MM-DD]. *)
Lemma toISODate_shape (t : Z) :
  let '(y, m, d) := JSDate.civil_from_days (JSDate.Day t) in
  0 <= y <= 9999 ->
  JSDate.toISODate t
  = (JSDate.pad 4 y "" ++ "-" ++ JSDate.pad 2 m "" ++ "-" ++ JSDate.pad 2 d "")%string
  /\ String.length (JSDate.toISODate t) = 10%nat.
Proof.
  unfold JSDate.toISODate, JSDate.isoDateOfDay.
  destruct (JSDate.civil_from_days (JSDate.Day t)) as [[y m] d].
  intros [Hy0 Hy1].
  destruct (Z.leb_spec 0 y); [|lia]. destruct (Z.leb_spec y 9999); [|lia].
  cbn [andb]. split; [reflexivity|].
  rewrite !append_length, !pad_length. reflexivity.
Qed.

(** The date key of [a] is not after the one of [b]. *)
Definition chronological (a b : TimeBasedStats) : Prop :=
  String.compare (date a) (date b) <> Gt.

(** ** The bucket loops *)

(** What a bucket has gathered from the orders of its key. *)
Definition tallied (b : Bucket) (l : list Order) : Prop :=
  l <> []
  /\ count b = Z.of_nat (length l)
  /\ revenue b = sumZ (map totalCents l).

Section Buckets.

Variable key : Order -> string.

(** The orders filed under date key [d]. *)
Definition filed (d : string) (found : list Order) : list Order :=
  filter (fun o => String.eqb (key o) d) found.

Definition buckets (found : list Order) : list TimeBasedStats :=
  JSArray.sort by_date_asc
    (map to_TimeBasedStats
       (JSMap.entries (fold_left (fun m o => add_to_bucket (key o) o m) found []))).

Lemma bucketMap_grouped (found : list Order) :
  let m := fold_left (fun m o => add_to_bucket (key o) o m) found [] in
  NoDup (keys m)
  /\ (forall k, In k (keys m) <-> exists o, In o found /\ key o = k)
  /\ (forall k b, In (k, b) m -> tallied b (filed k found)).
Proof.
  apply (grouping_loop String.eqb String.eqb_spec key
           (fun o => mkBucket 1 (totalCents o))
           (fun o existing => mkBucket (count existing + 1) (revenue existing + totalCents o))
           tallied).
  - intros o. unfold tallied. cbn [count revenue length map].
    split; [discriminate|]. split; [reflexivity|]. unfold sumZ. simpl. lia.
  - intros o e l (Hne & Hc & Hr). unfold tallied. cbn [count revenue].
    split; [destruct l; discriminate|].
    rewrite length_app, PopularItems.sumZ_map_snoc. cbn [length]. split; lia.
Qed.

Lemma buckets_spec (found : list Order) :
  NoDup (map date (buckets found))
  /\ (forall d, In d (map date (buckets found)) <-> exists o, In o found /\ key o = d)
  /\ (forall s, In s (buckets found) ->
        0 < orderCount s
        /\ orderCount s = Z.of_nat (length (filed (date s) found))
        /\ stats_totalRevenueCents s = sumZ (map totalCents (filed (date s) found))
        /\ averageOrderValueCents s
           = JSNumber.Math_round (JSNumber.div (stats_totalRevenueCents s) (orderCount s)))
  /\ StronglySorted chronological (buckets found).
Proof.
  unfold buckets, JSMap.entries.
  destruct (bucketMap_grouped found) as (Hnd & Hkeys & Hg).
  set (m := fold_left (fun m o => add_to_bucket (key o) o m) found []) in *.
  pose proof (JSArrayFacts.sort_perm by_date_asc (map to_TimeBasedStats m)) as Hperm.
  assert (Hdates : Permutation
                     (map date (JSArray.sort by_date_asc (map to_TimeBasedStats m)))
                     (keys m)).
  { replace (keys m) with (map date (map to_TimeBasedStats m))
      by (rewrite map_map; reflexivity).
    now apply Permutation_map. }
  split; [|split; [|split]].
  - apply (Permutation_NoDup (Permutation_sym Hdates)). exact Hnd.
  - intros d. rewrite <- Hkeys. split; apply Permutation_in;
      [exact Hdates | exact (Permutation_sym Hdates)].
  - intros s Hs. apply (Permutation_in _ Hperm) in Hs. apply in_map_iff in Hs.
    destruct Hs as ([k b] & <- & Hin).
    cbn [to_TimeBasedStats date orderCount stats_totalRevenueCents
         averageOrderValueCents fst snd].
    destruct (Hg k b Hin) as (Hne & Hc & Hr).
    split; [|auto].
    rewrite Hc. destruct (filed k found); [congruence | simpl; lia].
  - apply (JSArrayFacts.StronglySorted_weaken (JSArrayFacts.ordered by_date_asc)).
    + unfold JSArrayFacts.ordered, by_date_asc, chronological. intros a b.
      apply localeCompare_le.
    + apply JSArrayFacts.sort_strongly_sorted; unfold by_date_asc.
      * intros x y. apply localeCompare_asym.
      * intros x y z. rewrite !localeCompare_le. apply string_compare_trans.
Qed.

End Buckets.

(** ** The start of the week *)

Section WeekStart.

Variable LocalTZA : Z.

Lemma weekStart_eq (t : Z) :
  weekStart LocalTZA t = t - JSDate.getDay LocalTZA t * JSDate.msPerDay.
Proof.
  unfold weekStart, JSDate.setDate, JSDate.getDate, JSDate.UTC, JSDate.TimeWithinDay,
    JSDate.Day.
  set (lt := JSDate.LocalTime LocalTZA t).
  pose proof (Z.div_mod lt JSDate.msPerDay ltac:(unfold JSDate.msPerDay; lia)) as Hdm.
  unfold JSDate.LocalTime in lt. nia.
Qed.

(** The week key is the date of a Sunday, local time, at most six days
    before the order (and at the same time of day). *)
Lemma weekStart_is_sunday (t : Z) :
  JSDate.getDay LocalTZA (weekStart LocalTZA t) = 0
  /\ weekStart LocalTZA t <= t < weekStart LocalTZA t + 7 * JSDate.msPerDay.
Proof.
  rewrite weekStart_eq.
  assert (Hg : 0 <= JSDate.getDay LocalTZA t < 7).
  { unfold JSDate.getDay. apply Z.mod_pos_bound. lia. }
  split; [|unfold JSDate.msPerDay; lia].
  unfold JSDate.getDay at 1. unfold JSDate.Day, JSDate.LocalTime.
  replace (t - JSDate.getDay LocalTZA t * JSDate.msPerDay + LocalTZA)
    with (t + LocalTZA + (- JSDate.getDay LocalTZA t) * JSDate.msPerDay) by lia.
  rewrite Z.div_add by (unfold JSDate.msPerDay; lia).
  unfold JSDate.getDay, JSDate.Day, JSDate.LocalTime.
  set (d := (t + LocalTZA) / JSDate.msPerDay).
  pose proof (Z.div_mod (d + 4) 7 ltac:(lia)) as Hdm.
  replace (d + - ((d + 4) mod 7) + 4) with (0 + ((d + 4) / 7) * 7) by lia.
  rewrite Z.mod_add by lia. reflexivity.
Qed.

End WeekStart.

End Rollups.

(** * The analytics of a restaurant *)

Module RestaurantAnalyticsProps.

Import OrderCreation.

(** The orders every analytics query selects. *)
Definition counted (restaurant : string) (db : Db) : list Order :=
  filter (AnalyticsService.not_canceled_of restaurant) (orders db).

Lemma counted_iff (restaurant : string) (db : Db) (o : Order) :
  In o (counted restaurant db)
  <-> In o (orders db) /\ restaurantId o = restaurant /\ status o <> CANCELED.
Proof.
  unfold counted, AnalyticsService.not_canceled_of.
  rewrite filter_In, andb_true_iff, negb_true_iff, String.eqb_eq.
  destruct (OrderStatus_eqb_spec (status o) CANCELED); intuition congruence.
Qed.

(** The store with one more order [c] somewhere in the order table. *)
Definition with_order_inserted (before : list Order) (c : Order) (after : list Order)
                               (db : Db) : Db :=
  mkDb (restaurants db) (menuItems db) (before ++ c :: after).

Lemma counted_skips_canceled restaurant db before c after :
  orders db = before ++ after -> status c = CANCELED ->
  counted restaurant (with_order_inserted before c after db) = counted restaurant db.
Proof.
  intros Hdb Hc. unfold counted, with_order_inserted. cbn [orders]. rewrite Hdb.
  rewrite !filter_app. cbn [filter].
  unfold AnalyticsService.not_canceled_of at 2. rewrite Hc.
  now rewrite andb_false_r.
Qed.

Lemma dashboard_depends_on_counted tz restaurant db :
  DashboardAnalytics.getRestaurantAnalytics tz restaurant db
  = (fst (DashboardAnalytics.getRestaurantAnalytics tz restaurant
            (mkDb [] [] (counted restaurant db))), db).
Proof.
  unfold DashboardAnalytics.getRestaurantAnalytics, bind, Prisma.order_findMany,
    query, ret, counted. cbn [orders fst].
  rewrite JSArrayFacts.filter_idem. reflexivity.
Qed.

Lemma popular_depends_on_counted restaurant limit db :
  AnalyticsService.getPopularItems restaurant limit db
  = (fst (AnalyticsService.getPopularItems restaurant limit
            (mkDb [] [] (counted restaurant db))), db).
Proof.
  unfold AnalyticsService.getPopularItems, bind, AnalyticsService.orderItem_findMany,
    query, ret, counted. cbn [orders fst].
  rewrite JSArrayFacts.filter_idem. reflexivity.
Qed.

Lemma peak_depends_on_counted tz restaurant db :
  AnalyticsService.getPeakTimes tz restaurant db
  = (fst (AnalyticsService.getPeakTimes tz restaurant
            (mkDb [] [] (counted restaurant db))), db).
Proof.
  unfold AnalyticsService.getPeakTimes, bind, Prisma.order_findMany,
    query, ret, OrderService.lift, counted. cbn [orders fst].
  rewrite JSArrayFacts.filter_idem. reflexivity.
Qed.

Lemma summary_depends_on_counted tz restaurant limit db :
  AnalyticsService.getRestaurantAnalytics tz restaurant limit db
  = (fst (AnalyticsService.getRestaurantAnalytics tz restaurant limit
            (mkDb [] [] (counted restaurant db))), db).
Proof.
  unfold AnalyticsService.getRestaurantAnalytics, bind.
  rewrite (popular_depends_on_counted restaurant _ db).
  rewrite (popular_depends_on_counted restaurant _ (mkDb [] [] (counted restaurant db))).
  destruct (fst (AnalyticsService.getPopularItems restaurant _ _)) as [popular|e];
    [|reflexivity].
  rewrite (peak_depends_on_counted tz restaurant db).
  rewrite (peak_depends_on_counted tz restaurant (mkDb [] [] (counted restaurant db))).
  destruct (fst (AnalyticsService.getPeakTimes tz restaurant _)) as [peak|e];
    [|reflexivity].
  unfold AnalyticsService.order_aggregate, query, ret, counted. cbn [orders fst snd].
  rewrite JSArrayFacts.filter_idem. reflexivity.
Qed.

(** C4. The analytics count the restaurant's non-canceled orders only:
    [totalOrders] is their number, [totalRevenueCents] the sum of their
    totals, and [averageOrderCostCents] is [Math.round(revenue / orders)]
    (the exact quotient rounded to the nearest cent, ties upwards) when
    there is an order and 0 otherwise; adding a CANCELED order to the store
    changes no result of any analytics function. *)
Theorem analytics_count_non_canceled_orders (tz : Z) (db : Db) (restaurant : string) :
  let kept := counted restaurant db in
  (forall o, In o kept
             <-> In o (orders db) /\ restaurantId o = restaurant /\ status o <> CANCELED)
  /\ (exists res,
        DashboardAnalytics.getRestaurantAnalytics tz restaurant db = (Ok res, db)
        /\ DashboardAnalytics.totalOrders res = Z.of_nat (length kept)
        /\ DashboardAnalytics.totalRevenueCents res = sumZ (map totalCents kept)
        /\ (0 < DashboardAnalytics.totalOrders res ->
            DashboardAnalytics.averageOrderCostCents res
            = JSNumber.Math_round
                (JSNumber.div (DashboardAnalytics.totalRevenueCents res)
                              (DashboardAnalytics.totalOrders res)))
        /\ (0 < DashboardAnalytics.totalOrders res ->
            0 <= DashboardAnalytics.totalRevenueCents res < 2 ^ 52 ->
            DashboardAnalytics.averageOrderCostCents res
            = JSNumber.round_half_up (DashboardAnalytics.totalRevenueCents res)
                                     (DashboardAnalytics.totalOrders res))
        /\ (DashboardAnalytics.totalOrders res = 0 ->
            DashboardAnalytics.averageOrderCostCents res = 0))
  /\ (forall limit, exists res,
        AnalyticsService.getRestaurantAnalytics tz restaurant limit db = (Ok res, db)
        /\ AnalyticsService.totalOrders res = Z.of_nat (length kept)
        /\ AnalyticsService.totalRevenueCents res = sumZ (map totalCents kept))
  /\ (forall before c after limit,
        orders db = before ++ after -> status c = CANCELED ->
        let db' := with_order_inserted before c after db in
        fst (DashboardAnalytics.getRestaurantAnalytics tz restaurant db')
        = fst (DashboardAnalytics.getRestaurantAnalytics tz restaurant db)
        /\ fst (AnalyticsService.getRestaurantAnalytics tz restaurant limit db')
           = fst (AnalyticsService.getRestaurantAnalytics tz restaurant limit db)
        /\ fst (AnalyticsService.getPopularItems restaurant limit db')
           = fst (AnalyticsService.getPopularItems restaurant limit db)
        /\ fst (AnalyticsService.getPeakTimes tz restaurant db')
           = fst (AnalyticsService.getPeakTimes tz restaurant db)).
Proof.
  intros kept. split; [apply counted_iff|]. split; [|split].
  - eexists. split; [reflexivity|].
    cbn [DashboardAnalytics.totalOrders DashboardAnalytics.totalRevenueCents
         DashboardAnalytics.averageOrderCostCents].
    fold (counted restaurant db). fold kept.
    rewrite (fold_left_add_sumZ totalCents kept 0), Z.add_0_l.
    split; [reflexivity|]. split; [reflexivity|].
    split; [|split].
    + intros Hpos. apply Z.ltb_lt in Hpos. now rewrite Hpos.
    + intros Hpos Hrange. pose proof Hpos as Hpos'. apply Z.ltb_lt in Hpos'.
      rewrite Hpos'. now apply JSNumberFacts.Math_round_div_exact.
    + intros ->. reflexivity.
  - intros limit.
    destruct (PeakHours.peakTimes_of_spec tz kept) as (peak & Hpeak & _).
    unfold AnalyticsService.getRestaurantAnalytics, AnalyticsService.getPopularItems,
      AnalyticsService.getPeakTimes, AnalyticsService.orderItem_findMany,
      AnalyticsService.order_aggregate, Prisma.order_findMany.
    unfold bind, query, ret, OrderService.lift.
    cbv beta iota zeta.
    fold (counted restaurant db). fold kept. rewrite Hpeak.
    eexists. split; [reflexivity|].
    cbn [AnalyticsService.totalOrders AnalyticsService.totalRevenueCents fst snd].
    split; [reflexivity|].
    destruct kept as [|o kept']; [reflexivity|].
    rewrite (fold_left_add_sumZ totalCents (o :: kept') 0). lia.
  - intros before c after limit Hdb Hc db'.
    pose proof (counted_skips_canceled restaurant db before c after Hdb Hc) as Hsame.
    fold db' in Hsame.
    rewrite (dashboard_depends_on_counted tz restaurant db'),
      (dashboard_depends_on_counted tz restaurant db),
      (summary_depends_on_counted tz restaurant limit db'),
      (summary_depends_on_counted tz restaurant limit db),
      (popular_depends_on_counted restaurant limit db'),
      (popular_depends_on_counted restaurant limit db),
      (peak_depends_on_counted tz restaurant db'),
      (peak_depends_on_counted tz restaurant db).
    rewrite Hsame. cbn [fst]. repeat split; reflexivity.
Qed.

(** ** Rollups *)

(** [result] is the rollup of [found] by [key], cut to the last [limit]
    buckets. *)
Definition rollup (key : Order -> string) (found : list Order) (limit : nat)
                  (result : list DashboardAnalytics.TimeBasedStats) : Prop :=
  exists earlier,
    let all := earlier ++ result in
    length result = Nat.min limit (length all)
    /\ NoDup (map DashboardAnalytics.date all)
    /\ (forall d, In d (map DashboardAnalytics.date all)
                  <-> exists o, In o found /\ key o = d)
    /\ (forall s, In s all ->
          let filed := filter (fun o => String.eqb (key o) (DashboardAnalytics.date s)) found in
          0 < DashboardAnalytics.orderCount s
          /\ DashboardAnalytics.orderCount s = Z.of_nat (length filed)
          /\ DashboardAnalytics.stats_totalRevenueCents s = sumZ (map totalCents filed)
          /\ DashboardAnalytics.averageOrderValueCents s
             = JSNumber.Math_round
                 (JSNumber.div (DashboardAnalytics.stats_totalRevenueCents s)
                               (DashboardAnalytics.orderCount s))
          /\ (0 <= DashboardAnalytics.stats_totalRevenueCents s < 2 ^ 52 ->
              DashboardAnalytics.averageOrderValueCents s
              = JSNumber.round_half_up (DashboardAnalytics.stats_totalRevenueCents s)
                                       (DashboardAnalytics.orderCount s)))
    /\ StronglySorted Rollups.chronological all.

Lemma sliced_buckets_rollup (key : Order -> string) (found : list Order) (limit : nat) :
  (0 < limit)%nat ->
  rollup key found limit
         (JSArray.sliceFrom (- Z.of_nat limit) (Rollups.buckets key found)).
Proof.
  intros Hlimit.
  destruct (JSArrayFacts.sliceFrom_suffix limit (Rollups.buckets key found) Hlimit)
    as [Hsplit Hlen].
  destruct (Rollups.buckets_spec key found) as (Hnd & Hkeys & Hstats & Hsorted).
  exists (firstn (length (Rollups.buckets key found) - limit) (Rollups.buckets key found)).
  cbv zeta. rewrite <- Hsplit.
  split; [exact Hlen|]. split; [exact Hnd|]. split; [exact Hkeys|].
  split; [|exact Hsorted].
  intros s Hs. destruct (Hstats s Hs) as (Hpos & Hc & Hr & Havg).
  split; [exact Hpos|]. split; [exact Hc|]. split; [exact Hr|]. split; [exact Havg|].
  intros Hrange. rewrite Havg. now apply JSNumberFacts.Math_round_div_exact.
Qed.

(** X28. The rollups, when the server's local time is UTC plus a fixed
    offset [tz] (a time zone without daylight-saving changes; zones with
    such changes are not covered): [ordersByDay] and [ordersByWeek] file
    the restaurant's non-canceled orders under the UTC calendar day of
    [createdAt] and under the UTC date of the week start, a Sunday in local
    time at the order's time of day; a bucket reports the number of its
    orders, the sum of their totals and [Math.round(revenue / count)], the
    exact average rounded to the nearest cent (750 for 2 orders totalling
    1500); the buckets are in ascending order of their date key, and only
    the last 30 days and the last 12 weeks are returned. *)
Theorem rollups_by_day_and_week (tz : Z) (db : Db) (restaurant : string) :
  let kept := counted restaurant db in
  exists res,
    DashboardAnalytics.getRestaurantAnalytics tz restaurant db = (Ok res, db)
    /\ rollup DashboardAnalytics.dayKey kept 30 (DashboardAnalytics.ordersByDay res)
    /\ rollup (DashboardAnalytics.weekKey tz) kept 12 (DashboardAnalytics.ordersByWeek res)
    /\ (forall o, DashboardAnalytics.dayKey o = JSDate.toISODate (createdAt o))
    /\ (forall o, exists sunday,
          DashboardAnalytics.weekKey tz o = JSDate.toISODate sunday
          /\ JSDate.getDay tz sunday = 0
          /\ sunday <= createdAt o < sunday + 7 * JSDate.msPerDay)
    /\ (forall s, In s (DashboardAnalytics.ordersByDay res)
                  \/ In s (DashboardAnalytics.ordersByWeek res) ->
          DashboardAnalytics.orderCount s = 2 ->
          DashboardAnalytics.stats_totalRevenueCents s = 1500 ->
          DashboardAnalytics.averageOrderValueCents s = 750).
Proof.
  intros kept.
  pose proof (sliced_buckets_rollup DashboardAnalytics.dayKey kept 30 ltac:(lia)) as Hday.
  pose proof (sliced_buckets_rollup (DashboardAnalytics.weekKey tz) kept 12 ltac:(lia))
    as Hweek.
  eexists. split; [reflexivity|].
  cbn [DashboardAnalytics.ordersByDay DashboardAnalytics.ordersByWeek].
  fold (counted restaurant db). fold kept.
  split; [exact Hday|]. split; [exact Hweek|]. split; [reflexivity|].
  split.
  - intros o. exists (DashboardAnalytics.weekStart tz (createdAt o)).
    split; [reflexivity|]. apply Rollups.weekStart_is_sunday.
  - assert (Hcase : forall key limit result s,
              rollup key kept limit result -> In s result ->
              DashboardAnalytics.orderCount s = 2 ->
              DashboardAnalytics.stats_totalRevenueCents s = 1500 ->
              DashboardAnalytics.averageOrderValueCents s = 750).
    { intros key limit result s (earlier & _ & _ & _ & Hstats & _) Hin Hc Hr.
      destruct (Hstats s) as (_ & _ & _ & Havg & _); [apply in_app_iff; now right|].
      rewrite Havg, Hc, Hr. reflexivity. }
    intros s [Hs | Hs]; [exact (Hcase _ _ _ s Hday Hs) | exact (Hcase _ _ _ s Hweek Hs)].
Qed.


(** ** The dashboard's top hours *)

Section TopHours.

Variable LocalTZA : Z.

Lemma count_hour_upsert (m : list (Z * Z)) (o : Order) :
  DashboardAnalytics.count_hour LocalTZA m o
  = JSMapFacts.upsert Z.eqb (PeakHours.hourOf LocalTZA) (fun _ => 1) (fun _ c => c + 1) m o.
Proof.
  unfold DashboardAnalytics.count_hour, JSMapFacts.upsert, PeakHours.hourOf.
  destruct (JSMap.get Z.eqb _ m) as [c|]; [|reflexivity].
  destruct (Z.eqb_spec c 0) as [-> | _]; reflexivity.
Qed.

Lemma fold_count_hour (found : list Order) (m : list (Z * Z)) :
  fold_left (DashboardAnalytics.count_hour LocalTZA) found m
  = fold_left (JSMapFacts.upsert Z.eqb (PeakHours.hourOf LocalTZA)
                 (fun _ => 1) (fun _ c => c + 1)) found m.
Proof.
  revert m. induction found as [|o found IH]; intros m; [reflexivity|].
  cbn [fold_left]. now rewrite count_hour_upsert, IH.
Qed.

(** X29. [peakOrderingHours] of the dashboard is a different view from
    [getPeakTimes]: it lists only hours with at least one order, at most
    five of them, busiest first. *)
Lemma dashboard_top_hours (db : Db) (restaurant : string) :
  let kept := counted restaurant db in
  exists res,
    DashboardAnalytics.getRestaurantAnalytics LocalTZA restaurant db = (Ok res, db)
    /\ (length (DashboardAnalytics.peakOrderingHours res) <= 5)%nat
    /\ (forall h, In h (DashboardAnalytics.peakOrderingHours res) ->
          0 < DashboardAnalytics.hour_orderCount h
          /\ DashboardAnalytics.hour_orderCount h
             = Z.of_nat (length (PeakHours.inHour LocalTZA (DashboardAnalytics.hour h) kept)))
    /\ Sorted (fun a b => DashboardAnalytics.hour_orderCount b
                          <= DashboardAnalytics.hour_orderCount a)
              (DashboardAnalytics.peakOrderingHours res)
    /\ (kept = [] -> DashboardAnalytics.peakOrderingHours res = []).
Proof.
  intros kept. eexists. split; [reflexivity|].
  cbn [DashboardAnalytics.peakOrderingHours]. fold (counted restaurant db). fold kept.
  unfold JSMap.entries. rewrite fold_count_hour.
  pose proof (JSMapFacts.grouping_loop Z.eqb Z.eqb_spec (PeakHours.hourOf LocalTZA)
                (fun _ => 1) (fun _ c => c + 1)
                (fun c l => l <> [] /\ c = Z.of_nat (length l))) as Hloop.
  destruct (Hloop ltac:(intros x; split; [discriminate | reflexivity])
                  ltac:(intros x e l [Hne ->]; split;
                        [destruct l; discriminate | rewrite length_app; simpl; lia])
                  kept) as (_ & _ & Hcounts).
  set (m := fold_left _ kept []) in *.
  set (ranked := JSArray.sort DashboardAnalytics.by_orderCount_desc
                   (map (fun e => DashboardAnalytics.mkHourCount (fst e) (snd e)) m)).
  destruct (JSArrayFacts.slice_0_prefix 5 ranked) as (k & Hk).
  rewrite (JSArrayFacts.slice_0_nonneg 5 ranked ltac:(lia)).
  split; [apply firstn_le_length|]. split; [|split].
  - intros h Hh. apply JSArrayFacts.In_prefix in Hh. subst ranked.
    apply JSArrayFacts.sort_In in Hh. apply in_map_iff in Hh.
    destruct Hh as ([hr c] & <- & Hin). cbn [DashboardAnalytics.hour
      DashboardAnalytics.hour_orderCount fst snd].
    destruct (Hcounts hr c Hin) as [Hne ->]. split; [|reflexivity].
    unfold PeakHours.inHour. destruct (JSMapFacts.group _ _ _ _); [congruence | simpl; lia].
  - assert (Hs : Sorted (fun a b => DashboardAnalytics.hour_orderCount b
                                    <= DashboardAnalytics.hour_orderCount a) ranked).
    { apply (JSArrayFacts.Sorted_weaken
               (JSArrayFacts.ordered DashboardAnalytics.by_orderCount_desc)).
      - unfold JSArrayFacts.ordered, DashboardAnalytics.by_orderCount_desc. intros a b. lia.
      - apply JSArrayFacts.sort_sorted. unfold DashboardAnalytics.by_orderCount_desc.
        intros x y. lia. }
    clear Hk. generalize (Z.to_nat 5). revert Hs. generalize ranked.
    induction 1 as [|x l Hs IH Hhd]; intros n; [rewrite firstn_nil; constructor|].
    destruct n as [|n]; [constructor|]. cbn [firstn]. constructor; [apply IH|].
    destruct Hhd; destruct n; constructor. assumption.
  - intros Hempty. subst ranked m. rewrite Hempty. reflexivity.
Qed.

End TopHours.

End RestaurantAnalyticsProps.

(** * The analytics on the sample store *)

Module AnalyticsExamples.

Import Examples.

(** The burger was ordered 8 times in two orders, the fries 10 times in one
    (the canceled order does not count): the fries come first. *)
Example sample_popular_items :
  fst (AnalyticsService.getPopularItems "rest-1" None store)
  = Ok [AnalyticsService.mkPopularItem "item-2" "Fries" 10 1 5000;
        AnalyticsService.mkPopularItem "item-1" "Burger" 8 2 8000].
Proof. reflexivity. Qed.

Example sample_popular_items_limit_1 :
  fst (AnalyticsService.getPopularItems "rest-1" (Some 1) store)
  = Ok [AnalyticsService.mkPopularItem "item-2" "Fries" 10 1 5000].
Proof. reflexivity. Qed.

(** In UTC, three of the counted orders fall in the hour after noon. *)
Example sample_peak_hour :
  match fst (AnalyticsService.getPeakTimes 0 "rest-1" store) with
  | Ok (busiest :: next :: _) =>
      busiest = AnalyticsService.mkPeakTime 12 3 2700
      /\ AnalyticsService.peak_orderCount next = 0
  | _ => False
  end.
Proof. vm_compute. split; reflexivity. Qed.

Example sample_peak_hours_of_nothing :
  fst (AnalyticsService.getPeakTimes 0 "rest-2" store)
  = Ok (map (fun h => AnalyticsService.mkPeakTime h 0 0) PeakHours.hours24).
Proof. reflexivity. Qed.

(** The canceled order of 5000 cents is in none of the figures. *)
Example sample_dashboard :
  match fst (DashboardAnalytics.getRestaurantAnalytics 0 "rest-1" store) with
  | Ok res =>
      DashboardAnalytics.totalOrders res = 3
      /\ DashboardAnalytics.totalRevenueCents res = 2700
      /\ DashboardAnalytics.averageOrderCostCents res = 900
      /\ DashboardAnalytics.ordersByDay res
         = [DashboardAnalytics.mkTimeBasedStats "2024-01-01" 2 1500 750;
            DashboardAnalytics.mkTimeBasedStats "2024-01-02" 1 1200 1200]
      /\ DashboardAnalytics.ordersByWeek res
         = [DashboardAnalytics.mkTimeBasedStats "2023-12-31" 3 2700 900]
      /\ DashboardAnalytics.peakOrderingHours res
         = [DashboardAnalytics.mkHourCount 12 3]
  | Err _ => False
  end.
Proof. vm_compute. repeat split; reflexivity. Qed.

(** West of Greenwich the week key, a UTC date, can be the Monday: an order
    placed on Sunday 2024-01-07 at 22:00 in a zone five hours behind UTC. *)
Example sample_week_key_behind_utc :
  let tz := -5 * JSDate.msPerHour in
  let placed := 1704682800000 in
  JSDate.getDay tz placed = 0
  /\ JSDate.toISODate (DashboardAnalytics.weekStart tz placed) = "2024-01-08"%string.
Proof. vm_compute. split; reflexivity. Qed.

End AnalyticsExamples.


(** * Week keys and the time zone *)

Module WeekKeys.

Import Examples.

(** The day number of the Sunday that starts the week of day [d]. *)
Definition sundayOf (d : Z) : Z := d - (d + 4) mod 7.

(** When local time is UTC the week key is the date of the Sunday that
    starts the order's week, whatever the time of day. *)
Lemma weekKey_utc (o : Order) :
  DashboardAnalytics.weekKey 0 o
  = JSDate.isoDateOfDay (sundayOf (JSDate.Day (createdAt o))).
Proof.
  unfold DashboardAnalytics.weekKey, JSDate.toISODate, sundayOf.
  rewrite Rollups.weekStart_eq. f_equal.
  unfold JSDate.getDay, JSDate.LocalTime, JSDate.Day. rewrite Z.add_0_r.
  set (t := createdAt o). set (g := (t / JSDate.msPerDay + 4) mod 7).
  replace (t - g * JSDate.msPerDay) with (t + (- g) * JSDate.msPerDay) by lia.
  rewrite Z.div_add by (unfold JSDate.msPerDay; lia). lia.
Qed.

Lemma weekKey_utc_same_week (o1 o2 : Order) :
  sundayOf (JSDate.Day (createdAt o1)) = sundayOf (JSDate.Day (createdAt o2)) ->
  DashboardAnalytics.weekKey 0 o1 = DashboardAnalytics.weekKey 0 o2.
Proof. intros H. now rewrite !weekKey_utc, H. Qed.

(** Five hours behind UTC (Eastern Standard Time). *)
Definition eastern : Z := -5 * JSDate.msPerHour.

(** Two orders placed on Monday 2024-01-08, at 01:00 and at 22:00 Eastern
    time (06:00 UTC, and 03:00 UTC of the 9th). *)
Definition monday_early : Order := row "order-6" PENDING 1704693600000 1000 [].
Definition monday_late : Order := row "order-7" PENDING 1704769200000 500 [].

Definition eastern_store : Db :=
  mkDb [mkRestaurant "rest-1" true] [burger; fries] [monday_early; monday_late].

(** C7, in a time zone behind UTC: the two orders of the same Monday fall
    into two week buckets, and the key of the second one is the date of a
    Monday. The week start is taken in local time and printed in UTC. *)
Theorem weekly_rollup_splits_a_week_behind_utc :
  JSDate.toISODate (JSDate.LocalTime eastern (createdAt monday_early)) = "2024-01-08"%string
  /\ JSDate.toISODate (JSDate.LocalTime eastern (createdAt monday_late)) = "2024-01-08"%string
  /\ JSDate.getDay eastern (createdAt monday_early) = 1
  /\ JSDate.getDay eastern (createdAt monday_late) = 1
  /\ match fst (DashboardAnalytics.getRestaurantAnalytics eastern "rest-1" eastern_store) with
     | Ok res =>
         DashboardAnalytics.ordersByWeek res
         = [DashboardAnalytics.mkTimeBasedStats "2024-01-07" 1 1000 1000;
            DashboardAnalytics.mkTimeBasedStats "2024-01-08" 1 500 500]
     | Err _ => False
     end
  /\ match fst (DashboardAnalytics.getRestaurantAnalytics 0 "rest-1" eastern_store) with
     | Ok res =>
         DashboardAnalytics.ordersByWeek res
         = [DashboardAnalytics.mkTimeBasedStats "2024-01-07" 2 1500 750]
     | Err _ => False
     end.
Proof. vm_compute. repeat split; reflexivity. Qed.

End WeekKeys.


(** * Where the two views of the hours, and the two taxes, part *)

Module Limits.

Import OrderService Examples.

(** C5 is about [getPeakTimes]; the dashboard's [peakOrderingHours], the
    other peak-hours computation, is not a 24-bucket view. On the sample
    store, whose three counted orders all fall in the hour after noon
    (UTC), it has one entry, a count without revenue; for a restaurant
    without orders it is empty. *)
Lemma dashboard_peak_hours_are_sparse :
  (exists res,
     DashboardAnalytics.getRestaurantAnalytics 0 "rest-1" store = (Ok res, store)
     /\ DashboardAnalytics.peakOrderingHours res = [DashboardAnalytics.mkHourCount 12 3]
     /\ length (DashboardAnalytics.peakOrderingHours res) <> 24%nat)
  /\ (exists res,
        DashboardAnalytics.getRestaurantAnalytics 0 "rest-2" store = (Ok res, store)
        /\ DashboardAnalytics.peakOrderingHours res = []
        /\ length (DashboardAnalytics.peakOrderingHours res) <> 24%nat).
Proof.
  split; eexists; (split; [reflexivity|]);
    (split; [vm_compute; reflexivity | vm_compute; discriminate]).
Qed.

(** C10 at a quantity below 1: [createOrder] answers with the tax it
    computed. For minus one portion of fries at 500 cents the subtotal is
    -500, the tax [Math.round(-41.25) = -41] and the total -541, where
    [max (totalCents - subtotalCents) 0] is 0: the returned tax is negative
    and is not the derived one. *)
Lemma createOrder_tax_can_be_negative :
  exists res db',
    createOrder fresh "cust-1" (request [mkOrderItemInput "item-2" (-1)]) store
    = (Ok res, db')
    /\ subtotalCents res = -500
    /\ taxCents res = -41
    /\ totalCents (order res) = -541
    /\ Z.max (totalCents (order res) - subtotalCents res) 0 = 0
    /\ ~ Financials.derived res.
Proof.
  eexists. eexists. split; [vm_compute; reflexivity|].
  cbn [subtotalCents taxCents totalCents order].
  repeat (split; [reflexivity|]).
  intros [_ Htax]. cbn [subtotalCents taxCents totalCents order] in Htax. discriminate.
Qed.

End Limits.

(** * Part two: across the service functions, the routes and the screens

    The modules below follow the order service and the analytics over
    several calls, and add the callers of the services:
    - the routers ([routes/orders.ts] and the order route of
      [routes/restaurants.ts]): a handler is a function of the path
      parameters and the JSON body to an answer or the error handed to
      [next], for a request that has passed the authentication middleware;
      zod schemas are parsers of JSON values;
    - the screens ([MerchantDashboardScreen.tsx], [OrderStatusScreen.tsx],
      the restaurants screen): the request a press handler sends, as a
      function of the values the React state holds at that moment.

    Two conventions of the store model matter below. An [Order] holds the
    columns and the items of an order: the restaurant summary that
    [customerOrderInclude] adds and the customer summary that
    [restaurantOrderInclude] adds are not part of it, so two answers are
    compared by their columns, items and financials. The list of orders of
    a store stands for the order in which a query without [orderBy]
    returns its rows, which the source does not fix: module [RowOrder] and
    the theorems built on it hold for every arrangement of the rows. *)

(** ** The order lifecycle over many requests *)

Module Lifecycle.

Import OrderService.

(** The outcome of [updateOrderStatusForRestaurant], check by check in the
    order of the source. *)
Definition status_outcome (restaurant orderId : string) (t : OrderStatus) (db : Db)
  : Result OrderWithFinancials * Db :=
  match findOrder orderId db with
  | None => (Err (HttpError 404 "Order not found"), db)
  | Some o =>
      if negb (String.eqb (restaurantId o) restaurant) then
        (Err (HttpError 404 "Order not found"), db)
      else if OrderStatus_eqb (status o) t then (Ok (attachFinancials o None), db)
      else if negb (existsb (OrderStatus_eqb t) (STATUS_TRANSITIONS (status o))) then
        (Err (HttpError 400 "Invalid status transition"), db)
      else
        (Ok (attachFinancials (set_status t o) None),
         with_order_updated orderId (set_status t) db)
  end.

Lemma updateOrderStatus_outcome restaurant orderId t db :
  updateOrderStatusForRestaurant restaurant orderId t db
  = status_outcome restaurant orderId t db.
Proof.
  unfold updateOrderStatusForRestaurant, status_outcome, bind,
    Prisma.order_findUnique, query, throw, ret.
  fold (findOrder orderId db).
  destruct (findOrder orderId db) as [o|] eqn:Hfind; [|reflexivity].
  destruct (negb (String.eqb (restaurantId o) restaurant)); [reflexivity|].
  destruct (OrderStatus_eqb (status o) t); [reflexivity|].
  destruct (negb (existsb _ _)); [reflexivity|].
  now rewrite (order_update_found _ _ _ _ Hfind).
Qed.

(** X1. A status request for an order that does not exist, or that belongs
    to another restaurant, is answered 404 whatever the requested status,
    and no failing request (404 or 400) writes to the store. *)
Theorem updateOrderStatus_rejections_leave_store
  (db : Db) (restaurant orderId : string) (t : OrderStatus) :
  let r := updateOrderStatusForRestaurant restaurant orderId t db in
  (findOrder orderId db = None -> fst r = Err (HttpError 404 "Order not found"))
  /\ (forall o, findOrder orderId db = Some o -> restaurantId o <> restaurant ->
        fst r = Err (HttpError 404 "Order not found"))
  /\ (forall e, fst r = Err e ->
        snd r = db
        /\ (e = HttpError 404 "Order not found"
            \/ e = HttpError 400 "Invalid status transition")).
Proof.
  cbv zeta. rewrite updateOrderStatus_outcome. unfold status_outcome.
  split; [intros ->; reflexivity|]. split.
  - intros o -> Hne. apply String.eqb_neq in Hne. now rewrite Hne.
  - intros e. destruct (findOrder orderId db) as [o|].
    + destruct (negb (String.eqb _ _)); [intros [= <-]; auto|].
      destruct (OrderStatus_eqb _ _); [discriminate|].
      destruct (negb (existsb _ _)); [intros [= <-]; auto | discriminate].
    + intros [= <-]; auto.
Qed.

(** The stage of an order: it only ever moves to a later stage. *)
Definition stage (s : OrderStatus) : Z :=
  match s with
  | PENDING => 0
  | PREPARING => 1
  | READY => 2
  | COMPLETED => 3
  | CANCELED => 3
  end.

(** The order as stored after each request of a series of status requests
    for it, whether the request is accepted or refused. *)
Fixpoint status_history (restaurant orderId : string) (requests : list OrderStatus)
                        (db : Db) : list (option Order) :=
  match requests with
  | [] => []
  | t :: rest =>
      let db' := snd (updateOrderStatusForRestaurant restaurant orderId t db) in
      findOrder orderId db' :: status_history restaurant orderId rest db'
  end.

(** The number of times the status changes along [s :: l]. *)
Fixpoint count_changes (s : OrderStatus) (l : list OrderStatus) : Z :=
  match l with
  | [] => 0
  | t :: rest => (if OrderStatus_eqb s t then 0 else 1) + count_changes t rest
  end.

(** The same status, or one of a later stage. *)
Definition forward (a b : OrderStatus) : Prop := a = b \/ stage a < stage b.

Lemma last_default {A : Type} (l : list A) (a b : A) : l <> [] -> last l a = last l b.
Proof.
  induction l as [|x l IH]; intros Hne; [congruence|].
  destruct l as [|y l]; [reflexivity|].
  change (last (y :: l) a = last (y :: l) b). apply IH. discriminate.
Qed.

Lemma last_cons_default {A : Type} (t s : A) (l : list A) :
  last (t :: l) s = last l t.
Proof.
  destruct l as [|x l]; [reflexivity|].
  change (last (x :: l) s = last (x :: l) t). apply last_default. discriminate.
Qed.

Lemma allowed_stage (s t : OrderStatus) :
  existsb (OrderStatus_eqb t) (STATUS_TRANSITIONS s) = true -> stage s < stage t.
Proof. destruct s, t; simpl; intros H; try discriminate; lia. Qed.

Lemma stage_bounds (s : OrderStatus) : 0 <= stage s <= 3.
Proof. destruct s; simpl; lia. Qed.

Lemma set_status_same (o : Order) : set_status (status o) o = o.
Proof. now destruct o. Qed.

(** One request: the stored order is as before, or has the requested
    status, of a later stage. *)
Lemma one_request restaurant orderId t db o :
  findOrder orderId db = Some o ->
  restaurantId o = restaurant ->
  exists s,
    findOrder orderId (snd (updateOrderStatusForRestaurant restaurant orderId t db))
    = Some (set_status s o)
    /\ forward (status o) s
    /\ (s = status o \/ s = t).
Proof.
  intros Hfind Hown. rewrite updateOrderStatus_outcome. unfold status_outcome.
  rewrite Hfind. apply String.eqb_eq in Hown. rewrite Hown. cbn [negb].
  destruct (OrderStatus_eqb (status o) t).
  { exists (status o). rewrite set_status_same. cbn [snd]. split; [assumption|].
    split; [now left | now left]. }
  destruct (existsb (OrderStatus_eqb t) (STATUS_TRANSITIONS (status o))) eqn:E; cbn [negb snd].
  - exists t. split; [apply findOrder_updated_same; [reflexivity | assumption]|].
    split; [right; now apply allowed_stage | now right].
  - exists (status o). rewrite set_status_same. split; [assumption|].
    split; [now left | now left].
Qed.

Lemma count_changes_stage (s : OrderStatus) (l : list OrderStatus) :
  Sorted forward (s :: l) -> stage s + count_changes s l <= stage (last l s).
Proof.
  revert s. induction l as [|t l IH]; intros s Hs; [simpl; lia|].
  inversion Hs as [|? ? Hs' Hhd]; subst. inversion Hhd as [|? ? Hst]; subst.
  specialize (IH t Hs'). rewrite last_cons_default. cbn [count_changes].
  destruct (OrderStatus_eqb_spec s t) as [-> | Hne]; [lia|].
  destruct Hst as [-> | Hlt]; [congruence | lia].
Qed.

Lemma terminal_history (s : OrderStatus) (l : list OrderStatus) :
  stage s = 3 -> Sorted forward (s :: l) -> Forall (fun t => t = s) l.
Proof.
  intros Hstage. induction l as [|t l IH]; intros Hsorted; [constructor|].
  inversion Hsorted as [|? ? Hs' Hhd]; subst. inversion Hhd as [|? ? Hfw]; subst.
  pose proof (stage_bounds t).
  assert (s = t) by (destruct Hfw as [|Hlt]; [assumption | lia]). subst t.
  constructor; [reflexivity | now apply IH].
Qed.

Lemma unchanged_history (o : Order) (l requests : list OrderStatus) :
  Forall (fun t => t = status o) l ->
  length l = length requests ->
  map (fun s => Some (set_status s o)) l = map (fun _ => Some o) requests.
Proof.
  intros Hall. revert requests. induction Hall as [|s l Hs Hall IH]; intros requests Hlen.
  - destruct requests; [reflexivity | discriminate].
  - destruct requests as [|t rest]; [discriminate|]. cbn [map length] in *. subst s.
    rewrite set_status_same. f_equal. apply IH. lia.
Qed.

(** X2. Whatever series of status requests a restaurant sends for one of its
    orders, after every request the order is stored with all its fields but
    the status as they were; from one request to the next the status stays
    or moves to a later stage (PENDING, PREPARING, READY, then COMPLETED or
    CANCELED), so it changes at most three times; an order that is
    COMPLETED or CANCELED stays exactly as it is. *)
Theorem status_requests_only_move_forward
  (db : Db) (restaurant orderId : string) (o : Order) (requests : list OrderStatus) :
  findOrder orderId db = Some o ->
  restaurantId o = restaurant ->
  exists statuses,
    status_history restaurant orderId requests db
    = map (fun s => Some (set_status s o)) statuses
    /\ Sorted forward (status o :: statuses)
    /\ count_changes (status o) statuses <= 3
    /\ (status o = COMPLETED \/ status o = CANCELED ->
        status_history restaurant orderId requests db = map (fun _ => Some o) requests).
Proof.
  intros Hfind Hown.
  assert (Hhist : exists statuses,
            status_history restaurant orderId requests db
            = map (fun s => Some (set_status s o)) statuses
            /\ Sorted forward (status o :: statuses)
            /\ length statuses = length requests).
  { revert db o Hfind Hown. induction requests as [|t rest IH]; intros db o Hfind Hown.
    - exists []. split; [reflexivity|]. split; [repeat constructor | reflexivity].
    - destruct (one_request restaurant orderId t db o Hfind Hown) as (s & Hs & Hfw & _).
      destruct (IH _ (set_status s o) Hs Hown) as (statuses & Hrest & Hsorted & Hlen).
      exists (s :: statuses). cbn [status_history map]. rewrite Hs, Hrest.
      split; [|split].
      + reflexivity.
      + constructor; [exact Hsorted | constructor; exact Hfw].
      + cbn [length]. now rewrite Hlen. }
  destruct Hhist as (statuses & Hhist & Hsorted & Hlen).
  exists statuses. split; [exact Hhist|]. split; [exact Hsorted|].
  pose proof (count_changes_stage _ _ Hsorted) as Hcount.
  pose proof (stage_bounds (status o)). pose proof (stage_bounds (last statuses (status o))).
  split; [lia|].
  intros Hterm. rewrite Hhist.
  assert (Hstage : stage (status o) = 3) by (destruct Hterm as [H1 | H1]; now rewrite H1).
  pose proof (terminal_history _ _ Hstage Hsorted) as Hall.
  now apply unchanged_history.
Qed.

End Lifecycle.

(** * Reading orders back *)

Module ReadBack.

Import OrderService OrderCreation.

Lemma getOrderForCustomer_found orderId customer db o :
  findOrder orderId db = Some o ->
  customerId o = customer ->
  getOrderForCustomer orderId customer db = (Ok (attachFinancials o None), db).
Proof.
  intros Hfind Hown.
  unfold getOrderForCustomer, bind, Prisma.order_findUnique, query, throw, ret.
  fold (findOrder orderId db). rewrite Hfind.
  apply String.eqb_eq in Hown. now rewrite Hown.
Qed.

Lemma getOrderForCustomer_ok orderId customer db res :
  fst (getOrderForCustomer orderId customer db) = Ok res ->
  exists o, findOrder orderId db = Some o /\ customerId o = customer
            /\ res = attachFinancials o None.
Proof.
  unfold getOrderForCustomer, bind, Prisma.order_findUnique, query, throw, ret.
  fold (findOrder orderId db).
  destruct (findOrder orderId db) as [o|]; [|discriminate].
  destruct (String.eqb_spec (customerId o) customer) as [Heq | Hne]; cbn [negb fst];
    [|discriminate].
  intros [= <-]. now exists o.
Qed.

(** X3. What an update returns is what the customer reads next. After a
    successful [updateOrderRoute], [getOrderForCustomer] returns the same
    annotated order (both query with [customerOrderInclude]). After a
    successful [updateOrderStatusForRestaurant], which answers with
    [restaurantOrderInclude], the customer reads an order with the same
    columns and items, the same subtotal and the same tax; the customer
    summary of the one answer and the restaurant summary of the other are
    not compared, [Order] has neither. *)
Theorem updates_are_read_back
  (db db' : Db) (orderId : string) (res : OrderWithFinancials) :
  (forall customer input,
     updateOrderRoute orderId customer input db = (Ok res, db') ->
     getOrderForCustomer orderId customer db' = (Ok res, db'))
  /\ (forall restaurant nextStatus,
        updateOrderStatusForRestaurant restaurant orderId nextStatus db = (Ok res, db') ->
        exists res',
          getOrderForCustomer orderId (customerId (order res)) db' = (Ok res', db')
          /\ order res' = order res
          /\ subtotalCents res' = subtotalCents res
          /\ taxCents res' = taxCents res).
Proof.
  assert (Hsame : forall customer r d,
            getOrderForCustomer orderId customer d = (Ok r, d) ->
            exists res', getOrderForCustomer orderId customer d = (Ok res', d)
                         /\ order res' = order r
                         /\ subtotalCents res' = subtotalCents r
                         /\ taxCents res' = taxCents r).
  { intros customer r d H. exists r. now rewrite H. }
  split.
  - intros customer input. rewrite RouteUpdate.updateOrderRoute_outcome.
    unfold RouteUpdate.route_outcome.
    destruct (findOrder orderId db) as [o|] eqn:Hfind; [|discriminate].
    destruct (String.eqb_spec (customerId o) customer) as [Hown | _]; [|discriminate].
    cbn [negb]. destruct (negb (RouteUpdate.editable _)); [discriminate|].
    intros H.
    assert (E : res = attachFinancials (apply_updateData input o) None
                /\ db' = with_order_updated orderId (apply_updateData input) db).
    { destruct (update_pickupEtaMin input) as [eta|].
      - destruct (eta <=? 0); [discriminate|]. now inversion H.
      - destruct (update_routeOrigin input), (update_routeDestination input);
          try discriminate; now inversion H. }
    destruct E as [-> ->].
    apply getOrderForCustomer_found; [|exact Hown].
    apply findOrder_updated_same; [reflexivity | exact Hfind].
  - intros restaurant t. rewrite Lifecycle.updateOrderStatus_outcome.
    unfold Lifecycle.status_outcome.
    destruct (findOrder orderId db) as [o|] eqn:Hfind; [|discriminate].
    destruct (negb (String.eqb _ _)); [discriminate|].
    destruct (OrderStatus_eqb _ _).
    + intros [= <- <-]. apply Hsame. now apply getOrderForCustomer_found.
    + destruct (negb (existsb _ _)); [discriminate|]. intros [= <- <-].
      apply Hsame. apply getOrderForCustomer_found; [|reflexivity].
      apply findOrder_updated_same; [reflexivity | exact Hfind].
Qed.

Lemma find_app_fresh (id : string) (l : list Order) (o : Order) :
  ~ In id (map order_id l) -> order_id o = id ->
  find (fun x => String.eqb (order_id x) id) (l ++ [o]) = Some o.
Proof.
  intros Hfresh Hid. induction l as [|x l IH]; simpl.
  - now rewrite Hid, String.eqb_refl.
  - destruct (String.eqb_spec (order_id x) id) as [E | _].
    + exfalso. apply Hfresh. left. exact E.
    + apply IH. intros Hin. apply Hfresh. now right.
Qed.

Lemma find_app_old (id : string) (l : list Order) (o x : Order) :
  find (fun y => String.eqb (order_id y) id) l = Some x ->
  find (fun y => String.eqb (order_id y) id) (l ++ [o]) = Some x.
Proof.
  induction l as [|y l IH]; simpl; [discriminate|].
  destruct (String.eqb (order_id y) id); [auto | exact IH].
Qed.

Lemma create_items_length found its rows :
  create_items found its = Ok rows -> length rows = length its.
Proof.
  revert rows. induction its as [|it its IH]; intros rows; cbn [create_items].
  - intros [= <-]. reflexivity.
  - destruct (find_menuItem found (input_menuItemId it)); [|discriminate].
    destruct (create_items found its) as [rows'|]; [|discriminate].
    intros [= <-]. cbn [length]. f_equal. now apply IH.
Qed.

(** X4. [createOrder] is all or nothing: when it throws, the store is as it
    was; when it returns, exactly the returned order was added, behind the
    existing orders, which are all found as before; the new order carries
    the customer, the restaurant, the ETA and the route of the request, the
    id, time and status given by the store, and one item per request line. *)
Theorem createOrder_all_or_nothing
  (db : Db) (fresh : RowDefaults) (customer : string) (input : CreateOrderInput) :
  let r := createOrder fresh customer input db in
  (forall e, fst r = Err e -> snd r = db)
  /\ (forall res, fst r = Ok res ->
        snd r = with_order_created (order res) db
        /\ (forall id o, findOrder id db = Some o -> findOrder id (snd r) = Some o)
        /\ order_id (order res) = default_id fresh
        /\ createdAt (order res) = default_createdAt fresh
        /\ status (order res) = default_status fresh
        /\ customerId (order res) = customer
        /\ restaurantId (order res) = input_restaurantId input
        /\ pickupEtaMin (order res) = input_pickupEtaMin input
        /\ routeOrigin (order res) = input_routeOrigin input
        /\ routeDestination (order res) = input_routeDestination input
        /\ length (items (order res)) = length (input_items input)).
Proof.
  cbv zeta. rewrite createOrder_unfold.
  destruct (activeRestaurant db (input_restaurantId input)) as [rest|] eqn:Hrest;
    [|split; [reflexivity | discriminate]].
  destruct (activeRestaurant_sound _ _ _ Hrest) as (_ & Hrid & _).
  cbv zeta. destruct (negb (Nat.eqb _ _)); [split; [reflexivity | discriminate]|].
  destruct (reduce_subtotal _ _ 0) as [s|]; [|split; [reflexivity | discriminate]].
  destruct (create_items _ _) as [rows|] eqn:Hrows; [|split; [reflexivity | discriminate]].
  split; [discriminate|]. intros res [= <-]. cbn [fst snd order].
  split; [reflexivity|]. split.
  { intros id o. unfold findOrder, with_order_created. cbn [orders]. apply find_app_old. }
  cbn [order_id createdAt status customerId restaurantId pickupEtaMin routeOrigin
       routeDestination items].
  repeat (split; [first [reflexivity | exact Hrid]|]).
  exact (create_items_length _ _ _ Hrows).
Qed.

(** X5. An order just created is read back by its customer with the
    columns and items [createOrder] returned and the same subtotal, and
    with the same tax when the menu has no negative price and the request
    no quantity below 1. [createOrder] includes the items only and the read
    adds the restaurant summary, which [Order] does not have. *)
Theorem created_order_is_read_back
  (db db' : Db) (fresh : RowDefaults) (customer : string) (input : CreateOrderInput)
  (res : OrderWithFinancials) :
  ~ In (default_id fresh) (map order_id (orders db)) ->
  createOrder fresh customer input db = (Ok res, db') ->
  exists res',
    getOrderForCustomer (default_id fresh) customer db' = (Ok res', db')
    /\ order res' = order res
    /\ subtotalCents res' = subtotalCents res
    /\ (Forall (fun m => 0 <= menuItem_priceCents m) (menuItems db) ->
        Forall (fun it => 0 < input_quantity it) (input_items input) ->
        taxCents res' = taxCents res).
Proof.
  intros Hfresh Hres. pose proof Hres as Hunfold. rewrite createOrder_unfold in Hunfold.
  destruct (activeRestaurant db (input_restaurantId input)) as [rest|]; [|discriminate].
  cbv zeta in Hunfold. destruct (negb (Nat.eqb _ _)); [discriminate|].
  destruct (reduce_subtotal _ _ 0) as [s|] eqn:Hs; [|discriminate].
  destruct (create_items _ _) as [rows|] eqn:Hrows; [|discriminate].
  inversion Hunfold as [[Hr Hdb]]. clear Hunfold.
  set (o := mkOrder (default_id fresh) customer (restaurant_id rest) (default_status fresh)
              (input_pickupEtaMin input) (input_routeOrigin input)
              (input_routeDestination input)
              (s + JSNumber.Math_round (JSNumber.mul s TAX_RATE))
              (default_createdAt fresh) rows) in *.
  exists (attachFinancials o None).
  assert (Hfind : findOrder (default_id fresh) (with_order_created o db) = Some o).
  { unfold findOrder, with_order_created. cbn [orders].
    now apply find_app_fresh. }
  split; [now apply getOrderForCustomer_found|].
  split; [reflexivity|].
  pose proof (Financials.create_items_subtotal _ _ 0 s rows Hs Hrows) as Hsum.
  assert (Hsub : subtotalCents (attachFinancials o None) = s).
  { cbn [attachFinancials subtotalCents items o]. unfold o. cbn [items].
    rewrite calculateSubtotal_sum. lia. }
  split; [exact Hsub|].
  intros Hprice Hqty.
  assert (Hs0 : 0 <= s).
  { apply (Financials.reduce_subtotal_nonneg _ _ 0 s) in Hs;
      [assumption | | assumption | lia].
    apply Forall_forall. intros m Hm. apply matched_iff in Hm.
    rewrite Forall_forall in Hprice. apply Hprice. tauto. }
  pose proof (JSNumberFacts.tax_nonneg s Hs0) as Htax.
  unfold attachFinancials. cbn [taxCents items totalCents o]. unfold o.
  cbn [items totalCents]. rewrite calculateSubtotal_sum. lia.
Qed.

End ReadBack.

(** * Order listings *)

Module Listings.

Import OrderService JSArrayFacts.

(** The rows of a listing, before they are annotated. *)
Definition rows_of (l : list OrderWithFinancials) : list Order := map order l.

Lemma rows_of_annotated (l : list Order) :
  rows_of (map (fun o => attachFinancials o None) l) = l.
Proof.
  unfold rows_of. rewrite map_map. cbn [attachFinancials order].
  induction l as [|o l IH]; [reflexivity|]. cbn [map]. now rewrite IH.
Qed.

Definition newest_first (a b : Order) : Prop := createdAt b <= createdAt a.

(** X6. [listOrdersForUser] reads only: it returns each order of the
    customer once, whatever its status, nobody else's, and the newest
    first. *)
Theorem listOrdersForUser_newest_first (db : Db) (customer : string) :
  exists l,
    listOrdersForUser customer db = (Ok l, db)
    /\ Permutation (rows_of l)
         (filter (fun o => String.eqb (customerId o) customer) (orders db))
    /\ (forall o, In o (rows_of l) <-> In o (orders db) /\ customerId o = customer)
    /\ StronglySorted newest_first (rows_of l).
Proof.
  eexists. split; [reflexivity|].
  rewrite rows_of_annotated. split; [apply sort_perm|]. split.
  - intros o. rewrite sort_In, filter_In, String.eqb_eq. reflexivity.
  - apply StronglySorted_weaken with (R := ordered by_createdAt_desc).
    + unfold ordered, by_createdAt_desc, newest_first. intros a b; lia.
    + apply sort_strongly_sorted; unfold by_createdAt_desc; intros; lia.
Qed.

Section Restaurant.

Variable statusRank : OrderStatus -> Z.

Definition by_stage_then_oldest (a b : Order) : Prop :=
  statusRank (status a) < statusRank (status b)
  \/ (statusRank (status a) = statusRank (status b) /\ createdAt a <= createdAt b).

(** X7. [listOrdersForRestaurant] reads only: it returns each order of the
    restaurant once, canceled ones included, in the order of the status
    column and, within a status, the oldest first. *)
Theorem listOrdersForRestaurant_by_status_then_age (db : Db) (restaurant : string) :
  exists l,
    listOrdersForRestaurant statusRank restaurant db = (Ok l, db)
    /\ Permutation (rows_of l)
         (filter (fun o => String.eqb (restaurantId o) restaurant) (orders db))
    /\ (forall o, In o (rows_of l) <-> In o (orders db) /\ restaurantId o = restaurant)
    /\ StronglySorted by_stage_then_oldest (rows_of l).
Proof.
  eexists. split; [reflexivity|].
  rewrite rows_of_annotated. split; [apply sort_perm|]. split.
  - intros o. rewrite sort_In, filter_In, String.eqb_eq. reflexivity.
  - apply StronglySorted_weaken with (R := ordered (by_status_then_createdAt statusRank)).
    + unfold ordered, by_status_then_createdAt, by_stage_then_oldest. intros a b.
      destruct (Z.eqb_spec (statusRank (status a)) (statusRank (status b))); lia.
    + apply sort_strongly_sorted; unfold by_status_then_createdAt.
      * intros x y.
        destruct (Z.eqb_spec (statusRank (status x)) (statusRank (status y)));
        destruct (Z.eqb_spec (statusRank (status y)) (statusRank (status x))); lia.
      * intros x y z.
        destruct (Z.eqb_spec (statusRank (status x)) (statusRank (status y)));
        destruct (Z.eqb_spec (statusRank (status y)) (statusRank (status z)));
        destruct (Z.eqb_spec (statusRank (status x)) (statusRank (status z))); lia.
Qed.

End Restaurant.

Lemma find_unique_id (l : list Order) (o : Order) :
  NoDup (map order_id l) -> In o l ->
  find (fun x => String.eqb (order_id x) (order_id o)) l = Some o.
Proof.
  induction l as [|x l IH]; intros Hnd Hin; [contradiction|].
  cbn [map] in Hnd. inversion Hnd as [|? ? Hfresh Hnd']; subst. cbn [find].
  destruct Hin as [-> | Hin].
  - now rewrite String.eqb_refl.
  - destruct (String.eqb_spec (order_id x) (order_id o)) as [E | _].
    + exfalso. apply Hfresh. rewrite E. now apply in_map.
    + now apply IH.
Qed.

(** X8. When order ids are unique, the customer's listing and the single
    reads agree: an annotated order is in [listOrdersForUser] exactly when
    [getOrderForCustomer] returns it for its id. *)
Theorem listing_agrees_with_single_reads
  (db : Db) (customer : string) (l : list OrderWithFinancials) (r : OrderWithFinancials) :
  NoDup (map order_id (orders db)) ->
  listOrdersForUser customer db = (Ok l, db) ->
  (In r l <-> getOrderForCustomer (order_id (order r)) customer db = (Ok r, db)).
Proof.
  intros Hnd [= <-]. rewrite in_map_iff. split.
  - intros (o & <- & Hin). apply sort_In, filter_In in Hin. destruct Hin as [Hin Hown].
    apply String.eqb_eq in Hown. cbn [attachFinancials order].
    apply ReadBack.getOrderForCustomer_found; [|exact Hown].
    now apply find_unique_id.
  - intros Hget.
    destruct (ReadBack.getOrderForCustomer_ok (order_id (order r)) customer db r)
      as (o & Hfind & Hown & ->); [now rewrite Hget|].
    exists o. split; [reflexivity|].
    apply sort_In, filter_In. split.
    + apply find_some in Hfind. tauto.
    + now apply String.eqb_eq.
Qed.

End Listings.

(** * The tax line *)

Module Tax.

Import JSNumber OrderService.

(** [Math.round(subtotalCents * TAX_RATE)] *)
Definition taxOf (subtotalCents : Z) : Z :=
  Math_round (mul subtotalCents TAX_RATE).

Lemma round_half_up_bounds (a b : Z) :
  0 < b -> - b < 2 * b * round_half_up a b - 2 * a <= b.
Proof.
  intros Hb. unfold round_half_up.
  pose proof (Z.div_mod (2 * a + b) (2 * b) ltac:(lia)) as Hdiv.
  pose proof (Z.mod_pos_bound (2 * a + b) (2 * b) ltac:(lia)) as Hmod.
  lia.
Qed.

Lemma taxOf_bounds (s : Z) :
  0 <= s < 2 ^ 46 ->
  - 5000 < 10000 * taxOf s - 825 * s <= 5000 /\ 0 <= taxOf s <= s.
Proof.
  intros Hs. unfold taxOf. rewrite JSNumberFacts.tax_exact by lia.
  pose proof (round_half_up_bounds (825 * s) 10000 ltac:(lia)) as Hb.
  split; [lia|]. unfold round_half_up. split.
  - apply Z.div_pos; lia.
  - apply Z.lt_succ_r, Z.div_lt_upper_bound; lia.
Qed.

Lemma taxOf_monotone (s s' : Z) :
  0 <= s <= s' -> s' < 2 ^ 46 -> taxOf s <= taxOf s'.
Proof.
  intros Hs Hs'. unfold taxOf. rewrite !JSNumberFacts.tax_exact by lia.
  unfold round_half_up. apply Z.div_le_mono; lia.
Qed.

(** X9. The tax [createOrder] charges is 8.25% of the subtotal to the
    nearest cent: for a subtotal below 2^46 cents the binary64 product
    never rounds to another cent than the exact one. So the returned tax is
    within half a cent of the exact amount and between 0 and the subtotal,
    the stored total is the subtotal plus this tax, and a larger subtotal
    never pays less tax. *)
Theorem tax_is_nearest_cent
  (db db' : Db) (fresh : RowDefaults) (customer : string) (input : CreateOrderInput)
  (res : OrderWithFinancials) :
  createOrder fresh customer input db = (Ok res, db') ->
  0 <= subtotalCents res < 2 ^ 46 ->
  taxCents res = taxOf (subtotalCents res)
  /\ - 5000 < 10000 * taxCents res - 825 * subtotalCents res <= 5000
  /\ 0 <= taxCents res <= subtotalCents res
  /\ totalCents (order res) = subtotalCents res + taxCents res
  /\ (forall larger, subtotalCents res <= larger < 2 ^ 46 -> taxCents res <= taxOf larger).
Proof.
  intros Hcall Hrange. rewrite OrderCreation.createOrder_unfold in Hcall.
  destruct (OrderCreation.activeRestaurant db (input_restaurantId input)); [|discriminate].
  cbv zeta in Hcall. destruct (negb (Nat.eqb _ _)); [discriminate|].
  destruct (reduce_subtotal _ _ 0) as [s|]; [|discriminate].
  destruct (create_items _ _); [|discriminate].
  inversion Hcall as [[Hres Hdb]]. subst res. clear Hcall.
  cbn [subtotalCents taxCents order totalCents] in *. fold (taxOf s).
  destruct (taxOf_bounds s Hrange) as [Hnear Hbetween].
  split; [reflexivity|]. split; [exact Hnear|]. split; [exact Hbetween|].
  split; [reflexivity|].
  intros larger Hlarger. apply taxOf_monotone; lia.
Qed.

End Tax.

(** * Sums over the buckets of a grouping *)

Module GroupSums.

Import OrderCreation JSMapFacts.

Lemma length_sumZ {A : Type} (l : list A) :
  Z.of_nat (length l) = sumZ (map (fun _ => 1) l).
Proof.
  induction l as [|x l IH]; [reflexivity|].
  cbn [length map]. rewrite sumZ_cons. lia.
Qed.

Section Groups.

Context {K X : Type}.
Variable eqb : K -> K -> bool.
Hypothesis eqb_spec : forall a b, reflect (a = b) (eqb a b).
Variable key : X -> K.
Variable amount : X -> Z.

(** What the rows of key [k] amount to. *)
Definition share (rows : list X) (k : K) : Z :=
  sumZ (map amount (group eqb key k rows)).

Lemma share_cons_absent (x : X) (rows : list X) (ks : list K) :
  ~ In (key x) ks ->
  sumZ (map (share (x :: rows)) ks) = sumZ (map (share rows) ks).
Proof.
  intros Hout. induction ks as [|k ks IH]; [reflexivity|].
  cbn [map]. rewrite !sumZ_cons, IH by (intros H; apply Hout; now right).
  f_equal. unfold share, group. cbn [filter].
  destruct (eqb_spec (key x) k) as [E | _]; [|reflexivity].
  exfalso. apply Hout. left. now symmetry.
Qed.

Lemma share_cons_present (x : X) (rows : list X) (ks : list K) :
  NoDup ks -> In (key x) ks ->
  sumZ (map (share (x :: rows)) ks) = amount x + sumZ (map (share rows) ks).
Proof.
  induction ks as [|k ks IH]; intros Hnd Hin; [contradiction|].
  inversion Hnd as [|? ? Hfresh Hnd']; subst. cbn [map]. rewrite !sumZ_cons.
  destruct (eqb_spec (key x) k) as [E | Hne].
  - rewrite share_cons_absent by (rewrite E; exact Hfresh).
    unfold share at 1, group. cbn [filter].
    destruct (eqb_spec (key x) k); [|contradiction].
    cbn [map]. rewrite sumZ_cons. fold (group eqb key k rows). fold (share rows k). lia.
  - destruct Hin as [E | Hin]; [congruence|].
    rewrite (IH Hnd' Hin).
    unfold share at 1, group. cbn [filter].
    destruct (eqb_spec (key x) k); [contradiction|].
    fold (group eqb key k rows). fold (share rows k). lia.
Qed.

(** Buckets with distinct keys that cover every row share out the whole
    amount. *)
Lemma shares_add_up (rows : list X) (ks : list K) :
  NoDup ks -> (forall x, In x rows -> In (key x) ks) ->
  sumZ (map (share rows) ks) = sumZ (map amount rows).
Proof.
  intros Hnd. induction rows as [|x rows IH]; intros Hcover.
  - clear Hnd Hcover. induction ks as [|k ks IH]; [reflexivity|].
    cbn [map]. rewrite sumZ_cons, IH. reflexivity.
  - rewrite share_cons_present; [|assumption | apply Hcover; now left].
    cbn [map]. rewrite sumZ_cons, IH; [reflexivity|].
    intros y Hy. apply Hcover. now right.
Qed.

End Groups.

(** The buckets [l], each reporting [value] for its [label], share out
    [amount] over [rows]. *)
Lemma reported_shares_add_up {K X B : Type} (eqb : K -> K -> bool)
    (eqb_spec : forall a b, reflect (a = b) (eqb a b))
    (key : X -> K) (amount : X -> Z) (label : B -> K) (value : B -> Z)
    (rows : list X) (l : list B) :
  NoDup (map label l) ->
  (forall x, In x rows -> In (key x) (map label l)) ->
  (forall b, In b l -> value b = share eqb key amount rows (label b)) ->
  sumZ (map value l) = sumZ (map amount rows).
Proof.
  intros Hnd Hcover Hvalue.
  rewrite <- (shares_add_up eqb eqb_spec key amount rows (map label l) Hnd Hcover).
  rewrite map_map. f_equal. apply map_ext_in. exact Hvalue.
Qed.

End GroupSums.

(** * Totals of the analytics *)

Module AnalyticsTotals.

Import OrderCreation JSMapFacts GroupSums RestaurantAnalyticsProps.

(** X10. The 24 hourly buckets of [getRestaurantAnalytics] (analytics
    service) share out its totals: their order counts add up to
    [totalOrders] and their revenues to [totalRevenueCents]. *)
Theorem peak_times_add_up_to_totals
  (tz : Z) (db : Db) (restaurant : string) (popularItemsLimit : option Z) :
  exists res,
    AnalyticsService.getRestaurantAnalytics tz restaurant popularItemsLimit db = (Ok res, db)
    /\ sumZ (map AnalyticsService.peak_orderCount (AnalyticsService.peakTimes res))
       = AnalyticsService.totalOrders res
    /\ sumZ (map AnalyticsService.peak_revenueCents (AnalyticsService.peakTimes res))
       = AnalyticsService.totalRevenueCents res.
Proof.
  set (kept := counted restaurant db).
  destruct (PeakHours.peakTimes_of_spec tz kept)
    as (peak & Hpeak & _ & Hperm & Hstats & _).
  assert (Hnd : NoDup (map AnalyticsService.hour peak)).
  { apply (Permutation_NoDup (Permutation_sym Hperm)), PeakHours.hours24_NoDup. }
  assert (Hcover : forall o, In o kept ->
            In (PeakHours.hourOf tz o) (map AnalyticsService.hour peak)).
  { intros o _. apply (Permutation_in _ (Permutation_sym Hperm)).
    apply PeakHours.In_hours24, PeakHours.getHours_range. }
  unfold AnalyticsService.getRestaurantAnalytics, AnalyticsService.getPopularItems,
    AnalyticsService.getPeakTimes, AnalyticsService.orderItem_findMany,
    AnalyticsService.order_aggregate, Prisma.order_findMany.
  unfold bind, query, ret, OrderService.lift.
  cbv beta iota zeta.
  fold (counted restaurant db). fold kept. rewrite Hpeak.
  eexists. split; [reflexivity|].
  cbn [AnalyticsService.totalOrders AnalyticsService.totalRevenueCents
       AnalyticsService.peakTimes fst snd].
  split.
  - rewrite length_sumZ.
    apply (reported_shares_add_up Z.eqb Z.eqb_spec (PeakHours.hourOf tz) (fun _ => 1)
             AnalyticsService.hour); [assumption | assumption|].
    intros p Hp. destruct (Hstats p Hp) as [-> _]. apply length_sumZ.
  - transitivity (sumZ (map totalCents kept)).
    + apply (reported_shares_add_up Z.eqb Z.eqb_spec (PeakHours.hourOf tz) totalCents
               AnalyticsService.hour); [assumption | assumption|].
      intros p Hp. now destruct (Hstats p Hp) as [_ ->].
    + destruct kept as [|o kept']; [reflexivity|].
      rewrite (fold_left_add_sumZ totalCents (o :: kept') 0). lia.
Qed.

Section Rollup.

Variable key : Order -> string.

Lemma buckets_add_up (found : list Order) :
  sumZ (map DashboardAnalytics.orderCount (Rollups.buckets key found))
  = Z.of_nat (length found)
  /\ sumZ (map DashboardAnalytics.stats_totalRevenueCents (Rollups.buckets key found))
     = sumZ (map totalCents found).
Proof.
  destruct (Rollups.buckets_spec key found) as (Hnd & Hkeys & Hstats & _).
  assert (Hcover : forall o, In o found ->
            In (key o) (map DashboardAnalytics.date (Rollups.buckets key found))).
  { intros o Ho. apply Hkeys. eauto. }
  split.
  - rewrite length_sumZ.
    apply (reported_shares_add_up String.eqb String.eqb_spec key (fun _ => 1)
             DashboardAnalytics.date); [assumption | assumption|].
    intros s Hs. destruct (Hstats s Hs) as (_ & -> & _). apply length_sumZ.
  - apply (reported_shares_add_up String.eqb String.eqb_spec key totalCents
             DashboardAnalytics.date); [assumption | assumption|].
    intros s Hs. now destruct (Hstats s Hs) as (_ & _ & -> & _).
Qed.

Lemma buckets_count (found : list Order) :
  length (Rollups.buckets key found) = length (nodup string_dec (map key found)).
Proof.
  destruct (Rollups.buckets_spec key found) as (Hnd & Hkeys & _).
  rewrite <- (length_map DashboardAnalytics.date).
  apply Permutation_length, NoDup_Permutation; [assumption | apply NoDup_nodup|].
  intros d. rewrite nodup_In, Hkeys, in_map_iff. split.
  - intros (o & Ho & Hk). exists o. auto.
  - intros (o & Hk & Ho). exists o. auto.
Qed.

Lemma kept_buckets_bounded (found : list Order) (limit : nat) :
  (0 < limit)%nat ->
  let result := JSArray.sliceFrom (- Z.of_nat limit) (Rollups.buckets key found) in
  sumZ (map DashboardAnalytics.orderCount result) <= Z.of_nat (length found)
  /\ ((length (nodup string_dec (map key found)) <= limit)%nat ->
      sumZ (map DashboardAnalytics.orderCount result) = Z.of_nat (length found)
      /\ sumZ (map DashboardAnalytics.stats_totalRevenueCents result)
         = sumZ (map totalCents found)).
Proof.
  intros Hlimit result.
  destruct (buckets_add_up found) as [Hcount Hrevenue].
  destruct (JSArrayFacts.sliceFrom_suffix limit (Rollups.buckets key found) Hlimit)
    as [Hsplit _].
  fold result in Hsplit. split.
  - rewrite <- Hcount. rewrite Hsplit at 1. rewrite map_app, sumZ_app.
    assert (Hpos : forall l, (forall s, In s l -> In s (Rollups.buckets key found)) ->
              0 <= sumZ (map DashboardAnalytics.orderCount l)).
    { induction l as [|s l IH]; intros Hin; [cbn; lia|].
      cbn [map]. rewrite sumZ_cons.
      destruct (Rollups.buckets_spec key found) as (_ & _ & Hstats & _).
      destruct (Hstats s (Hin s (or_introl eq_refl))) as (Hs & _).
      assert (0 <= sumZ (map DashboardAnalytics.orderCount l))
        by (apply IH; intros s' Hs'; apply Hin; now right).
      lia. }
    assert (0 <= sumZ (map DashboardAnalytics.orderCount
                         (firstn (length (Rollups.buckets key found) - limit)
                                 (Rollups.buckets key found)))).
    { apply Hpos. intros s. apply JSArrayFacts.In_prefix. }
    lia.
  - intros Hfew. rewrite <- buckets_count in Hfew.
    assert (Hall : result = Rollups.buckets key found).
    { rewrite Hsplit at 1.
      replace (length (Rollups.buckets key found) - limit)%nat with 0%nat by lia.
      reflexivity. }
    rewrite Hall. split; assumption.
Qed.

End Rollup.

(** X11. The day and week rollups of the dashboard never report more
    orders than [totalOrders]; when the counted orders fall on at most 30
    days (12 weeks), nothing is cut off and the buckets' order counts and
    revenues add up to [totalOrders] and [totalRevenueCents]. *)
Theorem rollups_add_up_to_totals (tz : Z) (db : Db) (restaurant : string) :
  let kept := counted restaurant db in
  exists res,
    DashboardAnalytics.getRestaurantAnalytics tz restaurant db = (Ok res, db)
    /\ sumZ (map DashboardAnalytics.orderCount (DashboardAnalytics.ordersByDay res))
       <= DashboardAnalytics.totalOrders res
    /\ sumZ (map DashboardAnalytics.orderCount (DashboardAnalytics.ordersByWeek res))
       <= DashboardAnalytics.totalOrders res
    /\ ((length (nodup string_dec (map DashboardAnalytics.dayKey kept)) <= 30)%nat ->
        sumZ (map DashboardAnalytics.orderCount (DashboardAnalytics.ordersByDay res))
        = DashboardAnalytics.totalOrders res
        /\ sumZ (map DashboardAnalytics.stats_totalRevenueCents
                     (DashboardAnalytics.ordersByDay res))
           = DashboardAnalytics.totalRevenueCents res)
    /\ ((length (nodup string_dec (map (DashboardAnalytics.weekKey tz) kept)) <= 12)%nat ->
        sumZ (map DashboardAnalytics.orderCount (DashboardAnalytics.ordersByWeek res))
        = DashboardAnalytics.totalOrders res
        /\ sumZ (map DashboardAnalytics.stats_totalRevenueCents
                     (DashboardAnalytics.ordersByWeek res))
           = DashboardAnalytics.totalRevenueCents res).
Proof.
  intros kept.
  pose proof (kept_buckets_bounded DashboardAnalytics.dayKey kept 30 ltac:(lia)) as Hday.
  pose proof (kept_buckets_bounded (DashboardAnalytics.weekKey tz) kept 12 ltac:(lia))
    as Hweek.
  cbv zeta in Hday, Hweek.
  destruct Hday as [Hday_le Hday_eq]. destruct Hweek as [Hweek_le Hweek_eq].
  eexists. split; [reflexivity|].
  cbn [DashboardAnalytics.ordersByDay DashboardAnalytics.ordersByWeek
       DashboardAnalytics.totalOrders DashboardAnalytics.totalRevenueCents].
  fold (counted restaurant db). fold kept.
  rewrite (fold_left_add_sumZ totalCents kept 0), Z.add_0_l.
  split; [exact Hday_le|]. split; [exact Hweek_le|].
  split; [exact Hday_eq | exact Hweek_eq].
Qed.

End AnalyticsTotals.

(** * Whatever order the rows come in

    A query without [orderBy] returns its rows in an order the source does
    not fix, and the analytics never read the status of the orders they
    count. The figures below are the same for two lists of orders that hold
    the same rows, in any order and under any status. *)

Module RowOrder.

Import OrderService OrderCreation JSMapFacts.

Lemma sumZ_perm (l l' : list Z) : Permutation l l' -> sumZ l = sumZ l'.
Proof.
  induction 1 as [|x l l' _ IH|x y l|l l' l'' _ IH1 _ IH2]; rewrite ?sumZ_cons; lia.
Qed.

Lemma filter_perm {A : Type} (p : A -> bool) (l l' : list A) :
  Permutation l l' -> Permutation (filter p l) (filter p l').
Proof.
  induction 1 as [|x l l' _ IH|x y l|l l' l'' _ IH1 _ IH2]; cbn [filter].
  - constructor.
  - destruct (p x); [now constructor | assumption].
  - destruct (p x), (p y); try apply Permutation_refl. apply perm_swap.
  - exact (Permutation_trans IH1 IH2).
Qed.

Lemma nodup_length_perm (l l' : list string) :
  Permutation l l' ->
  length (nodup string_dec l) = length (nodup string_dec l').
Proof.
  intros H. apply Permutation_length, NoDup_Permutation; try apply NoDup_nodup.
  intros x. rewrite !nodup_In.
  split; apply Permutation_in; [assumption | now apply Permutation_sym].
Qed.

Lemma NoDup_map_injective {A B : Type} (f : A -> B) (l : list A) (a b : A) :
  NoDup (map f l) -> In a l -> In b l -> f a = f b -> a = b.
Proof.
  induction l as [|x l IH]; intros Hnd Ha Hb Hf; [contradiction|].
  cbn [map] in Hnd. inversion Hnd as [|? ? Hfresh Hnd']; subst.
  destruct Ha as [-> | Ha], Hb as [-> | Hb]; [reflexivity | | |now apply IH].
  - exfalso. apply Hfresh. rewrite Hf. now apply in_map.
  - exfalso. apply Hfresh. rewrite <- Hf. now apply in_map.
Qed.

(** Two sorted lists without repetition that hold the same elements are
    the same list, when no two elements are each before the other. *)
Lemma sorted_unique {A : Type} (R : A -> A -> Prop) (l1 l2 : list A) :
  (forall a b, In a l1 -> In b l1 -> R a b -> R b a -> a = b) ->
  NoDup l1 -> NoDup l2 -> (forall x, In x l1 <-> In x l2) ->
  StronglySorted R l1 -> StronglySorted R l2 -> l1 = l2.
Proof.
  revert l2. induction l1 as [|a l1 IH]; intros [|b l2] Hanti Hnd1 Hnd2 Hsame Hs1 Hs2.
  - reflexivity.
  - exfalso. apply (Hsame b). now left.
  - exfalso. apply (Hsame a). now left.
  - inversion Hnd1 as [|? ? Ha Hnd1']; inversion Hnd2 as [|? ? Hb Hnd2']; subst.
    inversion Hs1 as [|? ? Hs1' Hall1]; inversion Hs2 as [|? ? Hs2' Hall2]; subst.
    rewrite Forall_forall in Hall1, Hall2.
    assert (Hab : a = b).
    { destruct (proj1 (Hsame a) (or_introl eq_refl)) as [E | Hin2]; [now symmetry|].
      destruct (proj2 (Hsame b) (or_introl eq_refl)) as [E | Hin1]; [assumption|].
      apply Hanti; [now left | now right | now apply Hall1 | now apply Hall2]. }
    subst b. f_equal. apply IH; try assumption.
    + intros x y Hx Hy. apply Hanti; now right.
    + intros x. split; intros Hx.
      * destruct (proj1 (Hsame x) (or_intror Hx)) as [E | Hin]; [|assumption].
        subst x. contradiction.
      * destruct (proj2 (Hsame x) (or_intror Hx)) as [E | Hin]; [|assumption].
        subst x. contradiction.
Qed.

(** Two maps with the same keys in the same order and the same value under
    each key are the same map. *)
Lemma same_entries {K V : Type} (m1 m2 : list (K * V)) :
  map fst m1 = map fst m2 ->
  (forall k v1 v2, In (k, v1) m1 -> In (k, v2) m2 -> v1 = v2) ->
  m1 = m2.
Proof.
  revert m2. induction m1 as [|[k v1] m1 IH]; intros [|[k' v2] m2] Hkeys Hvalues;
    try discriminate; [reflexivity|].
  cbn [map fst] in Hkeys. injection Hkeys as <- Hkeys.
  rewrite (Hvalues k v1 v2) by now left.
  f_equal. apply IH; [assumption|].
  intros j w1 w2 H1 H2. apply (Hvalues j); now right.
Qed.

(** An order as the analytics read it: every column but the status. *)
Definition forget_status (o : Order) : Order := set_status PENDING o.

(** The same rows, in any order and under any status. *)
Definition alike (l1 l2 : list Order) : Prop :=
  Permutation (map forget_status l1) (map forget_status l2).

Lemma alike_permutation (l1 l2 : list Order) : Permutation l1 l2 -> alike l1 l2.
Proof. apply Permutation_map. Qed.

Lemma alike_trans (l1 l2 l3 : list Order) : alike l1 l2 -> alike l2 l3 -> alike l1 l3.
Proof. apply Permutation_trans. Qed.

Lemma alike_one_status (t : OrderStatus) (o : Order) (before after : list Order) :
  alike (before ++ set_status t o :: after) (before ++ o :: after).
Proof. unfold alike. rewrite !map_app. cbn [map]. apply Permutation_refl. Qed.

Lemma alike_length (l1 l2 : list Order) : alike l1 l2 -> length l1 = length l2.
Proof. intros H. apply Permutation_length in H. now rewrite !length_map in H. Qed.

(** A selection and a sum that do not read the status. *)
Section Blind.

Variable keep : Order -> bool.
Variable amount : Order -> Z.
Hypothesis keep_blind : forall o, keep (forget_status o) = keep o.
Hypothesis amount_blind : forall o, amount (forget_status o) = amount o.

Lemma filter_forget (l : list Order) :
  map forget_status (filter keep l) = filter keep (map forget_status l).
Proof.
  induction l as [|o l IH]; [reflexivity|]. cbn [filter map]. rewrite keep_blind.
  destruct (keep o); cbn [map]; now rewrite IH.
Qed.

Lemma alike_filter (l1 l2 : list Order) :
  alike l1 l2 -> alike (filter keep l1) (filter keep l2).
Proof. unfold alike. rewrite !filter_forget. apply filter_perm. Qed.

Lemma alike_sum (l1 l2 : list Order) :
  alike l1 l2 -> sumZ (map amount l1) = sumZ (map amount l2).
Proof.
  intros H.
  assert (Hmap : forall l, map amount l = map amount (map forget_status l)).
  { intros l. rewrite map_map. apply map_ext. intros o. now rewrite amount_blind. }
  rewrite (Hmap l1), (Hmap l2). apply sumZ_perm. now apply Permutation_map.
Qed.

End Blind.

Lemma alike_In (l1 l2 : list Order) (o : Order) :
  alike l1 l2 -> In o l1 -> exists o', In o' l2 /\ forget_status o' = forget_status o.
Proof.
  intros H Ho. apply (in_map forget_status) in Ho.
  apply (Permutation_in _ H) in Ho. apply in_map_iff in Ho.
  destruct Ho as (o' & E & Ho'). now exists o'.
Qed.

Lemma alike_sym (l1 l2 : list Order) : alike l1 l2 -> alike l2 l1.
Proof. apply Permutation_sym. Qed.

(** ** The totals *)

Lemma totalCents_blind (o : Order) : totalCents (forget_status o) = totalCents o.
Proof. reflexivity. Qed.

Lemma alike_revenue (l1 l2 : list Order) :
  alike l1 l2 ->
  fold_left (fun sum o => sum + totalCents o) l1 0
  = fold_left (fun sum o => sum + totalCents o) l2 0.
Proof.
  intros H. rewrite !(fold_left_add_sumZ totalCents). f_equal.
  now apply (alike_sum totalCents totalCents_blind).
Qed.

(** ** The rollups by date key *)

Section Buckets.

Variable key : Order -> string.
Hypothesis key_blind : forall o, key (forget_status o) = key o.

Lemma filed_blind (d : string) (o : Order) :
  String.eqb (key (forget_status o)) d = String.eqb (key o) d.
Proof. now rewrite key_blind. Qed.

Lemma alike_keys (l1 l2 : list Order) (d : string) :
  alike l1 l2 -> (exists o, In o l1 /\ key o = d) -> exists o, In o l2 /\ key o = d.
Proof.
  intros H (o & Ho & Hk). destruct (alike_In l1 l2 o H Ho) as (o' & Ho' & E).
  exists o'. split; [assumption|]. now rewrite <- (key_blind o'), E, key_blind.
Qed.

Lemma chronological_antisym (a b : DashboardAnalytics.TimeBasedStats) :
  Rollups.chronological a b -> Rollups.chronological b a ->
  DashboardAnalytics.date a = DashboardAnalytics.date b.
Proof.
  unfold Rollups.chronological. intros Hab Hba.
  apply String.compare_eq_iff. rewrite String.compare_antisym in Hba.
  destruct (String.compare (DashboardAnalytics.date a) (DashboardAnalytics.date b));
    [reflexivity | exfalso; now apply Hba | exfalso; now apply Hab].
Qed.

Lemma buckets_alike_incl (l1 l2 : list Order) (s : DashboardAnalytics.TimeBasedStats) :
  alike l1 l2 -> In s (Rollups.buckets key l1) -> In s (Rollups.buckets key l2).
Proof.
  intros H Hs.
  destruct (Rollups.buckets_spec key l1) as (_ & Hkeys1 & Hstats1 & _).
  destruct (Rollups.buckets_spec key l2) as (_ & Hkeys2 & Hstats2 & _).
  assert (Hdate : In (DashboardAnalytics.date s)
                     (map DashboardAnalytics.date (Rollups.buckets key l2))).
  { apply Hkeys2, (alike_keys l1 l2 _ H), Hkeys1. now apply in_map. }
  apply in_map_iff in Hdate. destruct Hdate as (s' & Hd & Hs').
  destruct (Hstats1 s Hs) as (_ & Hc & Hr & Havg).
  destruct (Hstats2 s' Hs') as (_ & Hc' & Hr' & Havg').
  assert (Hfiled : alike (Rollups.filed key (DashboardAnalytics.date s) l1)
                         (Rollups.filed key (DashboardAnalytics.date s) l2)).
  { apply alike_filter; [|assumption]. intros o. apply filed_blind. }
  rewrite Hd in Hc', Hr'.
  rewrite <- (alike_length _ _ Hfiled), <- Hc in Hc'.
  rewrite <- (alike_sum totalCents totalCents_blind _ _ Hfiled), <- Hr in Hr'.
  rewrite Hr', Hc', <- Havg in Havg'.
  replace s with s'; [assumption|].
  destruct s, s'. cbn in *. congruence.
Qed.

(** The rollup of the same rows is the same list of buckets. *)
Lemma buckets_alike (l1 l2 : list Order) :
  alike l1 l2 -> Rollups.buckets key l1 = Rollups.buckets key l2.
Proof.
  intros H.
  destruct (Rollups.buckets_spec key l1) as (Hnd1 & _ & _ & Hs1).
  destruct (Rollups.buckets_spec key l2) as (Hnd2 & _ & _ & Hs2).
  apply (sorted_unique Rollups.chronological); try assumption.
  - intros a b Ha Hb Hab Hba.
    apply (NoDup_map_injective DashboardAnalytics.date (Rollups.buckets key l1));
      try assumption.
    now apply chronological_antisym.
  - exact (NoDup_map_inv _ _ Hnd1).
  - exact (NoDup_map_inv _ _ Hnd2).
  - intros s. split; apply buckets_alike_incl; [assumption | now apply alike_sym].
Qed.

End Buckets.

Lemma dayKey_blind (o : Order) :
  DashboardAnalytics.dayKey (forget_status o) = DashboardAnalytics.dayKey o.
Proof.
  unfold DashboardAnalytics.dayKey, forget_status. cbn [set_status createdAt]. reflexivity.
Qed.

Lemma weekKey_blind (tz : Z) (o : Order) :
  DashboardAnalytics.weekKey tz (forget_status o) = DashboardAnalytics.weekKey tz o.
Proof.
  unfold DashboardAnalytics.weekKey, forget_status. cbn [set_status createdAt]. reflexivity.
Qed.

(** ** The 24 hours of [getPeakTimes] *)

Lemma peakTimes_alike (tz : Z) (l1 l2 : list Order) :
  alike l1 l2 ->
  AnalyticsService.peakTimes_of tz l1 = AnalyticsService.peakTimes_of tz l2.
Proof.
  intros H.
  assert (H0 : PeakHours.bucketed tz AnalyticsService.initial_hourMap []).
  { split; [reflexivity|]. intros h v Hget.
    rewrite (PeakHours.initial_hourMap_zero h v Hget). split; reflexivity. }
  destruct (PeakHours.fold_aggregate_hour tz l1 _ _ H0) as (m1 & Hfold1 & Hkeys1 & Hstats1).
  destruct (PeakHours.fold_aggregate_hour tz l2 _ _ H0) as (m2 & Hfold2 & Hkeys2 & Hstats2).
  cbn [app] in Hstats1, Hstats2.
  unfold AnalyticsService.peakTimes_of, JSMap.t in *. rewrite Hfold1, Hfold2.
  replace m2 with m1; [reflexivity|].
  apply same_entries; [unfold keys in *; congruence|].
  intros h v1 v2 Hin1 Hin2.
  apply (In_get_Some Z.eqb Z.eqb_spec) in Hin1;
    [|rewrite Hkeys1; apply PeakHours.hours24_NoDup].
  apply (In_get_Some Z.eqb Z.eqb_spec) in Hin2;
    [|rewrite Hkeys2; apply PeakHours.hours24_NoDup].
  destruct (Hstats1 h v1 Hin1) as [Hc1 Hr1]. destruct (Hstats2 h v2 Hin2) as [Hc2 Hr2].
  assert (Hhour : alike (PeakHours.inHour tz h l1) (PeakHours.inHour tz h l2)).
  { apply alike_filter; [|assumption]. intros o.
    unfold PeakHours.hourOf, forget_status. cbn [set_status createdAt]. reflexivity. }
  rewrite <- (alike_length _ _ Hhour), <- Hc1 in Hc2.
  rewrite <- (alike_sum totalCents totalCents_blind _ _ Hhour), <- Hr1 in Hr2.
  destruct v1, v2. cbn in *. congruence.
Qed.

End RowOrder.

(** * The two item rankings *)

Module ItemRankings.

Import OrderCreation JSMapFacts GroupSums RestaurantAnalyticsProps.

(** A sort and a slice commute with a change of view that the comparator
    does not see. *)
Section Views.

Context {A B : Type}.
Variable view : A -> B.
Variable compareA : A -> A -> Z.
Variable compareB : B -> B -> Z.
Hypothesis compare_view : forall a b, compareB (view a) (view b) = compareA a b.

Lemma insert_view (x : A) (l : list A) :
  JSArray.insert compareB (view x) (map view l) = map view (JSArray.insert compareA x l).
Proof.
  induction l as [|y l IH]; [reflexivity|]. cbn [map JSArray.insert].
  rewrite compare_view. destruct (0 <? compareA x y); cbn [map]; [now rewrite IH | reflexivity].
Qed.

Lemma sort_view (l : list A) :
  JSArray.sort compareB (map view l) = map view (JSArray.sort compareA l).
Proof.
  induction l as [|x l IH]; [reflexivity|].
  cbn [map]. unfold JSArray.sort in *. cbn [fold_right]. now rewrite IH, insert_view.
Qed.

Lemma slice_view (start stop : Z) (l : list A) :
  JSArray.slice start stop (map view l) = map view (JSArray.slice start stop l).
Proof. unfold JSArray.slice. now rewrite length_map, skipn_map, firstn_map. Qed.

End Views.

(** A map whose values are seen through [view]. *)
Section MapViews.

Context {K V W : Type}.
Variable eqb : K -> K -> bool.
Variable view : V -> W.

Definition seen_through (m : list (K * V)) : list (K * W) :=
  map (fun e => (fst e, view (snd e))) m.

Lemma get_seen_through (k : K) (m : list (K * V)) :
  JSMap.get eqb k (seen_through m) = option_map view (JSMap.get eqb k m).
Proof.
  induction m as [|[k' v] m IH]; [reflexivity|]. cbn [seen_through map JSMap.get fst snd].
  destruct (eqb k k'); [reflexivity | exact IH].
Qed.

Lemma set_seen_through (k : K) (v : V) (m : list (K * V)) :
  JSMap.set eqb k (view v) (seen_through m) = seen_through (JSMap.set eqb k v m).
Proof.
  induction m as [|[k' v'] m IH]; [reflexivity|].
  cbn [seen_through map JSMap.set fst snd].
  destruct (eqb k k'); cbn [map fst snd]; [reflexivity|].
  unfold seen_through in IH. now rewrite IH.
Qed.

End MapViews.

(** What the dashboard keeps of an accumulator of [getPopularItems]. *)
Definition totals_of (e : AnalyticsService.ItemStats) : DashboardAnalytics.ItemTotals :=
  DashboardAnalytics.mkItemTotals (AnalyticsService.stats_menuItemName e)
    (AnalyticsService.stats_totalQuantity e) (AnalyticsService.stats_revenueCents e).

(** What the dashboard shows of an entry of [getPopularItems]: all but the
    number of orders. *)
Definition as_dashboard_item (p : AnalyticsService.PopularItem)
  : DashboardAnalytics.PopularItem :=
  DashboardAnalytics.mkPopularItem (AnalyticsService.item_menuItemId p)
    (AnalyticsService.item_menuItemName p) (AnalyticsService.totalQuantity p)
    (AnalyticsService.revenueCents p).

(** The order items [orderItem.findMany] returns for the orders [found]. *)
Definition rows_of (found : list Order) : list AnalyticsService.OrderItemRow :=
  flat_map (fun o => map (fun i => AnalyticsService.mkOrderItemRow i (order_id o)) (items o))
           found.

Lemma aggregate_item_seen_through m r :
  DashboardAnalytics.aggregate_item (seen_through totals_of m)
                                    (AnalyticsService.row_item r)
  = seen_through totals_of (AnalyticsService.aggregate_item m r).
Proof.
  unfold DashboardAnalytics.aggregate_item, AnalyticsService.aggregate_item.
  cbv zeta. rewrite get_seen_through.
  destruct (JSMap.get String.eqb _ m) as [e|]; cbn [option_map];
    rewrite <- set_seen_through; reflexivity.
Qed.

Lemma fold_items_seen_through (its : list OrderItem) (id : string) m :
  fold_left DashboardAnalytics.aggregate_item its (seen_through totals_of m)
  = seen_through totals_of
      (fold_left AnalyticsService.aggregate_item
         (map (fun i => AnalyticsService.mkOrderItemRow i id) its) m).
Proof.
  revert m. induction its as [|i its IH]; intros m; [reflexivity|].
  cbn [map fold_left]. rewrite <- IH. f_equal.
  exact (aggregate_item_seen_through m (AnalyticsService.mkOrderItemRow i id)).
Qed.

Lemma itemMap_seen_through (found : list Order) m :
  fold_left (fun m o => fold_left DashboardAnalytics.aggregate_item (items o) m) found
            (seen_through totals_of m)
  = seen_through totals_of (fold_left AnalyticsService.aggregate_item (rows_of found) m).
Proof.
  revert m. induction found as [|o found IH]; intros m; [reflexivity|].
  cbn [fold_left]. unfold rows_of. cbn [flat_map]. rewrite fold_left_app.
  rewrite (fold_items_seen_through (items o) (order_id o)). apply IH.
Qed.

(** The dashboard's item list is the whole ranking of [getPopularItems]. *)
Lemma dashboard_items_are_ranking (found : list Order) :
  JSArray.sort DashboardAnalytics.by_totalQuantity_desc
    (map DashboardAnalytics.to_PopularItem
       (JSMap.entries
          (fold_left (fun m o => fold_left DashboardAnalytics.aggregate_item (items o) m)
                     found [])))
  = map as_dashboard_item (AnalyticsService.rankedItems (rows_of found)).
Proof.
  unfold AnalyticsService.rankedItems, JSMap.entries.
  pose proof (itemMap_seen_through found []) as Hmap.
  cbn [seen_through map] in Hmap. unfold JSMap.t in *. rewrite Hmap. clear Hmap.
  destruct (PopularItems.itemMap_grouped (rows_of found)) as (_ & _ & Hg).
  set (m := fold_left AnalyticsService.aggregate_item (rows_of found) []) in *.
  rewrite <- (sort_view as_dashboard_item AnalyticsService.by_totalQuantity_desc
                DashboardAnalytics.by_totalQuantity_desc) by reflexivity.
  f_equal. unfold seen_through. rewrite !map_map. apply map_ext_in.
  intros [k e] Hin. destruct (Hg k e Hin) as ((first & rest & Hl & Hid) & _).
  assert (Hfirst : In first (PopularItems.linesOf k (rows_of found)))
    by (rewrite Hl; now left).
  apply filter_In in Hfirst. destruct Hfirst as [_ Hk]. apply String.eqb_eq in Hk.
  unfold DashboardAnalytics.to_PopularItem, as_dashboard_item, AnalyticsService.to_PopularItem,
    totals_of.
  cbn. rewrite Hid, Hk. reflexivity.
Qed.

(** The item list of the dashboard, for the orders its query returned. *)
Definition dashboard_items (found : list Order) : list DashboardAnalytics.PopularItem :=
  JSArray.sort DashboardAnalytics.by_totalQuantity_desc
    (map DashboardAnalytics.to_PopularItem
       (JSMap.entries
          (fold_left (fun m o => fold_left DashboardAnalytics.aggregate_item (items o) m)
                     found []))).

(** The two entries are of the same menu item, with the same quantity and
    the same revenue. *)
Definition same_figures (p : AnalyticsService.PopularItem)
                        (q : DashboardAnalytics.PopularItem) : Prop :=
  DashboardAnalytics.item_menuItemId q = AnalyticsService.item_menuItemId p
  /\ DashboardAnalytics.totalQuantity q = AnalyticsService.totalQuantity p
  /\ DashboardAnalytics.item_totalRevenueCents q = AnalyticsService.revenueCents p.

(** The entries of the ranking do not depend on the order of the rows:
    only the place of entries with the same quantity, and the name, taken
    from the first row of the item, do. *)
Lemma ranking_any_order (rows1 rows2 : list AnalyticsService.OrderItemRow)
                        (p : AnalyticsService.PopularItem) :
  Permutation rows1 rows2 ->
  In p (AnalyticsService.rankedItems rows1) ->
  exists q, In q (AnalyticsService.rankedItems rows2)
            /\ AnalyticsService.item_menuItemId q = AnalyticsService.item_menuItemId p
            /\ AnalyticsService.totalQuantity q = AnalyticsService.totalQuantity p
            /\ AnalyticsService.orderCount q = AnalyticsService.orderCount p
            /\ AnalyticsService.revenueCents q = AnalyticsService.revenueCents p.
Proof.
  intros Hperm Hp.
  destruct (PopularItems.rankedItems_spec rows1) as (_ & Hids1 & Hstats1 & _).
  destruct (PopularItems.rankedItems_spec rows2) as (_ & Hids2 & Hstats2 & _).
  assert (Hid : In (AnalyticsService.item_menuItemId p)
                   (map AnalyticsService.item_menuItemId (AnalyticsService.rankedItems rows2))).
  { apply Hids2. destruct (proj1 (Hids1 _) (in_map _ _ _ Hp)) as (r & Hr & Hk).
    exists r. split; [exact (Permutation_in _ Hperm Hr) | exact Hk]. }
  apply in_map_iff in Hid. destruct Hid as (q & Hq & Hin). exists q.
  split; [assumption|]. split; [assumption|].
  destruct (Hstats1 p Hp) as (Hq1 & Hc1 & Hr1). destruct (Hstats2 q Hin) as (Hq2 & Hc2 & Hr2).
  rewrite Hq in Hq2, Hc2, Hr2.
  pose proof (RowOrder.filter_perm
                (fun r => String.eqb (PopularItems.lineKey r)
                                     (AnalyticsService.item_menuItemId p))
                rows1 rows2 Hperm) as Hlines.
  fold (PopularItems.linesOf (AnalyticsService.item_menuItemId p) rows1) in Hlines.
  fold (PopularItems.linesOf (AnalyticsService.item_menuItemId p) rows2) in Hlines.
  rewrite Hq1, Hc1, Hr1, Hq2, Hc2, Hr2.
  split; [|split].
  - symmetry. apply RowOrder.sumZ_perm. now apply Permutation_map.
  - f_equal. symmetry. apply RowOrder.nodup_length_perm. now apply Permutation_map.
  - symmetry. apply RowOrder.sumZ_perm. now apply Permutation_map.
Qed.

Lemma ranking_any_order_length (rows1 rows2 : list AnalyticsService.OrderItemRow) :
  Permutation rows1 rows2 ->
  length (AnalyticsService.rankedItems rows1) = length (AnalyticsService.rankedItems rows2).
Proof.
  intros Hperm.
  destruct (PopularItems.rankedItems_spec rows1) as (Hnd1 & Hids1 & _).
  destruct (PopularItems.rankedItems_spec rows2) as (Hnd2 & Hids2 & _).
  rewrite <- (length_map AnalyticsService.item_menuItemId (AnalyticsService.rankedItems rows1)).
  rewrite <- (length_map AnalyticsService.item_menuItemId (AnalyticsService.rankedItems rows2)).
  apply Permutation_length, NoDup_Permutation; try assumption.
  intros id. rewrite Hids1, Hids2.
  split; intros (r & Hr & Hk); exists r; (split; [|exact Hk]);
    [exact (Permutation_in _ Hperm Hr) | exact (Permutation_in _ (Permutation_sym Hperm) Hr)].
Qed.

Lemma In_slice {A : Type} (start stop : Z) (l : list A) (x : A) :
  In x (JSArray.slice start stop l) -> In x l.
Proof.
  unfold JSArray.slice. intros H. apply JSArrayFacts.In_prefix in H.
  rewrite <- (firstn_skipn (Z.to_nat (JSArray.relativeIndex (Z.of_nat (length l)) start)) l).
  apply in_app_iff. now right.
Qed.

(** X12. The two analytics agree on the items, in whatever order the rows
    reach them. [getPopularItems] ranks the item rows of the counted orders
    and cuts the ranking at [limit]; the dashboard ranks the items of the
    orders it found and does not cut. For any orders [found] and any
    arrangement [item_rows] of their item rows, the two rankings have the
    same number of entries, every entry of either has an entry of the other
    for the same menu item with the same quantity and the same revenue, and
    so has every entry [getPopularItems] keeps. The names, taken from the
    first row met, and the places of items with equal quantities are not
    compared. *)
Theorem popular_items_agree_with_dashboard (tz : Z) (db : Db) (restaurant : string) :
  (forall limit,
     AnalyticsService.getPopularItems restaurant limit db
     = (Ok (JSArray.slice 0 (match limit with Some n => n | None => 10 end)
              (AnalyticsService.rankedItems (rows_of (counted restaurant db)))), db))
  /\ (exists res,
        DashboardAnalytics.getRestaurantAnalytics tz restaurant db = (Ok res, db)
        /\ DashboardAnalytics.popularItems res = dashboard_items (counted restaurant db))
  /\ (forall found item_rows,
        Permutation item_rows (rows_of found) ->
        let ranking := AnalyticsService.rankedItems item_rows in
        let shown := dashboard_items found in
        length shown = length ranking
        /\ (forall p, In p ranking -> exists q, In q shown /\ same_figures p q)
        /\ (forall q, In q shown -> exists p, In p ranking /\ same_figures p q)
        /\ (forall limit p, In p (JSArray.slice 0 limit ranking) ->
                            exists q, In q shown /\ same_figures p q)).
Proof.
  split; [reflexivity|]. split; [eexists; split; reflexivity|].
  intros found item_rows Hperm ranking shown. subst ranking shown.
  unfold dashboard_items. rewrite dashboard_items_are_ranking.
  assert (Hto : forall p, In p (AnalyticsService.rankedItems item_rows) ->
            exists q, In q (map as_dashboard_item (AnalyticsService.rankedItems (rows_of found)))
                      /\ same_figures p q).
  { intros p Hp.
    destruct (ranking_any_order _ _ p Hperm Hp) as (p' & Hp' & Hid & Hqty & _ & Hrev).
    exists (as_dashboard_item p'). split; [now apply in_map|].
    unfold same_figures. cbn. auto. }
  split; [|split; [exact Hto|split]].
  - rewrite length_map. symmetry. now apply ranking_any_order_length.
  - intros q Hq. apply in_map_iff in Hq. destruct Hq as (p' & <- & Hp').
    destruct (ranking_any_order _ _ p' (Permutation_sym Hperm) Hp')
      as (p & Hp & Hid & Hqty & _ & Hrev).
    exists p. split; [assumption|]. unfold same_figures. cbn. auto.
  - intros limit p Hp. apply Hto. exact (In_slice _ _ _ _ Hp).
Qed.

Lemma lines_revenue (found : list Order) :
  sumZ (map PopularItems.lineRevenue (rows_of found))
  = sumZ (map (fun o => OrderService.calculateSubtotal (items o)) found).
Proof.
  induction found as [|o found IH]; [reflexivity|].
  unfold rows_of in *. cbn [flat_map map]. rewrite map_app, sumZ_app, sumZ_cons, IH.
  f_equal. rewrite calculateSubtotal_sum, map_map. reflexivity.
Qed.

Lemma lines_quantity (found : list Order) :
  sumZ (map PopularItems.lineQuantity (rows_of found))
  = sumZ (map (fun o => sumZ (map quantity (items o))) found).
Proof.
  induction found as [|o found IH]; [reflexivity|].
  unfold rows_of in *. cbn [flat_map map]. rewrite map_app, sumZ_app, sumZ_cons, IH.
  f_equal. rewrite map_map. reflexivity.
Qed.

(** X13. The dashboard's [popularItems] lists every menu item of the
    counted orders once, most ordered first; the items' revenues add up to
    the subtotals of the counted orders (the tax is in [totalRevenueCents]
    only), and their quantities to the number of units ordered. *)
Theorem dashboard_items_add_up_to_subtotals (tz : Z) (db : Db) (restaurant : string) :
  let kept := counted restaurant db in
  exists res,
    DashboardAnalytics.getRestaurantAnalytics tz restaurant db = (Ok res, db)
    /\ NoDup (map DashboardAnalytics.item_menuItemId (DashboardAnalytics.popularItems res))
    /\ (forall id, In id (map DashboardAnalytics.item_menuItemId
                              (DashboardAnalytics.popularItems res))
                   <-> exists o i, In o kept /\ In i (items o) /\ menuItemId i = id)
    /\ StronglySorted (fun a b => DashboardAnalytics.totalQuantity b
                                  <= DashboardAnalytics.totalQuantity a)
                      (DashboardAnalytics.popularItems res)
    /\ sumZ (map DashboardAnalytics.item_totalRevenueCents (DashboardAnalytics.popularItems res))
       = sumZ (map (fun o => OrderService.subtotalCents (OrderService.attachFinancials o None))
                   kept)
    /\ sumZ (map DashboardAnalytics.totalQuantity (DashboardAnalytics.popularItems res))
       = sumZ (map (fun o => sumZ (map quantity (items o))) kept).
Proof.
  intros kept. eexists. split; [reflexivity|].
  cbn [DashboardAnalytics.popularItems]. fold (counted restaurant db). fold kept.
  rewrite dashboard_items_are_ranking.
  destruct (PopularItems.rankedItems_spec (rows_of kept)) as (Hnd & Hids & Hstats & Hsorted).
  set (ranking := AnalyticsService.rankedItems (rows_of kept)) in *.
  assert (Hcover : forall r, In r (rows_of kept) ->
            In (PopularItems.lineKey r) (map AnalyticsService.item_menuItemId ranking)).
  { intros r Hr. apply Hids. eauto. }
  rewrite !map_map. cbn [as_dashboard_item DashboardAnalytics.item_menuItemId
    DashboardAnalytics.item_totalRevenueCents DashboardAnalytics.totalQuantity].
  split; [exact Hnd|]. split; [|split; [|split]].
  - intros id. rewrite Hids. unfold rows_of. split.
    + intros (r & Hr & Hk). apply in_flat_map in Hr. destruct Hr as (o & Ho & Hr).
      apply in_map_iff in Hr. destruct Hr as (i & <- & Hi). exists o, i. auto.
    + intros (o & i & Ho & Hi & Hk).
      exists (AnalyticsService.mkOrderItemRow i (order_id o)). split; [|exact Hk].
      apply in_flat_map. exists o. split; [assumption|].
      exact (in_map (fun i => AnalyticsService.mkOrderItemRow i (order_id o)) _ _ Hi).
  - clear -Hsorted. induction Hsorted as [|p l Hs IH Hall]; cbn [map]; constructor;
      [assumption|].
    rewrite Forall_forall in *. intros q Hq. apply in_map_iff in Hq.
    destruct Hq as (q' & <- & Hq'). exact (Hall q' Hq').
  - change (fun o => OrderService.subtotalCents (OrderService.attachFinancials o None))
      with (fun o => OrderService.calculateSubtotal (items o)).
    rewrite <- lines_revenue.
    apply (reported_shares_add_up String.eqb String.eqb_spec PopularItems.lineKey
             PopularItems.lineRevenue AnalyticsService.item_menuItemId);
      [assumption | assumption|].
    intros p Hp. now destruct (Hstats p Hp) as (_ & _ & ->).
  - rewrite <- lines_quantity.
    apply (reported_shares_add_up String.eqb String.eqb_spec PopularItems.lineKey
             PopularItems.lineQuantity AnalyticsService.item_menuItemId);
      [assumption | assumption|].
    intros p Hp. now destruct (Hstats p Hp) as (-> & _).
Qed.

(** X14. [limit] of [getPopularItems] is the end index of a [slice]: 0
    gives no entry, a limit beyond the ranking gives all of it, and a
    negative limit [-n] gives the ranking without its last [n] entries. *)
Theorem getPopularItems_limit_is_slice_end (db : Db) (restaurant : string) (n : Z) :
  let ranking := AnalyticsService.rankedItems (rows_of (counted restaurant db)) in
  let len := Z.of_nat (length ranking) in
  exists result,
    AnalyticsService.getPopularItems restaurant (Some n) db = (Ok result, db)
    /\ (n = 0 -> result = [])
    /\ (len <= n -> result = ranking)
    /\ (n < 0 -> result = firstn (length ranking - Z.to_nat (- n)) ranking)
    /\ Z.of_nat (length result)
       = (if n <? 0 then Z.max (len + n) 0 else Z.min n len).
Proof.
  intros ranking len. exists (JSArray.slice 0 n ranking). split; [reflexivity|].
  unfold JSArray.slice, JSArray.relativeIndex. fold len.
  change (0 <? 0) with false. cbv iota.
  rewrite (Z.min_l 0) by lia. cbn [Z.to_nat skipn]. rewrite Z.sub_0_r.
  split; [|split; [|split]].
  - intros ->. change (0 <? 0) with false. cbv iota.
    rewrite Z.min_l by lia. reflexivity.
  - intros Hn. destruct (Z.ltb_spec n 0); [lia|].
    rewrite Z.min_r by lia. unfold len. rewrite Nat2Z.id. apply firstn_all.
  - intros Hn. destruct (Z.ltb_spec n 0); [|lia]. f_equal. lia.
  - rewrite length_firstn. fold len. destruct (Z.ltb_spec n 0); lia.
Qed.

End ItemRankings.

(** * Ties in the rankings *)

Module Ties.

Import OrderCreation JSMapFacts.

(** [a] stands somewhere before [b] in [l]. *)
Definition before {A : Type} (l : list A) (a b : A) : Prop :=
  exists l1 l2 l3, l = l1 ++ a :: l2 ++ b :: l3.

Lemma before_cons {A : Type} (x : A) (l : list A) (a b : A) :
  before (x :: l) a b <-> (a = x /\ In b l) \/ before l a b.
Proof.
  split.
  - intros (l1 & l2 & l3 & E). destruct l1 as [|y l1]; cbn [app] in E.
    + inversion E; subst. left. split; [reflexivity|].
      apply in_app_iff. right. now left.
    + inversion E; subst. right. now exists l1, l2, l3.
  - intros [[-> Hin] | (l1 & l2 & l3 & ->)].
    + apply in_split in Hin. destruct Hin as (l2 & l3 & ->). now exists [], l2, l3.
    + now exists (x :: l1), l2, l3.
Qed.

Lemma before_In {A : Type} (l : list A) (a b : A) : before l a b -> In a l /\ In b l.
Proof.
  intros (l1 & l2 & l3 & ->). split.
  - apply in_app_iff. right. now left.
  - apply in_app_iff. right. right. apply in_app_iff. right. now left.
Qed.

Lemma before_snoc {A : Type} (l : list A) (x a b : A) :
  before (l ++ [x]) a b <-> before l a b \/ (In a l /\ b = x).
Proof.
  induction l as [|y l IH]; cbn [app].
  - split.
    + intros H. apply before_cons in H. destruct H as [[_ []] | H].
      apply before_In in H. destruct H as [[] _].
    + intros [H | [[] _]]. apply before_In in H. destruct H as [[] _].
  - rewrite !before_cons, IH, in_app_iff. cbn [In]. split.
    + intros [[-> [H | [<- | []]]] | [H | [H ->]]]; auto.
    + intros [[[-> H] | H] | [[<- | H] ->]]; auto.
Qed.

Lemma before_nth {A : Type} (l : list A) (i j : nat) (a b : A) :
  (i < j)%nat -> nth_error l i = Some a -> nth_error l j = Some b -> before l a b.
Proof.
  revert i j. induction l as [|x l IH]; intros i j Hlt Ha Hb.
  - destruct i; discriminate.
  - destruct j as [|j]; [lia|]. cbn [nth_error] in Hb. apply before_cons.
    destruct i as [|i]; cbn [nth_error] in Ha.
    + left. inversion Ha; subst. split; [reflexivity|]. eapply nth_error_In; eassumption.
    + right. apply (IH i j); [lia | assumption | assumption].
Qed.

Lemma before_map {A B : Type} (f : A -> B) (l : list A) (a b : B) :
  before (map f l) a b -> exists a' b', a = f a' /\ b = f b' /\ before l a' b'.
Proof.
  induction l as [|x l IH]; cbn [map]; intros H.
  - apply before_In in H. destruct H as [[] _].
  - apply before_cons in H. destruct H as [[-> Hin] | H].
    + apply in_map_iff in Hin. destruct Hin as (b' & <- & Hb').
      exists x, b'. split; [reflexivity|]. split; [reflexivity|].
      apply before_cons. left. auto.
    + destruct (IH H) as (a' & b' & -> & -> & Hbefore).
      exists a', b'. split; [reflexivity|]. split; [reflexivity|].
      apply before_cons. now right.
Qed.

Lemma before_map_intro {A B : Type} (f : A -> B) (l : list A) (a b : A) :
  before l a b -> before (map f l) (f a) (f b).
Proof.
  intros (l1 & l2 & l3 & ->). exists (map f l1), (map f l2), (map f l3).
  now rewrite map_app, (map_cons f a), map_app.
Qed.

(** [Array.prototype.sort] is stable: an element moves behind an earlier
    one only when the comparator asks for it. *)
Section Stable.

Context {A : Type}.
Variable compareFn : A -> A -> Z.

Lemma insert_before (x : A) (l : list A) (a b : A) :
  before (JSArray.insert compareFn x l) a b ->
  before l a b \/ (a = x /\ In b l) \/ (b = x /\ In a l /\ 0 < compareFn x a).
Proof.
  induction l as [|y l IH]; cbn [JSArray.insert]; intros H.
  - apply before_cons in H. destruct H as [[_ []] | H].
    apply before_In in H. destruct H as [[] _].
  - destruct (Z.ltb_spec 0 (compareFn x y)) as [Hgt | Hle].
    + apply before_cons in H. destruct H as [[-> Hin] | H].
      * apply (Permutation_in _ (JSArrayFacts.insert_perm compareFn x l)) in Hin.
        destruct Hin as [<- | Hin].
        -- right. right. split; [reflexivity|]. split; [now left | exact Hgt].
        -- left. apply before_cons. left. auto.
      * destruct (IH H) as [H' | [[-> Hin] | (-> & Hin & Hc)]].
        -- left. apply before_cons. now right.
        -- right. left. split; [reflexivity | now right].
        -- right. right. split; [reflexivity|]. split; [now right | exact Hc].
    + apply before_cons in H. destruct H as [[-> Hin] | H].
      * right. left. auto.
      * now left.
Qed.

Lemma sort_stable (l : list A) (a b : A) :
  before (JSArray.sort compareFn l) a b -> before l a b \/ 0 < compareFn b a.
Proof.
  induction l as [|x l IH]; intros H.
  - apply before_In in H. destruct H as [[] _].
  - change (JSArray.sort compareFn (x :: l))
      with (JSArray.insert compareFn x (JSArray.sort compareFn l)) in H.
    apply insert_before in H. destruct H as [H | [[-> Hin] | (-> & Hin & Hc)]].
    + destruct (IH H) as [H' | H']; [|now right]. left. apply before_cons. now right.
    + left. apply before_cons. left. split; [reflexivity|].
      exact (proj1 (JSArrayFacts.sort_In compareFn l b) Hin).
    + now right.
Qed.

End Stable.

(** The keys of a grouping loop stand in the order they were first met. *)
Section FirstMet.

Context {K V X : Type}.
Variable eqb : K -> K -> bool.
Hypothesis eqb_spec : forall a b, reflect (a = b) (eqb a b).
Variable key : X -> K.
Variable init : X -> V.
Variable upd : X -> V -> V.

(** A row of key [k1] is met before any row of key [k2]. *)
Definition met_first (rows : list X) (k1 k2 : K) : Prop :=
  exists earlier x later,
    rows = earlier ++ x :: later /\ key x = k1 /\ ~ In k2 (map key earlier).

Definition in_order_met (m : list (K * V)) (seen : list X) : Prop :=
  (forall k, In k (keys m) <-> In k (map key seen))
  /\ forall k1 k2, before (keys m) k1 k2 -> met_first seen k1 k2.

Lemma met_first_later (seen : list X) (x : X) (k1 k2 : K) :
  met_first seen k1 k2 -> met_first (seen ++ [x]) k1 k2.
Proof.
  intros (earlier & y & later & -> & Hk & Hout).
  exists earlier, y, (later ++ [x]). split; [|auto].
  now rewrite <- app_assoc.
Qed.

Lemma upsert_in_order_met (m : list (K * V)) (seen : list X) (x : X) :
  in_order_met m seen -> in_order_met (upsert eqb key init upd m x) (seen ++ [x]).
Proof.
  intros [Hkeys Hord].
  assert (Hk : forall v, keys (JSMap.set eqb (key x) v m)
                         = match JSMap.get eqb (key x) m with
                           | Some _ => keys m
                           | None => keys m ++ [key x]
                           end) by (intros v; apply (keys_set eqb eqb_spec)).
  assert (Hgoal : forall v, in_order_met (JSMap.set eqb (key x) v m) (seen ++ [x])).
  { intros v. unfold in_order_met. rewrite Hk.
    destruct (JSMap.get eqb (key x) m) as [e|] eqn:E.
    - split.
      + intros k. rewrite map_app, in_app_iff, <- Hkeys. cbn [map In].
        split; [auto|]. intros [H | [<- | []]]; [assumption|].
        apply (get_Some_In eqb eqb_spec) in E.
        change (key x) with (fst (key x, e)). now apply in_map.
      + intros k1 k2 H. apply met_first_later. now apply Hord.
    - apply (get_None_iff eqb eqb_spec) in E. split.
      + intros k. rewrite map_app, !in_app_iff, <- Hkeys. reflexivity.
      + intros k1 k2 H. apply before_snoc in H. destruct H as [H | [Hin ->]].
        * apply met_first_later. now apply Hord.
        * apply Hkeys in Hin. apply in_map_iff in Hin. destruct Hin as (y & Hy & Hin).
          apply in_split in Hin. destruct Hin as (l1 & l2 & ->).
          assert (Hnew : ~ In (key x) (map key (l1 ++ y :: l2)))
            by (intros H; apply E; now apply Hkeys).
          exists l1, y, (l2 ++ [x]). split; [|split; [assumption|]].
          -- rewrite <- app_assoc. reflexivity.
          -- intros H. apply Hnew. rewrite map_app, in_app_iff. now left. }
  unfold upsert. destruct (JSMap.get eqb (key x) m); apply Hgoal.
Qed.

Lemma keys_in_order_met (rows : list X) (k1 k2 : K) :
  before (keys (fold_left (upsert eqb key init upd) rows [])) k1 k2 ->
  met_first rows k1 k2.
Proof.
  assert (H : forall rows m seen, in_order_met m seen ->
                in_order_met (fold_left (upsert eqb key init upd) rows m) (seen ++ rows)).
  { clear rows. induction rows as [|x rows IH]; intros m seen Hm; cbn [fold_left].
    - now rewrite app_nil_r.
    - replace (seen ++ x :: rows) with ((seen ++ [x]) ++ rows)
        by (rewrite <- app_assoc; reflexivity).
      apply IH. now apply upsert_in_order_met. }
  assert (H0 : in_order_met (@nil (K * V)) []).
  { split; [reflexivity|]. intros a b Hb. apply before_In in Hb. destruct Hb as [[] _]. }
  destruct (H rows [] [] H0) as [_ Hord]. apply Hord.
Qed.

End FirstMet.

(** The two branches of the loop body of [getPopularItems]. *)
Definition first_line (r : AnalyticsService.OrderItemRow) : AnalyticsService.ItemStats :=
  AnalyticsService.mkItemStats (PopularItems.lineKey r)
    (menuItemName (AnalyticsService.row_item r)) (PopularItems.lineQuantity r)
    (JSSet.add (AnalyticsService.row_orderId r) []) (PopularItems.lineRevenue r).

Definition next_line (r : AnalyticsService.OrderItemRow)
                     (existing : AnalyticsService.ItemStats) : AnalyticsService.ItemStats :=
  AnalyticsService.mkItemStats (AnalyticsService.stats_menuItemId existing)
    (AnalyticsService.stats_menuItemName existing)
    (AnalyticsService.stats_totalQuantity existing + PopularItems.lineQuantity r)
    (JSSet.add (AnalyticsService.row_orderId r) (AnalyticsService.stats_orderIds existing))
    (AnalyticsService.stats_revenueCents existing + PopularItems.lineRevenue r).

(** X15. [getPopularItems] breaks ties by first appearance: of two entries
    with the same quantity, the one listed first is the item whose first
    order line comes first among the order items read. *)
Theorem popular_items_ties_keep_first_ordered
  (rows : list AnalyticsService.OrderItemRow) (i j : nat)
  (a b : AnalyticsService.PopularItem) :
  (i < j)%nat ->
  nth_error (AnalyticsService.rankedItems rows) i = Some a ->
  nth_error (AnalyticsService.rankedItems rows) j = Some b ->
  AnalyticsService.totalQuantity a = AnalyticsService.totalQuantity b ->
  exists earlier line later,
    rows = earlier ++ line :: later
    /\ menuItemId (AnalyticsService.row_item line) = AnalyticsService.item_menuItemId a
    /\ ~ In (AnalyticsService.item_menuItemId b)
            (map (fun r => menuItemId (AnalyticsService.row_item r)) earlier).
Proof.
  intros Hlt Ha Hb Htie.
  pose proof (before_nth _ i j a b Hlt Ha Hb) as Hbefore.
  unfold AnalyticsService.rankedItems in Hbefore.
  apply sort_stable in Hbefore. destruct Hbefore as [Hbefore | Hcmp];
    [|unfold AnalyticsService.by_totalQuantity_desc in Hcmp; lia].
  apply before_map in Hbefore. destruct Hbefore as ([ka ea] & [kb eb] & -> & -> & Hbefore).
  unfold JSMap.entries in Hbefore.
  destruct (PopularItems.itemMap_grouped rows) as (_ & _ & Hg). cbv zeta in Hg.
  assert (Hid : forall k e, In (k, e) (fold_left AnalyticsService.aggregate_item rows []) ->
                            AnalyticsService.stats_menuItemId e = k).
  { intros k e Hin. destruct (Hg k e Hin) as ((first & rest & Hl & ->) & _).
    assert (Hfirst : In first (PopularItems.linesOf k rows)) by (rewrite Hl; now left).
    apply filter_In in Hfirst. destruct Hfirst as [_ Hk]. now apply String.eqb_eq in Hk. }
  destruct (before_In _ _ _ Hbefore) as [Hina Hinb].
  cbn [AnalyticsService.to_PopularItem AnalyticsService.item_menuItemId snd].
  rewrite (Hid ka ea Hina), (Hid kb eb Hinb).
  apply (before_map_intro fst) in Hbefore. cbn [fst] in Hbefore.
  fold (keys (fold_left AnalyticsService.aggregate_item rows [])) in Hbefore.
  exact (keys_in_order_met String.eqb String.eqb_spec PopularItems.lineKey
           first_line next_line rows ka kb Hbefore).
Qed.

Lemma before_seq (start len : nat) (h1 h2 : Z) :
  before (map Z.of_nat (seq start len)) h1 h2 -> h1 < h2.
Proof.
  revert start. induction len as [|len IH]; intros start H; cbn [seq map] in H.
  - apply before_In in H. destruct H as [[] _].
  - apply before_cons in H. destruct H as [[-> Hin] | H].
    + apply in_map_iff in Hin. destruct Hin as (n & <- & Hn). apply in_seq in Hn. lia.
    + exact (IH _ H).
Qed.

(** X16. [getPeakTimes] lists hours with the same number of orders in
    ascending order of the hour: the 24 buckets are created from 0 to 23
    and the sort is stable. *)
Theorem peak_times_ties_by_hour
  (tz : Z) (db : Db) (restaurant : string) (peak : list AnalyticsService.PeakTime)
  (i j : nat) (a b : AnalyticsService.PeakTime) :
  AnalyticsService.getPeakTimes tz restaurant db = (Ok peak, db) ->
  (i < j)%nat -> nth_error peak i = Some a -> nth_error peak j = Some b ->
  AnalyticsService.peak_orderCount a = AnalyticsService.peak_orderCount b ->
  AnalyticsService.hour a < AnalyticsService.hour b.
Proof.
  intros Hpeak Hlt Ha Hb Htie.
  unfold AnalyticsService.getPeakTimes, bind, Prisma.order_findMany, query,
    OrderService.lift, AnalyticsService.peakTimes_of in Hpeak.
  set (kept := filter (AnalyticsService.not_canceled_of restaurant) (orders db)) in *.
  assert (H0 : PeakHours.bucketed tz AnalyticsService.initial_hourMap []).
  { split; [reflexivity|]. intros h v Hget.
    rewrite (PeakHours.initial_hourMap_zero h v Hget). split; reflexivity. }
  destruct (PeakHours.fold_aggregate_hour tz kept _ _ H0) as (m & Hfold & Hkeys & _).
  unfold JSMap.t in *. rewrite Hfold in Hpeak. inversion Hpeak as [Hpeak']. clear Hpeak.
  unfold JSMap.entries in Hpeak'. subst peak.
  pose proof (before_nth _ i j a b Hlt Ha Hb) as Hbefore.
  apply sort_stable in Hbefore. destruct Hbefore as [Hbefore | Hcmp];
    [|unfold AnalyticsService.by_orderCount_desc in Hcmp; lia].
  apply before_map in Hbefore. destruct Hbefore as ([ha ea] & [hb eb] & -> & -> & Hbefore).
  apply (before_map_intro fst) in Hbefore. cbn [fst] in Hbefore.
  fold (keys m) in Hbefore. rewrite Hkeys in Hbefore.
  cbn [AnalyticsService.to_PeakTime AnalyticsService.hour fst].
  exact (before_seq 0 24 ha hb Hbefore).
Qed.

End Ties.

(** * The order routes ([routes/orders.ts]) *)

(** Request bodies and the part of zod the routes use. A schema parses a
    value or fails (zod throws a [ZodError]). *)
Module Zod.

(** A JSON value as [express.json()] hands it over; a property that is
    missing reads as [JUndefined]. *)
#[warnings="-register-all"]
Inductive JSValue : Type :=
  | JUndefined
  | JNull
  | JBool (b : bool)
  | JNum (d : JSNumber.double)
  | JString (s : string)
  | JArray (elements : list JSValue)
  | JObject (properties : list (string * JSValue)).

Definition Schema (A : Type) : Type := JSValue -> option A.

(** [value[key]] on an object. *)
Definition property (key : string) (properties : list (string * JSValue)) : JSValue :=
  match JSMap.get String.eqb key properties with
  | Some v => v
  | None => JUndefined
  end.

(** The integer a number is, when [Number.isInteger] holds of it. *)
Definition integer_value (d : JSNumber.double) : option Z :=
  if 0 <=? JSNumber.expo d then Some (JSNumber.mant d * 2 ^ JSNumber.expo d)
  else if JSNumber.mant d mod 2 ^ (- JSNumber.expo d) =? 0
       then Some (JSNumber.mant d / 2 ^ (- JSNumber.expo d))
       else None.

(** [z.string().min(n)] *)
Definition string_min (n : nat) : Schema string :=
  fun v => match v with
           | JString s => if (n <=? String.length s)%nat then Some s else None
           | _ => None
           end.

(** [z.string().uuid()], for the test [isUuid] of the library. *)
Definition string_uuid (isUuid : string -> bool) : Schema string :=
  fun v => match v with
           | JString s => if isUuid s then Some s else None
           | _ => None
           end.

(** [z.number().int().positive()] *)
Definition number_int_positive : Schema Z :=
  fun v => match v with
           | JNum d =>
               match integer_value d with
               | Some n => if 0 <? n then Some n else None
               | None => None
               end
           | _ => None
           end.

(** [schema.default(d)] *)
Definition default {A : Type} (schema : Schema A) (d : A) : Schema A :=
  fun v => match v with
           | JUndefined => Some d
           | _ => schema v
           end.

Fixpoint parse_all {A : Type} (schema : Schema A) (l : list JSValue) : option (list A) :=
  match l with
  | [] => Some []
  | v :: rest =>
      match schema v, parse_all schema rest with
      | Some a, Some others => Some (a :: others)
      | _, _ => None
      end
  end.

(** [z.array(schema).min(n)] *)
Definition array_min {A : Type} (schema : Schema A) (n : nat) : Schema (list A) :=
  fun v => match v with
           | JArray l => if (n <=? length l)%nat then parse_all schema l else None
           | _ => None
           end.

End Zod.

(** What an Express handler of the routers does with a request: it
    answers, or it hands the error it caught to [next]. The handlers run
    behind [requireAuth], [requireRole] and, for a restaurant,
    [ensureRestaurantOwnership]; they are modelled for a request that has
    passed them. *)
Module Express.

Import OrderService.

Inductive Failure : Type :=
  | ZodError
  | Thrown (e : Error).

Inductive Outcome : Type :=
  | Responded (statusCode : Z) (order : OrderWithFinancials)
  | Forwarded (error : Failure).

Definition Handler : Type := Db -> Outcome * Db.

Definition respond (statusCode : Z) (call : Service OrderWithFinancials) : Handler :=
  fun db => match call db with
            | (Ok order, db') => (Responded statusCode order, db')
            | (Err e, db') => (Forwarded (Thrown e), db')
            end.

(** A request as a handler reads it: [req.params] and [req.body]. *)
Record Request : Type := mkRequest {
  request_params : Zod.JSValue;
  request_body : Zod.JSValue
}.

End Express.

Module OrdersRouter.

Import OrderService Zod Express.

Section Routes.

Variable isUuid : string -> bool.

(** [z.object({ menuItemId: z.string().uuid(),
                quantity: z.number().int().positive().default(1) })] *)
Definition orderItemPayload : Schema OrderItemInput :=
  fun v => match v with
           | JObject properties =>
               match string_uuid isUuid (property "menuItemId" properties),
                     default number_int_positive 1 (property "quantity" properties) with
               | Some menuItemId, Some quantity => Some (mkOrderItemInput menuItemId quantity)
               | _, _ => None
               end
           | _ => None
           end.

Definition orderPayload : Schema CreateOrderInput :=
  fun v => match v with
           | JObject properties =>
               match string_uuid isUuid (property "restaurantId" properties),
                     array_min orderItemPayload 1 (property "items" properties),
                     number_int_positive (property "pickupEtaMin" properties),
                     string_min 1 (property "routeOrigin" properties),
                     string_min 1 (property "routeDestination" properties) with
               | Some restaurantId, Some items, Some pickupEtaMin, Some routeOrigin,
                 Some routeDestination =>
                   Some (mkCreateOrderInput restaurantId items pickupEtaMin routeOrigin
                                            routeDestination)
               | _, _, _, _, _ => None
               end
           | _ => None
           end.

(** [z.object({ orderId: z.string().uuid() })] *)
Definition orderIdParam : Schema string :=
  fun v => match v with
           | JObject properties => string_uuid isUuid (property "orderId" properties)
           | _ => None
           end.

Definition updateRoutePayload : Schema UpdateRouteInput :=
  fun v => match v with
           | JObject properties =>
               match string_min 1 (property "routeOrigin" properties),
                     string_min 1 (property "routeDestination" properties),
                     number_int_positive (property "pickupEtaMin" properties) with
               | Some routeOrigin, Some routeDestination, Some pickupEtaMin =>
                   Some (mkUpdateRouteInput (Some routeOrigin) (Some routeDestination)
                                            (Some pickupEtaMin))
               | _, _, _ => None
               end
           | _ => None
           end.

(** [ordersRouter.post("/")], for the authenticated customer [user]. *)
Definition post (fresh : RowDefaults) (user : string) (body : JSValue) : Handler :=
  match orderPayload body with
  | None => fun db => (Forwarded ZodError, db)
  | Some payload => respond 201 (createOrder fresh user payload)
  end.

(** [ordersRouter.get("/:orderId")] *)
Definition get (user : string) (params : JSValue) : Handler :=
  match orderIdParam params with
  | None => fun db => (Forwarded ZodError, db)
  | Some orderId => respond 200 (getOrderForCustomer orderId user)
  end.

(** [ordersRouter.patch("/:orderId/route")] *)
Definition patch_route (user : string) (params body : JSValue) : Handler :=
  match orderIdParam params with
  | None => fun db => (Forwarded ZodError, db)
  | Some orderId =>
      match updateRoutePayload body with
      | None => fun db => (Forwarded ZodError, db)
      | Some payload => respond 200 (updateOrderRoute orderId user payload)
      end
  end.

End Routes.

End OrdersRouter.

(** [routes/restaurants.ts]: the order route of the restaurant router. *)
Module RestaurantRouter.

Import OrderService Zod Express.

(** [z.nativeEnum(OrderStatus)]: one of the names of the enum. *)
Definition nativeEnum_OrderStatus : Schema OrderStatus :=
  fun v => match v with
           | JString s =>
               find (fun status => String.eqb s (OrderStatus_name status))
                    [PENDING; PREPARING; READY; COMPLETED; CANCELED]
           | _ => None
           end.

(** [z.object({ status: z.nativeEnum(OrderStatus) })] *)
Definition orderStatusPayload : Schema OrderStatus :=
  fun v => match v with
           | JObject properties => nativeEnum_OrderStatus (property "status" properties)
           | _ => None
           end.

Section Routes.

Variable isUuid : string -> bool.

(** [restaurantIdParam.extend({ orderId: z.string().uuid() })] *)
Definition orderParams : Schema (string * string) :=
  fun v => match v with
           | JObject properties =>
               match string_uuid isUuid (property "restaurantId" properties),
                     string_uuid isUuid (property "orderId" properties) with
               | Some restaurantId, Some orderId => Some (restaurantId, orderId)
               | _, _ => None
               end
           | _ => None
           end.

(** [restaurantRouter.patch("/:restaurantId/orders/:orderId")] *)
Definition patch_order (params body : JSValue) : Handler :=
  match orderParams params with
  | None => fun db => (Forwarded ZodError, db)
  | Some (restaurantId, orderId) =>
      match orderStatusPayload body with
      | None => fun db => (Forwarded ZodError, db)
      | Some status =>
          respond 200 (updateOrderStatusForRestaurant restaurantId orderId status)
      end
  end.

End Routes.

End RestaurantRouter.

Module RouterProps.

Import OrderService Zod Express OrdersRouter.

(** What a value is when a schema accepts it, and what a schema accepts. *)
Lemma number_int_positive_inv (v : JSValue) (n : Z) :
  number_int_positive v = Some n ->
  exists d, v = JNum d /\ integer_value d = Some n /\ 0 < n.
Proof.
  unfold number_int_positive. destruct v; try discriminate.
  destruct (integer_value d) as [k|] eqn:E; [|discriminate].
  destruct (Z.ltb_spec 0 k); [|discriminate]. intros [= <-]. now exists d.
Qed.

Lemma number_int_positive_sound (v : JSValue) (n : Z) :
  number_int_positive v = Some n -> 0 < n.
Proof. intros H. now destruct (number_int_positive_inv v n H) as (d & _ & _ & Hn). Qed.

Lemma number_int_positive_accepts (d : JSNumber.double) (n : Z) :
  integer_value d = Some n -> 0 < n -> number_int_positive (JNum d) = Some n.
Proof.
  intros Hd Hn. unfold number_int_positive. rewrite Hd.
  apply Z.ltb_lt in Hn. now rewrite Hn.
Qed.

Lemma string_min_1_inv (v : JSValue) (s : string) :
  string_min 1 v = Some s -> v = JString s /\ s <> ""%string.
Proof.
  unfold string_min. destruct v; try discriminate.
  destruct s0; cbn; [discriminate|]. intros [= <-]. split; [reflexivity | discriminate].
Qed.

Lemma string_min_1_sound (v : JSValue) (s : string) :
  string_min 1 v = Some s -> s <> ""%string.
Proof. intros H. now destruct (string_min_1_inv v s H). Qed.

Lemma string_min_1_accepts (s : string) :
  s <> ""%string -> string_min 1 (JString s) = Some s.
Proof. intros Hs. destruct s; [contradiction | reflexivity]. Qed.

Lemma string_uuid_inv (isUuid : string -> bool) (v : JSValue) (s : string) :
  string_uuid isUuid v = Some s -> v = JString s /\ isUuid s = true.
Proof.
  unfold string_uuid. destruct v; try discriminate.
  destruct (isUuid s0) eqn:E; [|discriminate]. intros [= <-]. now split.
Qed.

Lemma parse_all_Forall2 {A : Type} (schema : Schema A) (l : list JSValue) (parsed : list A) :
  parse_all schema l = Some parsed -> Forall2 (fun v a => schema v = Some a) l parsed.
Proof.
  revert parsed. induction l as [|v l IH]; intros parsed; cbn [parse_all].
  - intros [= <-]. constructor.
  - destruct (schema v) as [a|] eqn:Ha; [|discriminate].
    destruct (parse_all schema l) as [others|]; [|discriminate].
    intros [= <-]. constructor; [exact Ha | now apply IH].
Qed.

Lemma Forall2_compose {A B C : Type} (P : A -> B -> Prop) (Q : B -> C -> Prop)
                      (R : A -> C -> Prop) (la : list A) (lb : list B) (lc : list C) :
  (forall a b c, P a b -> Q b c -> R a c) ->
  Forall2 P la lb -> Forall2 Q lb lc -> Forall2 R la lc.
Proof.
  intros Hstep Hab. revert lc. induction Hab as [|a b la lb Hp _ IH]; intros lc Hbc;
    inversion Hbc; subst; constructor; eauto.
Qed.

(** The rows [createOrder] writes, line by line of the request. *)
Lemma create_items_lines found its rows :
  create_items found its = Ok rows ->
  Forall2 (fun it i => menuItemId i = input_menuItemId it /\ quantity i = input_quantity it)
          its rows.
Proof.
  revert rows. induction its as [|it its IH]; intros rows; cbn [create_items].
  - intros [= <-]. constructor.
  - destruct (find_menuItem found (input_menuItemId it)); [|discriminate].
    destruct (create_items found its) as [rows'|]; [|discriminate].
    intros [= <-]. constructor; [split; reflexivity | now apply IH].
Qed.

Section Routes.

Variable isUuid : string -> bool.

Lemma orderIdParam_inv (params : JSValue) (orderId : string) :
  orderIdParam isUuid params = Some orderId ->
  exists properties,
    params = JObject properties
    /\ property "orderId" properties = JString orderId
    /\ isUuid orderId = true.
Proof.
  unfold orderIdParam. destruct params; try discriminate. intros H.
  destruct (string_uuid_inv isUuid _ _ H) as [Hv Hid]. now exists properties.
Qed.

(** The route fields of a request body: two strings and an integer. *)
Definition route_fields (properties : list (string * JSValue))
                        (origin destination : string) (eta : Z) : Prop :=
  property "routeOrigin" properties = JString origin
  /\ property "routeDestination" properties = JString destination
  /\ exists d, property "pickupEtaMin" properties = JNum d /\ integer_value d = Some eta.

Lemma updateRoutePayload_inv (body : JSValue) (payload : UpdateRouteInput) :
  updateRoutePayload body = Some payload ->
  exists properties origin destination eta,
    body = JObject properties
    /\ route_fields properties origin destination eta
    /\ payload = mkUpdateRouteInput (Some origin) (Some destination) (Some eta)
    /\ origin <> ""%string /\ destination <> ""%string /\ 0 < eta.
Proof.
  unfold updateRoutePayload. destruct body; try discriminate.
  destruct (string_min 1 _) as [origin|] eqn:Ho; [|discriminate].
  destruct (string_min 1 (property "routeDestination" _)) as [destination|] eqn:Hd;
    [|discriminate].
  destruct (number_int_positive _) as [eta|] eqn:He; [|discriminate].
  intros [= <-]. exists properties, origin, destination, eta.
  destruct (string_min_1_inv _ _ Ho) as [Hov Hone].
  destruct (string_min_1_inv _ _ Hd) as [Hdv Hdne].
  destruct (number_int_positive_inv _ _ He) as (d & Hev & Hint & Hpos).
  split; [reflexivity|]. split; [|auto].
  split; [exact Hov|]. split; [exact Hdv|]. now exists d.
Qed.

Lemma updateRoutePayload_accepts (properties : list (string * JSValue))
                                 (origin destination : string) (eta : Z) :
  route_fields properties origin destination eta ->
  origin <> ""%string -> destination <> ""%string -> 0 < eta ->
  updateRoutePayload (JObject properties)
  = Some (mkUpdateRouteInput (Some origin) (Some destination) (Some eta)).
Proof.
  intros (Ho & Hd & d & He & Hint) Hone Hdne Hpos. unfold updateRoutePayload.
  rewrite Ho, Hd, He, (string_min_1_accepts origin Hone),
    (string_min_1_accepts destination Hdne), (number_int_positive_accepts d eta Hint Hpos).
  reflexivity.
Qed.

(** Order [o] with the three route fields of a request. *)
Definition rerouted (o : Order) (origin destination : string) (eta : Z) : Order :=
  mkOrder (order_id o) (customerId o) (restaurantId o) (status o) eta origin destination
          (totalCents o) (createdAt o) (items o).

(** What the update of such a request writes. *)
Definition route_data (origin destination : string) (eta : Z) : Order -> Order :=
  apply_updateData (mkUpdateRouteInput (Some origin) (Some destination) (Some eta)).

Lemma patch_route_accepted (user orderId : string) (o : Order)
                           (origin destination : string) (eta : Z) (db : Db) :
  0 < eta ->
  findOrder orderId db = Some o ->
  customerId o = user ->
  status o = PENDING \/ status o = PREPARING ->
  respond 200 (updateOrderRoute orderId user
                 (mkUpdateRouteInput (Some origin) (Some destination) (Some eta))) db
  = (Responded 200 (attachFinancials (rerouted o origin destination eta) None),
     with_order_updated orderId (route_data origin destination eta) db).
Proof.
  intros Hpos Hfind Hown Hstatus. unfold respond.
  rewrite RouteUpdate.updateOrderRoute_outcome. unfold RouteUpdate.route_outcome.
  rewrite Hfind. apply String.eqb_eq in Hown. rewrite Hown. cbn [negb].
  apply RouteUpdate.editable_iff in Hstatus. rewrite Hstatus. cbn [negb update_pickupEtaMin].
  destruct (Z.leb_spec eta 0); [lia|]. reflexivity.
Qed.

(** X17. Through [PATCH /:orderId/route] a route update is all or nothing
    and always complete. The handler answers 200 only when [orderId] of the
    parameters is a UUID that names the customer's own PENDING or PREPARING
    order and the body holds a non-empty [routeOrigin], a non-empty
    [routeDestination] and a positive integer [pickupEtaMin]; the answer is
    that order with exactly these three values of the body in place of the
    old ones, the store holds it, and [GET /:orderId] answers with it
    afterwards. Conversely every such request is answered 200 in this way.
    Otherwise the store is unchanged and the error is a [ZodError], 404, or
    the 400 that names the status: the service's errors for an empty update
    and for a non-positive ETA cannot occur. *)
Theorem patch_route_replaces_all_three_fields
  (user : string) (params body : JSValue) (db : Db) :
  match patch_route isUuid user params body db with
  | (Responded statusCode res, db') =>
      statusCode = 200
      /\ exists ids fields orderId o origin destination eta,
           params = JObject ids
           /\ property "orderId" ids = JString orderId
           /\ isUuid orderId = true
           /\ body = JObject fields
           /\ route_fields fields origin destination eta
           /\ origin <> ""%string /\ destination <> ""%string /\ 0 < eta
           /\ findOrder orderId db = Some o
           /\ customerId o = user
           /\ (status o = PENDING \/ status o = PREPARING)
           /\ res = attachFinancials (rerouted o origin destination eta) None
           /\ db' = with_order_updated orderId (route_data origin destination eta) db
           /\ findOrder orderId db' = Some (rerouted o origin destination eta)
           /\ get isUuid user params db' = (Responded 200 res, db')
  | (Forwarded ZodError, db') => db' = db
  | (Forwarded (Thrown e), db') =>
      db' = db
      /\ (e = HttpError 404 "Order not found"
          \/ exists s, s <> PENDING /\ s <> PREPARING
                       /\ e = HttpError 400 (route_status_message s))
  end
  /\ (forall ids fields orderId o origin destination eta,
        params = JObject ids ->
        property "orderId" ids = JString orderId ->
        isUuid orderId = true ->
        body = JObject fields ->
        route_fields fields origin destination eta ->
        origin <> ""%string -> destination <> ""%string -> 0 < eta ->
        findOrder orderId db = Some o ->
        customerId o = user ->
        status o = PENDING \/ status o = PREPARING ->
        patch_route isUuid user params body db
        = (Responded 200 (attachFinancials (rerouted o origin destination eta) None),
           with_order_updated orderId (route_data origin destination eta) db)).
Proof.
  split.
  - unfold patch_route, get.
    destruct (orderIdParam isUuid params) as [orderId|] eqn:Hparams; [|reflexivity].
    destruct (updateRoutePayload body) as [payload|] eqn:Hbody; [|reflexivity].
    destruct (orderIdParam_inv params orderId Hparams) as (ids & Hids & Hid & Huuid).
    destruct (updateRoutePayload_inv body payload Hbody)
      as (fields & origin & destination & eta & Hfields & Hroute & -> & Ho & Hd & He).
    destruct (findOrder orderId db) as [o|] eqn:Hfind.
    2:{ unfold respond. rewrite RouteUpdate.updateOrderRoute_outcome.
        unfold RouteUpdate.route_outcome. rewrite Hfind. split; [reflexivity | now left]. }
    destruct (String.eqb_spec (customerId o) user) as [Hown | Hother].
    2:{ unfold respond. rewrite RouteUpdate.updateOrderRoute_outcome.
        unfold RouteUpdate.route_outcome. rewrite Hfind.
        apply String.eqb_neq in Hother. rewrite Hother. cbn [negb].
        split; [reflexivity | now left]. }
    destruct (RouteUpdate.editable (status o)) eqn:Hedit.
    + apply RouteUpdate.editable_iff in Hedit.
      rewrite (patch_route_accepted user orderId o origin destination eta db He Hfind Hown Hedit).
      split; [reflexivity|].
      assert (Hstored : findOrder orderId
                          (with_order_updated orderId (route_data origin destination eta) db)
                        = Some (rerouted o origin destination eta)).
      { exact (findOrder_updated_same orderId (route_data origin destination eta) db o
                 (fun x => eq_refl) Hfind). }
      exists ids, fields, orderId, o, origin, destination, eta.
      repeat (split; [assumption || reflexivity|]).
      unfold respond.
      rewrite (ReadBack.getOrderForCustomer_found orderId user _
                 (rerouted o origin destination eta) Hstored Hown).
      reflexivity.
    + unfold respond. rewrite RouteUpdate.updateOrderRoute_outcome.
      unfold RouteUpdate.route_outcome. rewrite Hfind.
      apply String.eqb_eq in Hown. rewrite Hown, Hedit. cbn [negb].
      split; [reflexivity|]. right. exists (status o).
      split; [|split; [|reflexivity]]; intros E; rewrite E in Hedit; discriminate.
  - intros ids fields orderId o origin destination eta -> Hid Huuid -> Hroute Ho Hd He
           Hfind Hown Hstatus.
    unfold patch_route, orderIdParam, string_uuid. rewrite Hid, Huuid.
    rewrite (updateRoutePayload_accepts fields origin destination eta Hroute Ho Hd He).
    now apply patch_route_accepted.
Qed.

(** A line of the request: an object with the UUID [menuItemId] and either
    no [quantity], which counts as 1, or a positive integer one. *)
Definition requested (element : JSValue) (menuItemId : string) (quantity : Z) : Prop :=
  exists properties,
    element = JObject properties
    /\ property "menuItemId" properties = JString menuItemId
    /\ isUuid menuItemId = true
    /\ ((property "quantity" properties = JUndefined /\ quantity = 1)
        \/ exists d, property "quantity" properties = JNum d
                     /\ integer_value d = Some quantity /\ 0 < quantity).

Lemma orderItemPayload_inv (v : JSValue) (item : OrderItemInput) :
  orderItemPayload isUuid v = Some item ->
  requested v (input_menuItemId item) (input_quantity item).
Proof.
  unfold orderItemPayload. destruct v; try discriminate.
  destruct (string_uuid isUuid _) as [id|] eqn:Hid; [|discriminate].
  destruct (default number_int_positive 1 _) as [q|] eqn:Hq; [|discriminate].
  intros [= <-]. cbn [input_menuItemId input_quantity].
  destruct (string_uuid_inv isUuid _ _ Hid) as [Hv Huuid].
  exists properties. split; [reflexivity|]. split; [exact Hv|]. split; [exact Huuid|].
  unfold default in Hq.
  destruct (property "quantity" properties) eqn:E;
    try (apply number_int_positive_inv in Hq; destruct Hq as (d' & Hd & Hint & Hpos);
         right; exists d'; now repeat split).
  left. split; [reflexivity|]. now inversion Hq.
Qed.

Lemma requested_positive (v : JSValue) (id : string) (q : Z) : requested v id q -> 0 < q.
Proof. intros (properties & _ & _ & _ & [[_ ->] | (d & _ & _ & Hq)]); lia. Qed.

(** The body of an order request, field by field. *)
Definition order_fields (properties : list (string * JSValue)) (restaurant : string)
                        (elements : list JSValue) (eta : Z) (origin destination : string)
  : Prop :=
  property "restaurantId" properties = JString restaurant
  /\ isUuid restaurant = true
  /\ property "items" properties = JArray elements
  /\ (exists d, property "pickupEtaMin" properties = JNum d /\ integer_value d = Some eta)
  /\ property "routeOrigin" properties = JString origin
  /\ property "routeDestination" properties = JString destination.

Lemma orderPayload_inv (body : JSValue) (payload : CreateOrderInput) :
  orderPayload isUuid body = Some payload ->
  exists properties elements,
    body = JObject properties
    /\ order_fields properties (input_restaurantId payload) elements
                    (input_pickupEtaMin payload) (input_routeOrigin payload)
                    (input_routeDestination payload)
    /\ elements <> []
    /\ Forall2 (fun v item => requested v (input_menuItemId item) (input_quantity item))
               elements (input_items payload)
    /\ 0 < input_pickupEtaMin payload
    /\ input_routeOrigin payload <> ""%string
    /\ input_routeDestination payload <> ""%string.
Proof.
  unfold orderPayload. destruct body; try discriminate.
  destruct (string_uuid isUuid _) as [restaurantId|] eqn:Hr; [|discriminate].
  destruct (array_min _ 1 _) as [its|] eqn:Hits; [|discriminate].
  destruct (number_int_positive _) as [eta|] eqn:He; [|discriminate].
  destruct (string_min 1 _) as [origin|] eqn:Ho; [|discriminate].
  destruct (string_min 1 (property "routeDestination" _)) as [destination|] eqn:Hd;
    [|discriminate].
  intros [= <-]. cbn [input_restaurantId input_items input_pickupEtaMin input_routeOrigin
                      input_routeDestination].
  unfold array_min in Hits.
  destruct (property "items" properties) as [| | | | |elements|] eqn:Hitems; try discriminate.
  destruct (Nat.leb_spec 1 (length elements)) as [Hlen|]; [|discriminate].
  destruct (string_uuid_inv isUuid _ _ Hr) as [Hrv Hruuid].
  destruct (number_int_positive_inv _ _ He) as (d & Hev & Hint & Hpos).
  destruct (string_min_1_inv _ _ Ho) as [Hov Hone].
  destruct (string_min_1_inv _ _ Hd) as [Hdv Hdne].
  exists properties, elements. split; [reflexivity|].
  split.
  { split; [exact Hrv|]. split; [exact Hruuid|]. split; [exact Hitems|].
    split; [now exists d|]. split; assumption. }
  split; [intros ->; cbn in Hlen; lia|].
  split; [|auto].
  apply parse_all_Forall2 in Hits.
  clear -Hits. induction Hits as [|v item elements its Hv _ IH]; constructor;
    [exact (orderItemPayload_inv v item Hv) | exact IH].
Qed.

(** X18. An order created through [POST /] is the order of the request
    body. The handler answers 201 only when the body holds a UUID
    [restaurantId], a non-empty array [items], a positive integer
    [pickupEtaMin] and non-empty [routeOrigin] and [routeDestination]; the
    order it answers with is the authenticated customer's, has these values
    of the body, and has one item for each element of [items], in the same
    order, with the element's [menuItemId] and its [quantity], or quantity
    1 when the element gives none. That order, alone, has been added to the
    store; a request the handler does not answer leaves the store as it
    was. The returned subtotal and tax add up to the stored total, and
    neither is negative when no menu price is. *)
Theorem post_creates_well_formed_orders
  (fresh : RowDefaults) (user : string) (body : JSValue) (db : Db) :
  match post isUuid fresh user body db with
  | (Responded statusCode res, db') =>
      statusCode = 201
      /\ db' = OrderCreation.with_order_created (order res) db
      /\ customerId (order res) = user
      /\ (exists properties elements,
            body = JObject properties
            /\ order_fields properties (restaurantId (order res)) elements
                            (pickupEtaMin (order res)) (routeOrigin (order res))
                            (routeDestination (order res))
            /\ Forall2 (fun v i => requested v (menuItemId i) (quantity i))
                       elements (items (order res)))
      /\ items (order res) <> []
      /\ Forall (fun i => 0 < quantity i) (items (order res))
      /\ 0 < pickupEtaMin (order res)
      /\ routeOrigin (order res) <> ""%string
      /\ routeDestination (order res) <> ""%string
      /\ totalCents (order res) = subtotalCents res + taxCents res
      /\ (Forall (fun m => 0 <= menuItem_priceCents m) (menuItems db) ->
          0 <= subtotalCents res /\ 0 <= taxCents res)
  | (Forwarded _, db') => db' = db
  end.
Proof.
  unfold post.
  destruct (orderPayload isUuid body) as [payload|] eqn:Hbody; [|reflexivity].
  destruct (orderPayload_inv body payload Hbody)
    as (properties & elements & Hshape & Hfields & Hne & Hlines & Heta & Ho & Hd).
  unfold respond.
  pose proof (OrderCreation.createOrder_unfold fresh user payload db) as Hcall.
  destruct (OrderCreation.activeRestaurant db (input_restaurantId payload)) as [rest|] eqn:Hrest;
    [|rewrite Hcall; reflexivity].
  destruct (OrderCreation.activeRestaurant_sound _ _ _ Hrest) as (_ & Hrid & _).
  cbv zeta in Hcall. destruct (negb (Nat.eqb _ _)); [rewrite Hcall; reflexivity|].
  destruct (reduce_subtotal _ _ 0) as [s|] eqn:Hs; [|rewrite Hcall; reflexivity].
  destruct (create_items _ _) as [rows|] eqn:Hrows; [|rewrite Hcall; reflexivity].
  rewrite Hcall. cbn [order items customerId restaurantId pickupEtaMin routeOrigin
                      routeDestination subtotalCents taxCents totalCents].
  assert (Hwritten : Forall2 (fun v i => requested v (menuItemId i) (quantity i))
                             elements rows).
  { refine (Forall2_compose _ _ _ _ _ _ _ Hlines (create_items_lines _ _ _ Hrows)).
    intros v item i Hv [-> ->]. exact Hv. }
  split; [reflexivity|]. split; [reflexivity|]. split; [reflexivity|].
  split.
  { exists properties, elements. rewrite Hrid. auto. }
  split.
  { intros ->. inversion Hwritten; subst. now apply Hne. }
  split.
  { clear -Hwritten. induction Hwritten as [|v i elements rows Hv _ IH]; constructor;
      [exact (requested_positive _ _ _ Hv) | exact IH]. }
  split; [exact Heta|]. split; [exact Ho|]. split; [exact Hd|].
  split; [reflexivity|].
  intros Hprice.
  assert (Hqty : Forall (fun it => 0 < input_quantity it) (input_items payload)).
  { clear -Hlines. induction Hlines as [|v it elements its Hv _ IH]; constructor;
      [exact (requested_positive _ _ _ Hv) | exact IH]. }
  assert (Hs0 : 0 <= s).
  { apply (Financials.reduce_subtotal_nonneg _ _ 0 s) in Hs;
      [assumption | | assumption | lia].
    apply Forall_forall. intros m Hm. apply OrderCreation.matched_iff in Hm.
    rewrite Forall_forall in Hprice. apply Hprice. tauto. }
  pose proof (JSNumberFacts.tax_nonneg s Hs0) as Htax.
  split; [exact Hs0 | exact Htax].
Qed.

End Routes.

End RouterProps.

(** * The screens that call the order routes *)

(** A screen sends its request with [apiPatch(path, body)]; the handler
    reads the path parameters and the JSON body it was sent. *)

(** [MerchantDashboardScreen.tsx]: the buttons of an order card. *)
Module MerchantDashboardScreen.

Import OrderService Zod Express.

Inductive Tone : Type := primary | danger.

Record OrderAction : Type := mkOrderAction {
  label : string;
  target : OrderStatus;
  tone : option Tone
}.

(** A [Partial<Record<OrderStatusValue, ...>>]: a status without an entry
    is [None]. *)
Definition ORDER_ACTIONS (s : OrderStatus) : option (list OrderAction) :=
  match s with
  | PENDING =>
      Some [mkOrderAction "Start Processing" PREPARING (Some primary);
            mkOrderAction "Cancel Order" CANCELED (Some danger)]
  | PREPARING =>
      Some [mkOrderAction "Mark Ready" READY (Some primary);
            mkOrderAction "Cancel Order" CANCELED (Some danger)]
  | READY =>
      Some [mkOrderAction "Mark Done" COMPLETED (Some primary);
            mkOrderAction "Cancel Order" CANCELED (Some danger)]
  | COMPLETED | CANCELED => None
  end.

(** [const actions = ORDER_ACTIONS[order.status] ?? [];] *)
Definition actions (o : Order) : list OrderAction :=
  match ORDER_ACTIONS (status o) with
  | Some l => l
  | None => []
  end.

(** A property of an object literal. *)
Definition field (name : string) (v : JSValue) : string * JSValue := (name, v).

(** [handleOrderStatusChange(order.id, action.target)]: nothing is sent
    while the restaurant id is missing (or empty); otherwise
    [PATCH /api/restaurants/:restaurantId/orders/:orderId] with the body
    [{ status: nextStatus }]. *)
Definition handleOrderStatusChange (restaurantId : option string) (orderId : string)
                                   (nextStatus : OrderStatus) : option Request :=
  match restaurantId with
  | None => None
  | Some restaurant =>
      if String.eqb restaurant "" then None
      else Some (mkRequest
                   (JObject [field "restaurantId" (JString restaurant);
                             field "orderId" (JString orderId)])
                   (JObject [field "status" (JString (OrderStatus_name nextStatus))]))
  end.

End MerchantDashboardScreen.

(** [OrderStatusScreen.tsx]: editing the route of an order. *)
Module OrderStatusScreen.

Import OrderService Zod Express.

(** [order.status === "PENDING" || order.status === "PREPARING"] *)
Definition canUpdateRoute (o : Order) : bool :=
  OrderStatus_eqb (status o) PENDING || OrderStatus_eqb (status o) PREPARING.

(** An integer as a JSON number. *)
Definition number (n : Z) : JSValue := JNum (JSNumber.mkDouble n 0).

Section HandleUpdateRoute.

(** [String.prototype.trim] *)
Variable trim : string -> string.

(** [newEtaMin]: the stored ETA, or the computed duration in minutes.
    [durationSeconds] is [directionsResult?.leg?.durationSeconds], [None]
    without a directions result; a duration of 0 is falsy. *)
Definition newEtaMin (o : Order) (durationSeconds : option Z) : Z :=
  match durationSeconds with
  | Some d => if d =? 0 then pickupEtaMin o
              else JSNumber.Math_round (JSNumber.div d 60)
  | None => pickupEtaMin o
  end.

(** The request [handleUpdateRoute] sends,
    [PATCH /api/orders/:orderId/route], or [None] when it alerts
    instead. *)
Definition handleUpdateRoute (o : Order) (routeOrigin routeDestination : string)
                             (durationSeconds : option Z) : option Request :=
  if String.eqb (trim routeOrigin) "" || String.eqb (trim routeDestination) "" then None
  else
    Some (mkRequest
            (JObject [MerchantDashboardScreen.field "orderId" (JString (order_id o))])
            (JObject [MerchantDashboardScreen.field "routeOrigin"
                        (JString (trim routeOrigin));
                      MerchantDashboardScreen.field "routeDestination"
                        (JString (trim routeDestination));
                      MerchantDashboardScreen.field "pickupEtaMin"
                        (number (newEtaMin o durationSeconds))])).

End HandleUpdateRoute.

End OrderStatusScreen.

Module ScreenProps.

Import OrderService Zod Express MerchantDashboardScreen OrderStatusScreen.

Lemma nativeEnum_round_trip (s : OrderStatus) :
  RestaurantRouter.nativeEnum_OrderStatus (JString (OrderStatus_name s)) = Some s.
Proof. destruct s; reflexivity. Qed.

Section Screens.

Variable isUuid : string -> bool.

Lemma status_request_outcome (db : Db) (restaurant : string) (o : Order) (t : OrderStatus) :
  isUuid restaurant = true -> isUuid (order_id o) = true -> restaurant <> ""%string ->
  findOrder (order_id o) db = Some o -> restaurantId o = restaurant ->
  exists req,
    handleOrderStatusChange (Some restaurant) (order_id o) t = Some req
    /\ RestaurantRouter.patch_order isUuid (request_params req) (request_body req) db
       = if OrderStatus_eqb (status o) t then (Responded 200 (attachFinancials o None), db)
         else if negb (existsb (OrderStatus_eqb t) (STATUS_TRANSITIONS (status o)))
         then (Forwarded (Thrown (HttpError 400 "Invalid status transition")), db)
         else (Responded 200 (attachFinancials (set_status t o) None),
               with_order_updated (order_id o) (set_status t) db).
Proof.
  intros Hr Ho Hne Hfind Hown. unfold handleOrderStatusChange.
  destruct (String.eqb_spec restaurant ""); [contradiction|].
  eexists. split; [reflexivity|].
  cbn [request_params request_body]. unfold RestaurantRouter.patch_order.
  unfold RestaurantRouter.orderParams, RestaurantRouter.orderStatusPayload, field.
  cbn [property JSMap.get String.eqb Ascii.eqb Bool.eqb string_uuid].
  rewrite Hr, Ho, nativeEnum_round_trip.
  unfold respond. rewrite Lifecycle.updateOrderStatus_outcome. unfold Lifecycle.status_outcome.
  rewrite Hfind. apply String.eqb_eq in Hown. rewrite Hown. cbn [negb].
  destruct (OrderStatus_eqb (status o) t); [reflexivity|].
  destruct (negb (existsb _ _)); reflexivity.
Qed.

(** X19. The buttons of the merchant dashboard are the transitions the
    server accepts: the request of any button shown for an order of the
    restaurant passes the route's validation, is answered 200 and stores
    the button's target status; every change of status the route answers
    200 has a button; a COMPLETED or CANCELED order shows none. *)
Theorem merchant_buttons_are_the_accepted_transitions
  (db : Db) (restaurant : string) (o : Order) :
  isUuid restaurant = true -> isUuid (order_id o) = true -> restaurant <> ""%string ->
  findOrder (order_id o) db = Some o ->
  restaurantId o = restaurant ->
  (forall a, In a (actions o) ->
     exists req,
       handleOrderStatusChange (Some restaurant) (order_id o) (target a) = Some req
       /\ RestaurantRouter.patch_order isUuid (request_params req) (request_body req) db
          = (Responded 200 (attachFinancials (set_status (target a) o) None),
             with_order_updated (order_id o) (set_status (target a)) db))
  /\ (forall t req res db', t <> status o ->
        handleOrderStatusChange (Some restaurant) (order_id o) t = Some req ->
        RestaurantRouter.patch_order isUuid (request_params req) (request_body req) db
        = (Responded 200 res, db') ->
        In t (map target (actions o)))
  /\ (actions o = [] <-> status o = COMPLETED \/ status o = CANCELED).
Proof.
  intros Hr Ho Hne Hfind Hown.
  pose proof (status_request_outcome db restaurant o) as Hcall.
  split; [|split].
  - intros a Ha.
    destruct (Hcall (target a) Hr Ho Hne Hfind Hown) as (req & Hreq & Hout).
    exists req. split; [exact Hreq|]. rewrite Hout. unfold actions in Ha.
    destruct (status o); cbn in Ha; repeat destruct Ha as [<- | Ha]; try contradiction;
      reflexivity.
  - intros t req res db' Hdiff Hreq.
    destruct (Hcall t Hr Ho Hne Hfind Hown) as (req' & Hreq' & Hout).
    rewrite Hreq in Hreq'. inversion Hreq'; subst req'. rewrite Hout.
    destruct (OrderStatus_eqb_spec (status o) t) as [E | _]; [congruence|].
    unfold actions.
    destruct (status o), t; cbn; try discriminate; try congruence; intros _; tauto.
  - unfold actions. destruct (status o); cbn; split; intros H; try discriminate; auto;
      destruct H as [H | H]; discriminate.
Qed.

Variable trim : string -> string.

(** X20. The route editor of the order screen against the route: the
    Edit button is shown exactly for the statuses the service lets through;
    for the customer's own order in such a status, the request the screen
    sends is answered 200 whenever the ETA it carries is positive, and
    stores the trimmed addresses with that ETA (the stored ETA when no
    route was computed, the computed duration in minutes, rounded,
    otherwise); with an ETA of 0 or less the body fails the route's
    validation, which is what happens to a computed route of less than 30
    seconds. *)
Theorem route_edit_request_is_accepted
  (db : Db) (customer : string) (o : Order) (origin destination : string)
  (durationSeconds : option Z) (req : Request) :
  isUuid (order_id o) = true ->
  findOrder (order_id o) db = Some o ->
  customerId o = customer ->
  handleUpdateRoute trim o origin destination durationSeconds = Some req ->
  let eta := newEtaMin o durationSeconds in
  let sent := OrdersRouter.patch_route isUuid customer (request_params req)
                                       (request_body req) db in
  (canUpdateRoute o = RouteUpdate.editable (status o))
  /\ (canUpdateRoute o = true -> 0 < eta ->
      exists db',
        sent = (Responded 200
                  (attachFinancials
                     (mkOrder (order_id o) (customerId o) (restaurantId o) (status o) eta
                              (trim origin) (trim destination) (totalCents o)
                              (createdAt o) (items o)) None), db')
        /\ findOrder (order_id o) db'
           = Some (mkOrder (order_id o) (customerId o) (restaurantId o) (status o) eta
                           (trim origin) (trim destination) (totalCents o)
                           (createdAt o) (items o)))
  /\ (eta <= 0 -> sent = (Forwarded ZodError, db))
  /\ (canUpdateRoute o = false -> 0 < eta ->
      sent = (Forwarded (Thrown (HttpError 400 (route_status_message (status o)))), db))
  /\ (forall d, durationSeconds = Some d -> 0 < d < 2 ^ 52 ->
        eta = JSNumber.round_half_up d 60 /\ (0 < eta <-> 30 <= d)).
Proof.
  intros Hid Hfind Hown Hsend eta sent.
  assert (Hedit : canUpdateRoute o = RouteUpdate.editable (status o)).
  { unfold canUpdateRoute, RouteUpdate.editable. destruct (status o); reflexivity. }
  unfold handleUpdateRoute in Hsend.
  destruct (String.eqb_spec (trim origin) "") as [|Horigin]; [discriminate|].
  destruct (String.eqb_spec (trim destination) "") as [|Hdestination]; [discriminate|].
  cbn [orb] in Hsend. inversion Hsend as [Hreq]. clear Hsend.
  fold eta in Hreq.
  assert (Hsent : sent =
            if 0 <? eta
            then respond 200
                   (updateOrderRoute (order_id o) customer
                      (mkUpdateRouteInput (Some (trim origin)) (Some (trim destination))
                                          (Some eta))) db
            else (Forwarded ZodError, db)).
  { subst sent req. cbn [request_params request_body].
    unfold OrdersRouter.patch_route, OrdersRouter.orderIdParam,
      OrdersRouter.updateRoutePayload, field, number.
    cbn [property JSMap.get String.eqb Ascii.eqb Bool.eqb string_uuid string_min
         number_int_positive integer_value JSNumber.expo JSNumber.mant Z.leb Z.compare].
    rewrite Hid. rewrite Z.pow_0_r, Z.mul_1_r.
    destruct (trim origin) as [|c1 s1]; [congruence|].
    destruct (trim destination) as [|c2 s2]; [congruence|].
    cbn [String.length Nat.leb].
    destruct (0 <? eta); reflexivity. }
  split; [exact Hedit|].
  rewrite Hsent. unfold respond.
  rewrite RouteUpdate.updateOrderRoute_outcome. unfold RouteUpdate.route_outcome.
  rewrite Hfind. apply String.eqb_eq in Hown. rewrite Hown. cbn [negb].
  rewrite <- Hedit. cbn [update_pickupEtaMin update_routeOrigin update_routeDestination].
  split; [|split; [|split]].
  - intros -> Heta. destruct (Z.ltb_spec 0 eta); [|lia]. cbn [negb].
    destruct (Z.leb_spec eta 0); [lia|].
    eexists. split; [reflexivity|].
    apply (findOrder_updated_same (order_id o)
             (apply_updateData
                (mkUpdateRouteInput (Some (trim origin)) (Some (trim destination))
                                    (Some eta))) db o);
      [reflexivity | exact Hfind].
  - intros Heta. destruct (Z.ltb_spec 0 eta); [lia | reflexivity].
  - intros -> Heta. destruct (Z.ltb_spec 0 eta); [|lia]. reflexivity.
  - intros d -> Hd. subst eta. unfold newEtaMin. destruct (Z.eqb_spec d 0); [lia|].
    rewrite JSNumberFacts.Math_round_div_exact by lia.
    split; [reflexivity|]. unfold JSNumber.round_half_up. split.
    + intros Hpos. destruct (Z.lt_ge_cases d 30) as [Hlt | Hge]; [|exact Hge].
      rewrite Z.div_small in Hpos by lia. lia.
    + intros Hge. apply Z.div_str_pos. lia.
Qed.

End Screens.

End ScreenProps.

(** * Restaurant filters: from the screen to the route *)

Module RestaurantFilters.

Import Zod.

Inductive PriceLevel : Type := BUDGET | MID | UPSCALE.

Inductive DietaryNeeds : Type := vegetarian | vegan.

Definition PriceLevel_name (p : PriceLevel) : string :=
  match p with
  | BUDGET => "BUDGET"
  | MID => "MID"
  | UPSCALE => "UPSCALE"
  end.

(** [TravelerFiltersType] of the screen. *)
Record TravelerFilters : Type := mkTravelerFilters {
  traveler_fastService : bool;
  traveler_vegetarian : bool;
  traveler_vegan : bool;
  traveler_localFavorites : bool;
  traveler_priceLevel : option PriceLevel
}.

(** [queryParams.append(name, value)] adds one pair. *)
Definition appended (name value : string) : list (string * string) := [(name, value)].

(** The [URLSearchParams] the restaurants screen builds, pair by pair in
    the order of the [append] calls. *)
Definition queryParams (filters : TravelerFilters) : list (string * string) :=
  (if traveler_fastService filters then appended "fastService" "true" else [])
  ++ (if traveler_vegan filters then appended "dietaryNeeds" "vegan"
      else if traveler_vegetarian filters then appended "dietaryNeeds" "vegetarian"
      else [])
  ++ (if traveler_localFavorites filters then appended "localFavorites" "true" else [])
  ++ (match traveler_priceLevel filters with
      | Some p => appended "priceLevel" (PriceLevel_name p)
      | None => []
      end).

(** [req.query] for a query string of distinct keys with plain values. *)
Definition req_query (params : list (string * string)) : list (string * JSValue) :=
  map (fun p => (fst p, JString (snd p))) params.

(** [z.preprocess((val) => val === "true" ? true : val === "false" ? false
    : undefined, z.boolean().optional())]: it never fails. *)
Definition flag (v : JSValue) : option bool :=
  match v with
  | JString s => if String.eqb s "true" then Some true
                 else if String.eqb s "false" then Some false
                 else None
  | _ => None
  end.

(** [z.enum(["vegetarian", "vegan"]).optional()] *)
Definition dietaryNeeds_schema : Schema (option DietaryNeeds) :=
  fun v => match v with
           | JUndefined => Some None
           | JString s => if String.eqb s "vegetarian" then Some (Some vegetarian)
                          else if String.eqb s "vegan" then Some (Some vegan)
                          else None
           | _ => None
           end.

(** [z.enum(["BUDGET", "MID", "UPSCALE"]).optional()] *)
Definition priceLevel_schema : Schema (option PriceLevel) :=
  fun v => match v with
           | JUndefined => Some None
           | JString s => if String.eqb s "BUDGET" then Some (Some BUDGET)
                          else if String.eqb s "MID" then Some (Some MID)
                          else if String.eqb s "UPSCALE" then Some (Some UPSCALE)
                          else None
           | _ => None
           end.

(** The [filters] object handed to [getActiveRestaurants]. *)
Record Filters : Type := mkFilters {
  fastService : option bool;
  dietaryNeeds : option DietaryNeeds;
  localFavorites : option bool;
  priceLevel : option PriceLevel
}.

(** [let filters = {}] *)
Definition no_filters : Filters := mkFilters None None None None.

(** [restaurantFiltersQuery.safeParse(req.query)], and the filters of
    [GET /api/restaurants]: those parsed, or none when the parse fails. *)
Definition filters_of (query : list (string * JSValue)) : Filters :=
  match dietaryNeeds_schema (property "dietaryNeeds" query),
        priceLevel_schema (property "priceLevel" query) with
  | Some diet, Some price =>
      mkFilters (flag (property "fastService" query)) diet
                (flag (property "localFavorites" query)) price
  | _, _ => no_filters
  end.

(** X21. The filters the traveler sets arrive at the route as set: a
    switch that is on arrives as [true], one that is off is absent (not
    [false]), vegan wins over vegetarian, and the price level arrives
    unchanged. *)
Theorem traveler_filters_arrive (filters : TravelerFilters) :
  filters_of (req_query (queryParams filters))
  = mkFilters (if traveler_fastService filters then Some true else None)
              (if traveler_vegan filters then Some vegan
               else if traveler_vegetarian filters then Some vegetarian
               else None)
              (if traveler_localFavorites filters then Some true else None)
              (traveler_priceLevel filters).
Proof.
  destruct filters as [[|] [|] [|] [|] [[| |]|]]; reflexivity.
Qed.

(** The query without parameter [name]. *)
Definition without (name : string) (query : list (string * JSValue))
  : list (string * JSValue) :=
  filter (fun p => negb (String.eqb (fst p) name)) query.

Lemma property_without_same (name : string) (query : list (string * JSValue)) :
  property name (without name query) = JUndefined.
Proof.
  unfold property, without. induction query as [|[k v] query IH]; [reflexivity|].
  cbn [filter fst]. destruct (String.eqb_spec k name) as [-> | Hne]; cbn [negb]; [exact IH|].
  cbn [JSMap.get]. destruct (String.eqb_spec name k); [congruence | exact IH].
Qed.

Lemma property_without_other (name other : string) (query : list (string * JSValue)) :
  other <> name -> property other (without name query) = property other query.
Proof.
  intros Hne. unfold property, without. induction query as [|[k v] query IH]; [reflexivity|].
  cbn [filter fst JSMap.get]. destruct (String.eqb_spec k name) as [-> | Hk]; cbn [negb].
  - destruct (String.eqb_spec other name); [contradiction | exact IH].
  - cbn [JSMap.get]. destruct (String.eqb_spec other k); [reflexivity | exact IH].
Qed.

(** X22. In [GET /api/restaurants] one unknown [dietaryNeeds] or
    [priceLevel] value drops every filter of the request, the valid ones
    included, whereas an unknown [fastService] value only counts as if the
    parameter were not there. *)
Theorem unknown_enum_value_drops_all_filters (query : list (string * JSValue)) :
  (forall s, property "dietaryNeeds" query = JString s ->
             s <> "vegetarian"%string -> s <> "vegan"%string ->
             filters_of query = no_filters)
  /\ (forall s, property "priceLevel" query = JString s ->
                s <> "BUDGET"%string -> s <> "MID"%string -> s <> "UPSCALE"%string ->
                filters_of query = no_filters)
  /\ (forall s, property "fastService" query = JString s ->
                s <> "true"%string -> s <> "false"%string ->
                filters_of query = filters_of (without "fastService" query)).
Proof.
  split; [|split].
  - intros s Hs Hv Hg. unfold filters_of. rewrite Hs. cbn [dietaryNeeds_schema].
    destruct (String.eqb_spec s "vegetarian"); [contradiction|].
    destruct (String.eqb_spec s "vegan"); [contradiction|]. reflexivity.
  - intros s Hs Hb Hm Hu. unfold filters_of. rewrite Hs. cbn [priceLevel_schema].
    destruct (String.eqb_spec s "BUDGET"); [contradiction|].
    destruct (String.eqb_spec s "MID"); [contradiction|].
    destruct (String.eqb_spec s "UPSCALE"); [contradiction|].
    destruct (dietaryNeeds_schema _); reflexivity.
  - intros s Hs Ht Hf. unfold filters_of.
    rewrite property_without_same, !property_without_other by discriminate.
    rewrite Hs. cbn [flag].
    destruct (String.eqb_spec s "true"); [contradiction|].
    destruct (String.eqb_spec s "false"); [contradiction|]. reflexivity.
Qed.

End RestaurantFilters.

(** * What the service leaves to its callers *)

Module ServiceEdges.

Import OrderService OrderCreation.

Lemma matched_nothing (db : Db) (restaurant : string) : matched db restaurant [] = [].
Proof.
  unfold matched. induction (menuItems db) as [|m l IH]; [reflexivity|].
  cbn [filter existsb andb]. exact IH.
Qed.

(** X23. [createOrder] itself does not ask for an item: for an active
    restaurant a request with an empty item list is stored as an order
    without items and with a total of 0. (The route refuses such a body
    before the service is called.) *)
Theorem createOrder_accepts_empty_item_list
  (db : Db) (fresh : RowDefaults) (customer : string) (input : CreateOrderInput)
  (restaurant : Restaurant) :
  activeRestaurant db (input_restaurantId input) = Some restaurant ->
  input_items input = [] ->
  let created :=
    mkOrder (default_id fresh) customer (restaurant_id restaurant) (default_status fresh)
            (input_pickupEtaMin input) (input_routeOrigin input)
            (input_routeDestination input) 0 (default_createdAt fresh) [] in
  createOrder fresh customer input db
  = (Ok (mkOrderWithFinancials created 0 0), with_order_created created db).
Proof.
  intros Hrest Hitems created. rewrite createOrder_unfold, Hrest, Hitems.
  cbn [map]. rewrite matched_nothing. reflexivity.
Qed.

End ServiceEdges.

(** * Status changes and the analytics *)

Module StatusAndAnalytics.

Import OrderService OrderCreation RestaurantAnalyticsProps.

(** With unique ids an update rewrites one row. *)
Lemma update_one_row (id : string) (data : Order -> Order) (l : list Order) (o : Order) :
  NoDup (map order_id l) ->
  find (fun x => String.eqb (order_id x) id) l = Some o ->
  exists before after,
    l = before ++ o :: after
    /\ map (fun x => if String.eqb (order_id x) id then data x else x) l
       = before ++ data o :: after.
Proof.
  induction l as [|x l IH]; intros Hnd Hfind; [discriminate|].
  cbn [map] in Hnd. inversion Hnd as [|? ? Hfresh Hnd']; subst.
  cbn [find] in Hfind. cbn [map].
  destruct (String.eqb_spec (order_id x) id) as [E | Hne].
  - inversion Hfind; subst x. exists [], l. split; [reflexivity|]. cbn [app]. f_equal.
    rewrite <- (map_id l) at 2. apply map_ext_in. intros y Hy.
    destruct (String.eqb_spec (order_id y) id) as [Hy' | _]; [|reflexivity].
    exfalso. apply Hfresh. rewrite E, <- Hy'. now apply in_map.
  - destruct (IH Hnd' Hfind) as (before & after & -> & Hmap).
    exists (x :: before), after. split; [reflexivity|]. cbn [app]. now rewrite Hmap.
Qed.

Section OneOrder.

Variable restaurant : string.
Variable o : Order.
Variable t : OrderStatus.
Variables before after : list Order.

Hypothesis o_counted : AnalyticsService.not_canceled_of restaurant o = true.

Let kept_before := filter (AnalyticsService.not_canceled_of restaurant) before.
Let kept_after := filter (AnalyticsService.not_canceled_of restaurant) after.

Lemma counted_with (db : Db) :
  orders db = before ++ o :: after ->
  counted restaurant db = kept_before ++ o :: kept_after.
Proof.
  intros Hrows. unfold counted. rewrite Hrows, filter_app. cbn [filter]. now rewrite o_counted.
Qed.

Lemma counted_with_status (db : Db) :
  orders db = before ++ set_status t o :: after ->
  counted restaurant db
  = if OrderStatus_eqb t CANCELED then kept_before ++ kept_after
    else kept_before ++ set_status t o :: kept_after.
Proof.
  intros Hrows. unfold counted. rewrite Hrows, filter_app. cbn [filter].
  unfold AnalyticsService.not_canceled_of at 2. cbn [restaurantId status set_status].
  unfold AnalyticsService.not_canceled_of in o_counted.
  apply andb_prop in o_counted. destruct o_counted as [-> _]. cbn [andb].
  destruct (OrderStatus_eqb t CANCELED); reflexivity.
Qed.

End OneOrder.

(** What the two analytics answer, in terms of the orders they count. *)
Lemma dashboard_answer (tz : Z) (restaurant : string) (db : Db) :
  let kept := counted restaurant db in
  exists res,
    DashboardAnalytics.getRestaurantAnalytics tz restaurant db = (Ok res, db)
    /\ DashboardAnalytics.totalOrders res = Z.of_nat (length kept)
    /\ DashboardAnalytics.totalRevenueCents res = sumZ (map totalCents kept)
    /\ DashboardAnalytics.averageOrderCostCents res
       = (if 0 <? Z.of_nat (length kept)
          then JSNumber.Math_round
                 (JSNumber.div (sumZ (map totalCents kept)) (Z.of_nat (length kept)))
          else 0)
    /\ DashboardAnalytics.ordersByDay res
       = JSArray.sliceFrom (-30) (Rollups.buckets DashboardAnalytics.dayKey kept)
    /\ DashboardAnalytics.ordersByWeek res
       = JSArray.sliceFrom (-12) (Rollups.buckets (DashboardAnalytics.weekKey tz) kept)
    /\ DashboardAnalytics.popularItems res = ItemRankings.dashboard_items kept.
Proof.
  intros kept. eexists. split; [reflexivity|].
  cbn [DashboardAnalytics.totalOrders DashboardAnalytics.totalRevenueCents
       DashboardAnalytics.averageOrderCostCents DashboardAnalytics.ordersByDay
       DashboardAnalytics.ordersByWeek DashboardAnalytics.popularItems].
  fold (counted restaurant db). fold kept.
  rewrite (fold_left_add_sumZ totalCents kept 0), Z.add_0_l.
  repeat (split; [reflexivity|]). reflexivity.
Qed.

Lemma summary_answer (tz : Z) (restaurant : string) (limit : option Z) (db : Db) :
  let kept := counted restaurant db in
  exists res,
    AnalyticsService.getRestaurantAnalytics tz restaurant limit db = (Ok res, db)
    /\ AnalyticsService.peakTimes_of tz kept = Ok (AnalyticsService.peakTimes res)
    /\ AnalyticsService.totalOrders res = Z.of_nat (length kept)
    /\ AnalyticsService.totalRevenueCents res = sumZ (map totalCents kept).
Proof.
  intros kept.
  destruct (PeakHours.peakTimes_of_spec tz kept) as (peak & Hpeak & _).
  unfold AnalyticsService.getRestaurantAnalytics, AnalyticsService.getPopularItems,
    AnalyticsService.getPeakTimes, AnalyticsService.orderItem_findMany,
    AnalyticsService.order_aggregate, Prisma.order_findMany.
  unfold bind, query, ret, OrderService.lift.
  cbv beta iota zeta.
  fold (counted restaurant db). fold kept. rewrite Hpeak.
  eexists. split; [reflexivity|].
  cbn [AnalyticsService.peakTimes AnalyticsService.totalOrders
       AnalyticsService.totalRevenueCents fst snd].
  split; [reflexivity|]. split; [reflexivity|].
  destruct kept as [|o kept']; [reflexivity|].
  rewrite (fold_left_add_sumZ totalCents (o :: kept') 0). lia.
Qed.

Lemma rows_of_forget (l : list Order) :
  ItemRankings.rows_of (map RowOrder.forget_status l) = ItemRankings.rows_of l.
Proof.
  induction l as [|o l IH]; [reflexivity|].
  unfold ItemRankings.rows_of in *. cbn [map flat_map]. now rewrite IH.
Qed.

Lemma alike_rows (l1 l2 : list Order) :
  RowOrder.alike l1 l2 ->
  Permutation (ItemRankings.rows_of l1) (ItemRankings.rows_of l2).
Proof.
  intros H. rewrite <- (rows_of_forget l1), <- (rows_of_forget l2).
  unfold ItemRankings.rows_of. now apply Permutation_flat_map.
Qed.

(** X24. The analytics follow the status machine, in whatever order the
    store returns its rows afterwards ([db'] holds the rows of the updated
    store in any order; order ids are unique). When the restaurant moves one
    of its counted orders to PREPARING, READY or COMPLETED, the dashboard's
    [totalOrders], [totalRevenueCents], [averageOrderCostCents],
    [ordersByDay] and [ordersByWeek] and the [peakTimes], [totalOrders] and
    [totalRevenueCents] of the analytics service stay as they were, and the
    dashboard lists the same menu items with the same quantities and
    revenues. When it cancels the order, both [totalOrders] drop by one and
    both [totalRevenueCents] by the order's total. *)
Theorem analytics_follow_status_changes
  (tz : Z) (db db1 db' : Db) (restaurant orderId : string) (o : Order) (t : OrderStatus)
  (limit : option Z) (res : OrderWithFinancials) :
  NoDup (map order_id (orders db)) ->
  findOrder orderId db = Some o ->
  t <> status o ->
  updateOrderStatusForRestaurant restaurant orderId t db = (Ok res, db1) ->
  Permutation (orders db') (orders db1) ->
  exists stats stats' summary summary',
    DashboardAnalytics.getRestaurantAnalytics tz restaurant db = (Ok stats, db)
    /\ DashboardAnalytics.getRestaurantAnalytics tz restaurant db' = (Ok stats', db')
    /\ AnalyticsService.getRestaurantAnalytics tz restaurant limit db = (Ok summary, db)
    /\ AnalyticsService.getRestaurantAnalytics tz restaurant limit db' = (Ok summary', db')
    /\ (t <> CANCELED ->
        DashboardAnalytics.totalOrders stats' = DashboardAnalytics.totalOrders stats
        /\ DashboardAnalytics.totalRevenueCents stats'
           = DashboardAnalytics.totalRevenueCents stats
        /\ DashboardAnalytics.averageOrderCostCents stats'
           = DashboardAnalytics.averageOrderCostCents stats
        /\ DashboardAnalytics.ordersByDay stats' = DashboardAnalytics.ordersByDay stats
        /\ DashboardAnalytics.ordersByWeek stats' = DashboardAnalytics.ordersByWeek stats
        /\ AnalyticsService.peakTimes summary' = AnalyticsService.peakTimes summary
        /\ AnalyticsService.totalOrders summary' = AnalyticsService.totalOrders summary
        /\ AnalyticsService.totalRevenueCents summary'
           = AnalyticsService.totalRevenueCents summary
        /\ length (DashboardAnalytics.popularItems stats')
           = length (DashboardAnalytics.popularItems stats)
        /\ (forall q, In q (DashboardAnalytics.popularItems stats) ->
              exists q', In q' (DashboardAnalytics.popularItems stats')
                         /\ DashboardAnalytics.item_menuItemId q'
                            = DashboardAnalytics.item_menuItemId q
                         /\ DashboardAnalytics.totalQuantity q'
                            = DashboardAnalytics.totalQuantity q
                         /\ DashboardAnalytics.item_totalRevenueCents q'
                            = DashboardAnalytics.item_totalRevenueCents q)
        /\ (forall q', In q' (DashboardAnalytics.popularItems stats') ->
              exists q, In q (DashboardAnalytics.popularItems stats)
                        /\ DashboardAnalytics.item_menuItemId q'
                           = DashboardAnalytics.item_menuItemId q
                        /\ DashboardAnalytics.totalQuantity q'
                           = DashboardAnalytics.totalQuantity q
                        /\ DashboardAnalytics.item_totalRevenueCents q'
                           = DashboardAnalytics.item_totalRevenueCents q))
    /\ (t = CANCELED ->
        DashboardAnalytics.totalOrders stats' = DashboardAnalytics.totalOrders stats - 1
        /\ DashboardAnalytics.totalRevenueCents stats'
           = DashboardAnalytics.totalRevenueCents stats - totalCents o
        /\ AnalyticsService.totalOrders summary' = AnalyticsService.totalOrders summary - 1
        /\ AnalyticsService.totalRevenueCents summary'
           = AnalyticsService.totalRevenueCents summary - totalCents o).
Proof.
  intros Hnd Hfind Hne Hcall Hperm.
  rewrite Lifecycle.updateOrderStatus_outcome in Hcall. unfold Lifecycle.status_outcome in Hcall.
  rewrite Hfind in Hcall.
  destruct (String.eqb_spec (restaurantId o) restaurant) as [Hown | _]; [|discriminate].
  cbn [negb] in Hcall.
  destruct (OrderStatus_eqb_spec (status o) t) as [E | _]; [congruence|].
  destruct (existsb (OrderStatus_eqb t) (STATUS_TRANSITIONS (status o))) eqn:Hallowed;
    [|discriminate].
  cbn [negb] in Hcall. inversion Hcall as [[Hres Hdb1]]. clear Hcall.
  destruct (update_one_row orderId (set_status t) (orders db) o Hnd Hfind)
    as (before & after & Hrows & Hrows').
  assert (Hcounted : AnalyticsService.not_canceled_of restaurant o = true).
  { unfold AnalyticsService.not_canceled_of. apply String.eqb_eq in Hown. rewrite Hown.
    destruct (status o); try reflexivity; discriminate. }
  pose proof (counted_with restaurant o before after Hcounted db Hrows) as Hkept.
  pose proof (counted_with_status restaurant o t before after Hcounted
                (with_order_updated orderId (set_status t) db) Hrows') as Hkept1.
  rewrite Hdb1 in Hkept1.
  assert (Hkept' : Permutation (counted restaurant db') (counted restaurant db1))
    by (now apply RowOrder.filter_perm).
  rewrite Hkept1 in Hkept'. clear Hkept1.
  set (kb := filter (AnalyticsService.not_canceled_of restaurant) before) in *.
  set (ka := filter (AnalyticsService.not_canceled_of restaurant) after) in *.
  destruct (dashboard_answer tz restaurant db)
    as (stats & Hstats & Hn & Hrev & Havg & Hday & Hweek & Hitems).
  destruct (dashboard_answer tz restaurant db')
    as (stats' & Hstats' & Hn' & Hrev' & Havg' & Hday' & Hweek' & Hitems').
  destruct (summary_answer tz restaurant limit db) as (summary & Hsummary & Hpeak & Hsn & Hsrev).
  destruct (summary_answer tz restaurant limit db')
    as (summary' & Hsummary' & Hpeak' & Hsn' & Hsrev').
  cbv zeta in *.
  exists stats, stats', summary, summary'.
  repeat (split; [assumption|]). split.
  - intros Hnc.
    destruct (OrderStatus_eqb_spec t CANCELED) as [E | _]; [contradiction|].
    assert (Halike : RowOrder.alike (counted restaurant db') (counted restaurant db)).
    { rewrite Hkept.
      exact (RowOrder.alike_trans _ _ _ (RowOrder.alike_permutation _ _ Hkept')
               (RowOrder.alike_one_status t o kb ka)). }
    pose proof (RowOrder.alike_length _ _ Halike) as Hlen.
    pose proof (RowOrder.alike_sum totalCents RowOrder.totalCents_blind _ _ Halike) as Hsum.
    rewrite Hn', Hrev', Havg', Hday', Hweek', Hsn', Hsrev', Hitems'.
    rewrite Hn, Hrev, Havg, Hday, Hweek, Hsn, Hsrev, Hitems.
    rewrite Hlen, Hsum.
    rewrite (RowOrder.buckets_alike _ RowOrder.dayKey_blind _ _ Halike).
    rewrite (RowOrder.buckets_alike _ (RowOrder.weekKey_blind tz) _ _ Halike).
    repeat (split; [reflexivity|]).
    split.
    { rewrite (RowOrder.peakTimes_alike tz _ _ Halike), Hpeak in Hpeak'. congruence. }
    repeat (split; [reflexivity|]).
    unfold ItemRankings.dashboard_items. rewrite !ItemRankings.dashboard_items_are_ranking.
    pose proof (alike_rows _ _ Halike) as Hlines.
    split.
    { rewrite !length_map. now apply ItemRankings.ranking_any_order_length. }
    split.
    { intros q Hq. apply in_map_iff in Hq. destruct Hq as (p & <- & Hp).
      destruct (ItemRankings.ranking_any_order _ _ p (Permutation_sym Hlines) Hp)
        as (p' & Hp' & Hid & Hqty & _ & Hr).
      exists (ItemRankings.as_dashboard_item p'). split; [now apply in_map|].
      cbn. auto. }
    intros q' Hq'. apply in_map_iff in Hq'. destruct Hq' as (p' & <- & Hp').
    destruct (ItemRankings.ranking_any_order _ _ p' Hlines Hp')
      as (p & Hp & Hid & Hqty & _ & Hr).
    exists (ItemRankings.as_dashboard_item p). split; [now apply in_map|].
    cbn. auto.
  - intros ->. cbn [OrderStatus_eqb] in Hkept'.
    pose proof (Permutation_length Hkept') as Hlen.
    pose proof (RowOrder.sumZ_perm _ _ (Permutation_map totalCents Hkept')) as Hsum.
    rewrite Hn', Hrev', Hsn', Hsrev', Hn, Hrev, Hsn, Hsrev, Hkept, Hlen, Hsum.
    rewrite !map_app, !sumZ_app, !length_app. cbn [map length]. rewrite sumZ_cons.
    repeat split; lia.
Qed.

End StatusAndAnalytics.

(** * After an order is created *)

Module AfterCreate.

Import OrderService OrderCreation RestaurantAnalyticsProps.

Lemma createOrder_stored fresh customer input db res db' :
  createOrder fresh customer input db = (Ok res, db') ->
  db' = with_order_created (order res) db
  /\ customerId (order res) = customer
  /\ status (order res) = default_status fresh
  /\ createdAt (order res) = default_createdAt fresh.
Proof.
  rewrite createOrder_unfold.
  destruct (activeRestaurant db (input_restaurantId input)); [|discriminate].
  cbv zeta. destruct (negb (Nat.eqb _ _)); [discriminate|].
  destruct (reduce_subtotal _ _ 0); [|discriminate].
  destruct (create_items _ _); [|discriminate].
  intros [= <- <-]. repeat split; reflexivity.
Qed.

Lemma counted_after_create (restaurant : string) (o : Order) (db : Db) :
  counted restaurant (with_order_created o db)
  = counted restaurant db
    ++ (if AnalyticsService.not_canceled_of restaurant o then [o] else []).
Proof. unfold counted, with_order_created. cbn [orders]. now rewrite filter_app. Qed.

(** X25. A new order enters the analytics of its restaurant only: after
    [createOrder] the dashboard of the order's restaurant counts one order
    more and its revenue has grown by the order's total, while every figure
    of every other restaurant's analytics is as before (new orders are not
    created CANCELED). *)
Theorem new_order_enters_its_restaurants_analytics
  (tz : Z) (db db' : Db) (fresh : RowDefaults) (customer : string)
  (input : CreateOrderInput) (res : OrderWithFinancials) :
  default_status fresh <> CANCELED ->
  createOrder fresh customer input db = (Ok res, db') ->
  (exists stats stats',
     DashboardAnalytics.getRestaurantAnalytics tz (restaurantId (order res)) db
     = (Ok stats, db)
     /\ DashboardAnalytics.getRestaurantAnalytics tz (restaurantId (order res)) db'
        = (Ok stats', db')
     /\ DashboardAnalytics.totalOrders stats' = DashboardAnalytics.totalOrders stats + 1
     /\ DashboardAnalytics.totalRevenueCents stats'
        = DashboardAnalytics.totalRevenueCents stats + totalCents (order res))
  /\ (forall other, other <> restaurantId (order res) ->
        fst (DashboardAnalytics.getRestaurantAnalytics tz other db')
        = fst (DashboardAnalytics.getRestaurantAnalytics tz other db)
        /\ forall limit,
             fst (AnalyticsService.getRestaurantAnalytics tz other limit db')
             = fst (AnalyticsService.getRestaurantAnalytics tz other limit db)).
Proof.
  intros Hstatus Hcall.
  destruct (createOrder_stored _ _ _ _ _ _ Hcall) as (-> & _ & Hst & _).
  split.
  - eexists. eexists. split; [reflexivity|]. split; [reflexivity|].
    cbn [DashboardAnalytics.totalOrders DashboardAnalytics.totalRevenueCents].
    fold (counted (restaurantId (order res)) db).
    fold (counted (restaurantId (order res)) (with_order_created (order res) db)).
    rewrite counted_after_create.
    assert (Hp : AnalyticsService.not_canceled_of (restaurantId (order res)) (order res)
                 = true).
    { unfold AnalyticsService.not_canceled_of. rewrite String.eqb_refl, Hst.
      destruct (OrderStatus_eqb_spec (default_status fresh) CANCELED) as [E | _];
        [contradiction | reflexivity]. }
    rewrite Hp. rewrite !(fold_left_add_sumZ totalCents), map_app, sumZ_app, length_app.
    cbn [map length]. rewrite sumZ_cons. change (sumZ []) with 0. split; lia.
  - intros other Hother.
    assert (Hsame : counted other (with_order_created (order res) db) = counted other db).
    { rewrite counted_after_create. unfold AnalyticsService.not_canceled_of.
      destruct (String.eqb_spec (restaurantId (order res)) other) as [E | _];
        [congruence|].
      cbn [andb]. apply app_nil_r. }
    split; [|intros limit].
    + rewrite (dashboard_depends_on_counted tz other (with_order_created (order res) db)),
        (dashboard_depends_on_counted tz other db), Hsame. reflexivity.
    + rewrite (summary_depends_on_counted tz other limit (with_order_created (order res) db)),
        (summary_depends_on_counted tz other limit db), Hsame. reflexivity.
Qed.

Lemma sort_newest_last (l : list Order) (x : Order) :
  (forall o, In o l -> createdAt o < createdAt x) ->
  JSArray.sort by_createdAt_desc (l ++ [x]) = x :: JSArray.sort by_createdAt_desc l.
Proof.
  unfold JSArray.sort. induction l as [|y l IH]; intros Hnew; [reflexivity|].
  cbn [app fold_right]. rewrite IH by (intros o Ho; apply Hnew; now right).
  cbn [JSArray.insert]. unfold by_createdAt_desc at 1.
  specialize (Hnew y (or_introl eq_refl)).
  destruct (Z.ltb_spec 0 (createdAt x - createdAt y)); [reflexivity | lia].
Qed.

(** X26. An order just placed heads the customer's list: when the new
    order's [createdAt] is later than that of every stored order,
    [listOrdersForUser] after [createOrder] returns the new order first and
    then the listing as it was. *)
Theorem new_order_heads_the_customers_list
  (db db' : Db) (fresh : RowDefaults) (customer : string) (input : CreateOrderInput)
  (res : OrderWithFinancials) (listed : list OrderWithFinancials) :
  (forall o, In o (orders db) -> createdAt o < default_createdAt fresh) ->
  createOrder fresh customer input db = (Ok res, db') ->
  listOrdersForUser customer db = (Ok listed, db) ->
  listOrdersForUser customer db' = (Ok (attachFinancials (order res) None :: listed), db').
Proof.
  intros Hnew Hcall Hlisted.
  destruct (createOrder_stored _ _ _ _ _ _ Hcall) as (-> & Hown & _ & Hat).
  unfold listOrdersForUser, bind, Prisma.order_findMany, query, ret in *.
  inversion Hlisted as [Hl]. clear Hlisted.
  unfold with_order_created at 1. cbn [orders]. rewrite filter_app. cbn [filter].
  apply String.eqb_eq in Hown. rewrite Hown.
  rewrite sort_newest_last; [reflexivity|].
  intros o Ho. apply filter_In in Ho. rewrite Hat. apply Hnew. tauto.
Qed.

End AfterCreate.

(** * Sample runs *)

Module Samples.

Import OrderService OrderCreation Examples Instances.

Lemma sample_order_ids_unique : NoDup (map order_id (orders store)).
Proof.
  simpl. repeat constructor; simpl; intros H; repeat destruct H as [H | H];
    try discriminate; assumption.
Qed.

(** A merchant who presses every button once, in a wrong order. *)
Definition hasty_requests : list OrderStatus :=
  [READY; PREPARING; PENDING; READY; COMPLETED; CANCELED].

Lemma status_requests_sample :
  Lifecycle.status_history "rest-1" "order-1" hasty_requests store
  = map (fun s => Some (set_status s order1))
        [PENDING; PREPARING; PREPARING; READY; COMPLETED; COMPLETED]
  /\ exists statuses,
       Lifecycle.status_history "rest-1" "order-1" hasty_requests store
       = map (fun s => Some (set_status s order1)) statuses
       /\ Lifecycle.count_changes PENDING statuses <= 3.
Proof.
  split; [reflexivity|].
  destruct (Lifecycle.status_requests_only_move_forward
              store "rest-1" "order-1" order1 hasty_requests eq_refl eq_refl)
    as (statuses & Hhistory & _ & Hcount & _).
  exists statuses. split; [exact Hhistory | exact Hcount].
Defined.

Lemma created_order_read_back_sample :
  exists res',
    getOrderForCustomer "order-5" "cust-1" (with_order_created order5 store)
    = (Ok res', with_order_created order5 store)
    /\ order res' = order5
    /\ subtotalCents res' = 2500
    /\ taxCents res' = 206.
Proof.
  destruct (ReadBack.created_order_is_read_back
              store (with_order_created order5 store) fresh "cust-1" two_burgers_one_fries
              (mkOrderWithFinancials order5 2500 206))
    as (res' & Hread & Horder & Hsubtotal & Htax).
  - cbn. intros H. repeat destruct H as [H | H]; try discriminate; assumption.
  - reflexivity.
  - exists res'. split; [exact Hread|]. split; [exact Horder|]. split; [exact Hsubtotal|].
    apply Htax; repeat constructor; cbn; lia.
Defined.

Lemma listing_agrees_sample :
  In (attachFinancials order2 None)
     (map (fun o => attachFinancials o None) [order4; order3; order2; order1])
  <-> getOrderForCustomer "order-2" "cust-1" store = (Ok (attachFinancials order2 None), store).
Proof.
  exact (Listings.listing_agrees_with_single_reads store "cust-1"
           (map (fun o => attachFinancials o None) [order4; order3; order2; order1])
           (attachFinancials order2 None) sample_order_ids_unique eq_refl).
Defined.

Lemma tax_sample :
  Tax.taxOf 2500 = 206
  /\ - 5000 < 10000 * 206 - 825 * 2500 <= 5000
  /\ totalCents order5 = 2500 + 206.
Proof.
  destruct (Tax.tax_is_nearest_cent store (with_order_created order5 store) fresh "cust-1"
              two_burgers_one_fries (mkOrderWithFinancials order5 2500 206) eq_refl)
    as (Htax & Hnear & _ & Htotal & _).
  - cbn. split; [discriminate | reflexivity].
  - split; [symmetry; exact Htax|]. split; [exact Hnear | exact Htotal].
Defined.

(** Two fries and two burgers in one order: a tie. *)
Definition tie_rows : list AnalyticsService.OrderItemRow :=
  [AnalyticsService.mkOrderItemRow (mkOrderItem "item-2" "Fries" 2 500) "order-1";
   AnalyticsService.mkOrderItemRow (mkOrderItem "item-1" "Burger" 2 1000) "order-1"].

Lemma popular_items_ties_sample :
  AnalyticsService.rankedItems tie_rows
  = [AnalyticsService.mkPopularItem "item-2" "Fries" 2 1 1000;
     AnalyticsService.mkPopularItem "item-1" "Burger" 2 1 2000]
  /\ exists earlier line later,
       tie_rows = earlier ++ line :: later
       /\ menuItemId (AnalyticsService.row_item line) = "item-2"%string
       /\ ~ In "item-1"%string
               (map (fun r => menuItemId (AnalyticsService.row_item r)) earlier).
Proof.
  split; [reflexivity|].
  exact (Ties.popular_items_ties_keep_first_ordered tie_rows 0 1
           (AnalyticsService.mkPopularItem "item-2" "Fries" 2 1 1000)
           (AnalyticsService.mkPopularItem "item-1" "Burger" 2 1 2000)
           (le_n 1) eq_refl eq_refl eq_refl).
Defined.

(** The peak times of the sample store in UTC: noon first, then the hours
    without orders from 0 on. *)
Definition sample_peak : list AnalyticsService.PeakTime :=
  AnalyticsService.mkPeakTime 12 3 2700
  :: map (fun h => AnalyticsService.mkPeakTime h 0 0)
         (map Z.of_nat (seq 0 12 ++ seq 13 11)).

Lemma peak_times_ties_sample :
  AnalyticsService.getPeakTimes 0 "rest-1" store = (Ok sample_peak, store)
  /\ AnalyticsService.hour (AnalyticsService.mkPeakTime 11 0 0)
     < AnalyticsService.hour (AnalyticsService.mkPeakTime 13 0 0).
Proof.
  split; [reflexivity|].
  exact (Ties.peak_times_ties_by_hour 0 store "rest-1" sample_peak 12 13
           (AnalyticsService.mkPeakTime 11 0 0) (AnalyticsService.mkPeakTime 13 0 0)
           eq_refl (le_n 13) eq_refl eq_refl eq_refl).
Defined.

(** The sample store uses short ids: the samples take an id test that
    accepts them. *)
Definition any_id (s : string) : bool := true.

Lemma merchant_buttons_sample :
  (exists req,
     MerchantDashboardScreen.handleOrderStatusChange (Some "rest-1"%string) "order-2" COMPLETED
     = Some req
     /\ RestaurantRouter.patch_order any_id (Express.request_params req)
                                     (Express.request_body req) store
        = (Express.Responded 200 (attachFinancials (set_status COMPLETED order2) None),
           with_order_updated "order-2" (set_status COMPLETED) store))
  /\ MerchantDashboardScreen.actions order4 = [].
Proof.
  split.
  - destruct (ScreenProps.merchant_buttons_are_the_accepted_transitions any_id
                store "rest-1" order2 eq_refl eq_refl ltac:(discriminate) eq_refl eq_refl)
      as (Hpress & _ & _).
    apply (Hpress (MerchantDashboardScreen.mkOrderAction "Mark Done" COMPLETED
                     (Some MerchantDashboardScreen.primary))).
    left. reflexivity.
  - destruct (ScreenProps.merchant_buttons_are_the_accepted_transitions any_id
                store "rest-1" order4 eq_refl eq_refl ltac:(discriminate) eq_refl eq_refl)
      as (_ & _ & Hnone).
    apply Hnone. left. reflexivity.
Defined.

(** A text field as typed: nothing to trim. *)
Definition as_typed (s : string) : string := s.

(** The request of the order screen after a route of 25 minutes was
    computed. *)
Definition to_cary : Express.Request :=
  Express.mkRequest
    (Zod.JObject [MerchantDashboardScreen.field "orderId" (Zod.JString "order-1")])
    (Zod.JObject [MerchantDashboardScreen.field "routeOrigin" (Zod.JString "Raleigh");
                  MerchantDashboardScreen.field "routeDestination" (Zod.JString "Cary");
                  MerchantDashboardScreen.field "pickupEtaMin" (OrderStatusScreen.number 25)]).

Definition order1_to_cary : Order :=
  mkOrder "order-1" "cust-1" "rest-1" PENDING 25 "Raleigh" "Cary" 1000 1704110400000
          (items order1).

Lemma route_edit_sample :
  OrderStatusScreen.handleUpdateRoute as_typed order1 "Raleigh" "Cary" (Some 1500)
  = Some to_cary
  /\ exists db',
       OrdersRouter.patch_route any_id "cust-1" (Express.request_params to_cary)
                                (Express.request_body to_cary) store
       = (Express.Responded 200 (attachFinancials order1_to_cary None), db')
       /\ findOrder "order-1" db' = Some order1_to_cary.
Proof.
  split; [reflexivity|].
  destruct (ScreenProps.route_edit_request_is_accepted any_id as_typed store "cust-1" order1
              "Raleigh" "Cary" (Some 1500) to_cary eq_refl eq_refl eq_refl eq_refl)
    as (_ & Haccepted & _).
  apply Haccepted; reflexivity.
Defined.

(** An order request whose second line gives no quantity: the fries are
    ordered once. *)
Definition two_burgers_and_fries : Zod.JSValue :=
  Zod.JObject
    [MerchantDashboardScreen.field "restaurantId" (Zod.JString "rest-1");
     MerchantDashboardScreen.field "items"
       (Zod.JArray
          [Zod.JObject [MerchantDashboardScreen.field "menuItemId" (Zod.JString "item-1");
                        MerchantDashboardScreen.field "quantity" (OrderStatusScreen.number 2)];
           Zod.JObject [MerchantDashboardScreen.field "menuItemId" (Zod.JString "item-2")]]);
     MerchantDashboardScreen.field "pickupEtaMin" (OrderStatusScreen.number 20);
     MerchantDashboardScreen.field "routeOrigin" (Zod.JString "Raleigh");
     MerchantDashboardScreen.field "routeDestination" (Zod.JString "Cary")].

Example post_sample :
  OrdersRouter.post any_id fresh "cust-1" two_burgers_and_fries store
  = (Express.Responded 201 (mkOrderWithFinancials order5 2500 206),
     with_order_created order5 store)
  /\ map quantity (items order5) = [2; 1].
Proof. split; vm_compute; reflexivity. Qed.

(** The item rows of the sample store's counted orders, last row first:
    the two rankings still hold the same items. *)
Example popular_items_reversed_sample :
  AnalyticsService.rankedItems
    (rev (ItemRankings.rows_of (RestaurantAnalyticsProps.counted "rest-1" store)))
  = [AnalyticsService.mkPopularItem "item-2" "Fries" 10 1 5000;
     AnalyticsService.mkPopularItem "item-1" "Burger" 8 2 8000]
  /\ ItemRankings.dashboard_items (RestaurantAnalyticsProps.counted "rest-1" store)
     = [DashboardAnalytics.mkPopularItem "item-2" "Fries" 10 5000;
        DashboardAnalytics.mkPopularItem "item-1" "Burger" 8 8000].
Proof. split; vm_compute; reflexivity. Qed.

Lemma createOrder_outcome_sample :
  exists res, fst (createOrder fresh "cust-1" two_burgers_one_fries store) = Ok res.
Proof.
  destruct (CreateOrderProps.createOrder_outcome store fresh "cust-1" two_burgers_one_fries
              sample_menu_ids_unique) as (_ & _ & Hok).
  apply Hok. split; [discriminate|]. split.
  - cbn. repeat constructor; cbn; intros H; repeat destruct H as [H | H];
      try discriminate; assumption.
  - intros id Hid. cbn in Hid. destruct Hid as [<- | [<- | []]].
    + exists burger. cbn. repeat split; auto.
    + exists fries. cbn. repeat split; auto.
Defined.

Definition nothing_ordered : CreateOrderInput := request [].

Lemma createOrder_empty_sample :
  createOrder fresh "cust-1" nothing_ordered store
  = (Ok (mkOrderWithFinancials
           (mkOrder "order-5" "cust-1" "rest-1" PENDING 20 "Raleigh" "Cary" 0
                    1704200000000 []) 0 0),
     with_order_created
       (mkOrder "order-5" "cust-1" "rest-1" PENDING 20 "Raleigh" "Cary" 0
                1704200000000 []) store).
Proof.
  exact (ServiceEdges.createOrder_accepts_empty_item_list store fresh "cust-1"
           nothing_ordered (mkRestaurant "rest-1" true) eq_refl eq_refl).
Defined.

(** The store after order 2 is completed, its rows in the opposite order. *)
Definition completed_store : Db :=
  with_order_updated "order-2" (set_status COMPLETED) store.

Definition completed_store_reversed : Db :=
  mkDb (restaurants store) (menuItems store) (rev (orders completed_store)).

Lemma analytics_follow_status_sample :
  exists stats stats',
    DashboardAnalytics.getRestaurantAnalytics 0 "rest-1" store = (Ok stats, store)
    /\ DashboardAnalytics.getRestaurantAnalytics 0 "rest-1" completed_store_reversed
       = (Ok stats', completed_store_reversed)
    /\ DashboardAnalytics.totalOrders stats' = DashboardAnalytics.totalOrders stats
    /\ DashboardAnalytics.totalRevenueCents stats'
       = DashboardAnalytics.totalRevenueCents stats
    /\ DashboardAnalytics.ordersByDay stats' = DashboardAnalytics.ordersByDay stats
    /\ DashboardAnalytics.ordersByWeek stats' = DashboardAnalytics.ordersByWeek stats.
Proof.
  destruct (StatusAndAnalytics.analytics_follow_status_changes 0 store completed_store
              completed_store_reversed "rest-1" "order-2" order2 COMPLETED None
              (attachFinancials (set_status COMPLETED order2) None)
              sample_order_ids_unique eq_refl)
    as (stats & stats' & summary & summary' & Hstats & Hstats' & _ & _ & Hkeeps & _).
  - discriminate.
  - reflexivity.
  - apply Permutation_sym, Permutation_rev.
  - destruct Hkeeps as (Hn & Hrev & _ & Hday & Hweek & _); [discriminate|].
    exists stats, stats'. repeat (split; [assumption|]). assumption.
Defined.

Lemma new_order_analytics_sample :
  exists stats stats',
    DashboardAnalytics.getRestaurantAnalytics 0 "rest-1" store = (Ok stats, store)
    /\ DashboardAnalytics.getRestaurantAnalytics 0 "rest-1" (with_order_created order5 store)
       = (Ok stats', with_order_created order5 store)
    /\ DashboardAnalytics.totalOrders stats' = DashboardAnalytics.totalOrders stats + 1
    /\ DashboardAnalytics.totalRevenueCents stats'
       = DashboardAnalytics.totalRevenueCents stats + 2706.
Proof.
  destruct (AfterCreate.new_order_enters_its_restaurants_analytics 0 store
              (with_order_created order5 store) fresh "cust-1" two_burgers_one_fries
              (mkOrderWithFinancials order5 2500 206))
    as [Hown _].
  - discriminate.
  - reflexivity.
  - exact Hown.
Defined.

Lemma new_order_heads_sample :
  listOrdersForUser "cust-1" (with_order_created order5 store)
  = (Ok (map (fun o => attachFinancials o None) [order5; order4; order3; order2; order1]),
     with_order_created order5 store).
Proof.
  apply (AfterCreate.new_order_heads_the_customers_list store
           (with_order_created order5 store) fresh "cust-1" two_burgers_one_fries
           (mkOrderWithFinancials order5 2500 206)
           (map (fun o => attachFinancials o None) [order4; order3; order2; order1])).
  - intros o Ho. cbn in Ho. repeat destruct Ho as [<- | Ho]; try contradiction; cbn; lia.
  - reflexivity.
  - reflexivity.
Defined.

End Samples.
